(** * odin-ToDo: entity models, validation and the storage layer

    A shallow embedding of the JavaScript sources
    - [src/modules/models/Task.js], [src/modules/models/Project.js],
    - [src/modules/utils/Validation.js],
    - [src/modules/services/StorageService.js],
    - [src/modules/services/TaskService.js] and [ProjectService.js],
    followed by the properties of the specification that concern them and
    by further properties of the models and the services.

    Conventions of the embedding.
    - A JavaScript value is a [value]: the JSON shapes plus [undefined] and
      [Date].  A number is an IEEE-754 binary64: an integer is written
      [VNum n], every other double ([NaN], the infinities, the fractions)
      [VFloat x], and the arithmetic on numbers ([taskCount++], the
      percentage of [getChecklistProgress]) is that of [SpecFloat] at
      precision 53.  Lengths, indices and time values are integers.
    - A string is a sequence of UTF-16 code units, here the ones below 256:
      a character of [string] is the code unit of that number.  On these
      strings [trim], [toLowerCase] and [length] are the ones of JavaScript;
      a string with a code unit from 256 on is outside the embedding.
    - An operation that can throw returns a [result]; an operation that also
      reads or writes mutable state is a function [S -> result A * S].  A
      [try]/[catch] keeps the writes made before the throw, as JavaScript does.
    - What the browser and the libraries provide ([uuidv4], the clock,
      [Date.parse], [toISOString], [JSON.stringify], [JSON.parse] and whether
      [localStorage.setItem] throws) is a [platform], over which every
      definition is parameterised. *)

From Stdlib Require Import ZArith Ascii List Bool Lia DecimalString SpecFloat.
From Stdlib Require String DecimalZ.
From stdpp Require Import base option list strings gmap.

Set Warnings "-register-all".
Local Open Scope Z_scope.

(** ** JavaScript strings *)

Module Str.

Definition eqb (a b : string) : bool := String.eqb a b.

Definition isEmpty (s : string) : bool :=
  match s with EmptyString => true | String _ _ => false end.

(** The white space and the line terminators among the code units below
    256, which are the characters [String.prototype.trim] strips there:
    U+0009 to U+000D, the space and the no-break space U+00A0. *)
Definition isWhiteSpace (c : ascii) : bool :=
  let n := nat_of_ascii c in
  ((9 <=? n)%nat && (n <=? 13)%nat) || (n =? 32)%nat || (n =? 160)%nat.

Fixpoint trimStart (s : string) : string :=
  match s with
  | EmptyString => EmptyString
  | String c r => if isWhiteSpace c then trimStart r else s
  end.

Fixpoint trimEnd (s : string) : string :=
  match s with
  | EmptyString => EmptyString
  | String c r =>
      let r' := trimEnd r in
      if isWhiteSpace c && isEmpty r' then EmptyString else String c r'
  end.

Definition trim (s : string) : string := trimEnd (trimStart s).

(** The lower case of a code unit below 256: of [A] to [Z] and of U+00C0 to
    U+00DE, the multiplication sign U+00D7 apart. *)
Definition lowerChar (c : ascii) : ascii :=
  let n := nat_of_ascii c in
  if ((65 <=? n)%nat && (n <=? 90)%nat)
     || ((192 <=? n)%nat && (n <=? 222)%nat && negb (n =? 215)%nat)
  then ascii_of_nat (n + 32) else c.

Fixpoint toLowerCase (s : string) : string :=
  match s with
  | EmptyString => EmptyString
  | String c r => String (lowerChar c) (toLowerCase r)
  end.

Definition startsWith (s p : string) : bool := String.prefix p s.

Fixpoint includes (s sub : string) : bool :=
  String.prefix sub s ||
  match s with
  | EmptyString => false
  | String _ r => includes r sub
  end.

(** [s.replace(/[<>]/g, '')] *)
Fixpoint removeAngles (s : string) : string :=
  match s with
  | EmptyString => EmptyString
  | String c r =>
      if Ascii.eqb c "<" || Ascii.eqb c ">" then removeAngles r
      else String c (removeAngles r)
  end.

(** [s.length]: the number of code units *)
Definition length (s : string) : nat := String.length s.

Definition substring (s : string) (from to : nat) : string :=
  String.substring from (to - from) s.

(** [Array.prototype.join] on an array of strings *)
Fixpoint join (sep : string) (l : list string) : string :=
  match l with
  | [] => ""
  | [x] => x
  | x :: r => x +:+ sep +:+ join sep r
  end.

(** The decimal text of a natural number, as a template literal prints it *)
Definition ofNat (n : nat) : string := NilZero.string_of_uint (Nat.to_uint n).

End Str.

(** ** Binary64 arithmetic, for the numbers that are not integers and for
    [Math.round((completed / total) * 100)] *)

Module Float64.

Definition prec : Z := 53.
Definition emax : Z := 1024.

(** The double nearest to an integer (exact below 2^53) *)
Definition ofZ (z : Z) : spec_float := binary_normalize prec emax z 0 false.

Definition sub (x y : spec_float) : spec_float := SFsub prec emax x y.
Definition div (x y : spec_float) : spec_float := SFdiv prec emax x y.
Definition mul (x y : spec_float) : spec_float := SFmul prec emax x y.

(** [x < y], [x <= y] and [x === y]: each is false when one side is [NaN] *)
Definition ltb (x y : spec_float) : bool := SFltb x y.
Definition leb (x y : spec_float) : bool := SFleb x y.
Definition eqb (x y : spec_float) : bool := SFeqb x y.

(** [Math.round]: the nearest integer, a tie going towards +infinity.
    On a finite [m * 2^e] with [e < 0] this is
    [floor ((2 m + 2^-e) / 2^(1 - e))], computed on integers. *)
Definition round (x : spec_float) : spec_float :=
  match x with
  | S754_finite s m e =>
      if 0 <=? e then x
      else
        let v := if s then Z.neg m else Z.pos m in
        let n := (2 * v + 2 ^ (- e)) / 2 ^ (1 - e) in
        if n =? 0 then S754_zero s else ofZ n
  | _ => x
  end.

(** [Math.round((completed / total) * 100)] on two array lengths *)
Definition percent (completed total : nat) : spec_float :=
  round (mul (div (ofZ (Z.of_nat completed)) (ofZ (Z.of_nat total))) (ofZ 100)).

(** The integer a double denotes, when it denotes one *)
Definition toZ (x : spec_float) : option Z :=
  match x with
  | S754_zero _ => Some 0
  | S754_finite s m e =>
      let v := if s then Z.neg m else Z.pos m in
      if 0 <=? e then Some (v * 2 ^ e)
      else if v mod 2 ^ (- e) =? 0 then Some (v / 2 ^ (- e)) else None
  | _ => None
  end.

(** The integral part of a finite double, rounded towards zero *)
Definition trunc (x : spec_float) : option Z :=
  match x with
  | S754_zero _ => Some 0
  | S754_finite s m e =>
      let v := if s then Z.neg m else Z.pos m in
      Some (if 0 <=? e then v * 2 ^ e else Z.quot v (2 ^ (- e)))
  | _ => None
  end.

End Float64.

(** ** JavaScript values *)

Inductive jsdate : Type :=
| ValidDate (t : Z)
| InvalidDate.

Inductive value : Type :=
| VUndefined
| VNull
| VBool (b : bool)
(** a number that is an integer: the double of that value *)
| VNum (n : Z)
| VStr (s : string)
| VDate (d : jsdate)
| VArr (xs : list value)
| VObj (fields : list (string * value))
(** a number that is not an integer: [NaN], an infinity or a fraction *)
| VFloat (x : spec_float).

Inductive jstype : Type :=
| TUndefined | TObject | TBoolean | TNumber | TString.

Definition typeof (v : value) : jstype :=
  match v with
  | VUndefined => TUndefined
  | VNull => TObject
  | VBool _ => TBoolean
  | VNum _ | VFloat _ => TNumber
  | VStr _ => TString
  | VDate _ | VArr _ | VObj _ => TObject
  end.

Definition jstype_eqb (a b : jstype) : bool :=
  match a, b with
  | TUndefined, TUndefined | TObject, TObject | TBoolean, TBoolean
  | TNumber, TNumber | TString, TString => true
  | _, _ => false
  end.

(** [ToBoolean]: what [!v], [v || w] and [Boolean(v)] look at *)
Definition truthy (v : value) : bool :=
  match v with
  | VUndefined | VNull => false
  | VBool b => b
  | VNum n => negb (n =? 0)
  | VFloat (S754_zero _ | S754_nan) => false
  | VFloat _ => true
  | VStr s => negb (Str.isEmpty s)
  | VDate _ | VArr _ | VObj _ => true
  end.

(** [a || b] *)
Definition or_else (a b : value) : value := if truthy a then a else b.

(** A parameter default, [{ x = d }]: taken when the property is [undefined] *)
Definition default_to (v d : value) : value :=
  match v with VUndefined => d | _ => v end.

Definition isUndefined (v : value) : bool :=
  match v with VUndefined => true | _ => false end.

Definition isNull (v : value) : bool :=
  match v with VNull => true | _ => false end.

Definition isDate (v : value) : bool :=
  match v with VDate _ => true | _ => false end.

Definition isArray (v : value) : bool :=
  match v with VArr _ => true | _ => false end.

Fixpoint lookup_field (k : string) (fs : list (string * value)) : value :=
  match fs with
  | [] => VUndefined
  | (k', v) :: r => if Str.eqb k' k then v else lookup_field k r
  end.

(** [o.k] on a value that is neither [null] nor [undefined] *)
Definition get (o : value) (k : string) : value :=
  match o with
  | VObj fs => lookup_field k fs
  | _ => VUndefined
  end.

(** [o.k = v] on an object literal under construction *)
Fixpoint set_field (k : string) (v : value) (fs : list (string * value))
  : list (string * value) :=
  match fs with
  | [] => [(k, v)]
  | (k', v') :: r =>
      if Str.eqb k' k then (k, v) :: r else (k', v') :: set_field k v r
  end.

Definition jsdate_eqb (a b : jsdate) : bool :=
  match a, b with
  | ValidDate x, ValidDate y => x =? y
  | _, _ => false
  end.

(** [a === b].  Objects, arrays and dates compare by identity in JavaScript;
    the embedding has no identities, and two such values are never [===]. *)
Definition strict_eq (a b : value) : bool :=
  match a, b with
  | VUndefined, VUndefined => true
  | VNull, VNull => true
  | VBool x, VBool y => Bool.eqb x y
  | VNum x, VNum y => x =? y
  | VFloat x, VFloat y => Float64.eqb x y
  | VNum x, VFloat y => Float64.eqb (Float64.ofZ x) y
  | VFloat x, VNum y => Float64.eqb x (Float64.ofZ y)
  | VStr x, VStr y => Str.eqb x y
  | _, _ => false
  end.

(** The double a number denotes *)
Definition double (v : value) : spec_float :=
  match v with
  | VNum n => Float64.ofZ n
  | VFloat x => x
  | _ => S754_nan
  end.


(** [a < b] and [a <= b] on two numbers; two integers compare as integers *)
Definition number_ltb (a b : value) : bool :=
  match a, b with
  | VNum x, VNum y => x <? y
  | _, _ => Float64.ltb (double a) (double b)
  end.

Definition number_leb (a b : value) : bool :=
  match a, b with
  | VNum x, VNum y => x <=? y
  | _, _ => Float64.leb (double a) (double b)
  end.



(** The string held by a value already checked to be one *)
Definition string_of (v : value) : string :=
  match v with VStr s => s | _ => "" end.

(** ** Exceptions *)

Record exn : Type := Exn {
  exn_name : string;
  exn_message : string;
  exn_code : option Z
}.

Definition Error (msg : string) : exn := Exn "Error" msg None.
Definition TypeError (msg : string) : exn := Exn "TypeError" msg None.
Definition RangeError (msg : string) : exn := Exn "RangeError" msg None.

Inductive result (A : Type) : Type :=
| Ok (a : A)
| Throw (e : exn).
Arguments Ok {A} a.
Arguments Throw {A} e.

Definition isOk {A} (r : result A) : bool :=
  match r with Ok _ => true | Throw _ => false end.

(** ** Stateful computations that may throw *)

Definition M (St A : Type) : Type := St -> result A * St.

Definition ret {St A} (a : A) : M St A := fun s => (Ok a, s).

Definition throw {St A} (e : exn) : M St A := fun s => (Throw e, s).

Definition bind {St A B} (m : M St A) (k : A -> M St B) : M St B :=
  fun s =>
    match m s with
    | (Ok a, s') => k a s'
    | (Throw e, s') => (Throw e, s')
    end.

(** [try { body } catch (e) { handler }] *)
Definition try_catch {St A} (body : M St A) (handler : exn -> M St A) : M St A :=
  fun s =>
    match body s with
    | (Ok a, s') => (Ok a, s')
    | (Throw e, s') => handler e s'
    end.

Definition gets {St A} (f : St -> A) : M St A := fun s => (Ok (f s), s).

Definition modify {St} (f : St -> St) : M St unit := fun s => (Ok tt, f s).

Definition lift_result {St A} (r : result A) : M St A := fun s => (r, s).

(** Run a computation on a component of the state *)
Definition zoom {St T A} (proj : St -> T) (upd : T -> St -> St) (m : M T A) : M St A :=
  fun s => let '(r, t') := m (proj s) in (r, upd t' s).

Declare Scope js_scope.
Delimit Scope js_scope with js.
Notation "x <- m ;; k" := (bind m (fun x => k))
  (at level 100, m at next level, right associativity) : js_scope.
Notation "m ;; k" := (bind m (fun _ => k))
  (at level 100, right associativity) : js_scope.
Local Open Scope js_scope.

(** [forEach] with an index, for a body that may throw *)
Fixpoint forEach {St A} (f : A -> nat -> M St unit) (l : list A) (index : nat)
  : M St unit :=
  match l with
  | [] => ret tt
  | x :: r => f x index ;; forEach f r (S index)
  end.

(** [map] for a body with effects *)
Fixpoint mapM {St A B} (f : A -> M St B) (l : list A) : M St (list B) :=
  match l with
  | [] => ret []
  | x :: r => y <- f x ;; ys <- mapM f r ;; ret (y :: ys)
  end.

(** ** The platform *)

Record platform : Type := Platform {
  (** the n-th identifier [uuidv4()] hands out *)
  uuidv4 : nat -> string;
  (** the n-th reading of the clock, [new Date()], as a time value *)
  Date_now : nat -> Z;
  (** [new Date(s)] for a string *)
  Date_parse : string -> jsdate;
  (** [new Date(v)] for an array or a plain object *)
  Date_of_object : value -> jsdate;
  (** [d.toISOString()] for a valid date *)
  toISOString : Z -> string;
  (** [JSON.stringify]; [None] when it throws *)
  JSON_stringify : value -> option string;
  (** [JSON.parse]; [None] when it throws *)
  JSON_parse : string -> option value;
  (** the exception [localStorage.setItem(k, v)] throws on the given
      contents, if any *)
  setItem_throws : list (string * string) -> string -> string -> option exn
}.

(** The counters of the two oracles *)
Record env : Type := Env {
  uuid_calls : nat;
  clock_calls : nat
}.

(** ** Dates and the two oracles *)

Section Dates.
Context (pf : platform).

(** The largest time value of a [Date], in milliseconds *)
Definition max_time : Z := 8640000000000000.

(** [new Date(v)] *)
Definition new_Date (v : value) : jsdate :=
  match v with
  | VDate d => d
  | VStr s => Date_parse pf s
  | VNum n => if Z.abs n <=? max_time then ValidDate n else InvalidDate
  | VFloat x =>
      match Float64.trunc x with
      | Some n => if Z.abs n <=? max_time then ValidDate n else InvalidDate
      | None => InvalidDate
      end
  | VBool b => ValidDate (if b then 1 else 0)
  | VNull => ValidDate 0
  | VUndefined => InvalidDate
  | VArr _ | VObj _ => Date_of_object pf v
  end.

(** [new Date()] *)
Definition Date_current : M env jsdate :=
  fun e =>
    (Ok (ValidDate (Date_now pf (clock_calls e))),
     Env (uuid_calls e) (S (clock_calls e))).

(** [uuidv4()] *)
Definition fresh_uuid : M env value :=
  fun e =>
    (Ok (VStr (uuidv4 pf (uuid_calls e))),
     Env (S (uuid_calls e)) (clock_calls e)).

(** [d.toISOString()], which throws on an invalid date *)
Definition date_toISOString (d : jsdate) : result string :=
  match d with
  | ValidDate t => Ok (toISOString pf t)
  | InvalidDate => Throw (RangeError "Invalid time value")
  end.

(** [a > b] on two dates: a comparison with [NaN] is false *)
Definition date_gt (a b : jsdate) : bool :=
  match a, b with
  | ValidDate x, ValidDate y => y <? x
  | _, _ => false
  end.

End Dates.

(** ** [models/Task.js] *)

Module Task.

Module Item.
Record t : Type := Make {
  id : value;
  text : string;
  completed : bool
}.
End Item.

Module Progress.
Record t : Type := Make {
  completed : nat;
  total : nat;
  percentage : spec_float
}.
End Progress.

Record t : Type := Make {
  id : value;
  title : string;
  description : value;
  dueDate : option jsdate;
  priority : string;
  notes : value;
  checklist : list Item.t;
  completed : bool;
  projectId : value;
  createdAt : jsdate;
  updatedAt : jsdate
}.

Definition validPriorities : list string := ["high"; "medium"; "low"].

(** [validPriorities.includes(priority)] *)
Definition includes_priority (priority : value) : bool :=
  existsb (fun p => strict_eq (VStr p) priority) validPriorities.

Definition title_required : exn :=
  Error "Task title is required and must be a non-empty string".

Definition priority_invalid : exn :=
  Error ("Priority must be one of: " +:+ Str.join ", " validPriorities).

Definition at_index (index : nat) (what : string) : exn :=
  Error ("Checklist item at index " +:+ Str.ofNat index +:+ what).

(** The body of the constructor's [checklist.forEach] *)
Definition check_item (item : value) (index : nat) : result unit :=
  if negb (truthy item) || negb (jstype_eqb (typeof item) TObject) then
    Throw (at_index index " must be an object")
  else if negb (truthy (get item "text"))
          || negb (jstype_eqb (typeof (get item "text")) TString) then
    Throw (at_index index " must have a text property")
  else if negb (jstype_eqb (typeof (get item "completed")) TBoolean) then
    Throw (at_index index " must have a boolean completed property")
  else Ok tt.

Definition item_value (i : Item.t) : value :=
  VObj [("id", Item.id i); ("text", VStr (Item.text i));
        ("completed", VBool (Item.completed i))].

Definition dueDate_value (d : option jsdate) : value :=
  match d with Some d => VDate d | None => VNull end.

(** [updates.k !== undefined ? updates.k : current] *)
Definition provided (updates : value) (k : string) (current : value) : value :=
  if negb (isUndefined (get updates k)) then get updates k else current.

(** [checklist.findIndex(item => item.id === itemId)] *)
Fixpoint findIndex (itemId : value) (l : list Item.t) : option nat :=
  match l with
  | [] => None
  | i :: r =>
      if strict_eq (Item.id i) itemId then Some O
      else option_map S (findIndex itemId r)
  end.

Definition text_required : exn := Error "Checklist item text is required".
Definition item_not_found : exn := Error "Checklist item not found".

Section WithPlatform.
Context (pf : platform).

(** The body of the constructor's [checklist.map] *)
Definition make_item (item : value) : M env Item.t :=
  id <- (if truthy (get item "id") then ret (get item "id")
         else fresh_uuid pf) ;;
  ret (Item.Make id (Str.trim (string_of (get item "text")))
         (truthy (get item "completed"))).

Definition constructor (arg : value) : M env t :=
  match arg with
  | VUndefined | VNull => throw (TypeError "Cannot destructure the argument")
  | _ =>
  let id := default_to (get arg "id") VNull in
  let title := get arg "title" in
  let description := default_to (get arg "description") (VStr "") in
  let dueDate := default_to (get arg "dueDate") VNull in
  let priority := default_to (get arg "priority") (VStr "medium") in
  let notes := default_to (get arg "notes") (VStr "") in
  let checklist := default_to (get arg "checklist") (VArr []) in
  let completed := default_to (get arg "completed") (VBool false) in
  let projectId := default_to (get arg "projectId") (VStr "default") in
  let createdAt := default_to (get arg "createdAt") VNull in
  let updatedAt := default_to (get arg "updatedAt") VNull in
  if negb (truthy title) || negb (jstype_eqb (typeof title) TString)
     || Str.isEmpty (Str.trim (string_of title)) then throw title_required
  else if negb (includes_priority priority) then throw priority_invalid
  else if negb (isNull dueDate) && negb (isDate dueDate)
          && negb (jstype_eqb (typeof dueDate) TString) then
    throw (Error "Due date must be a Date object, ISO string, or null")
  else
    match checklist with
    | VArr items =>
        forEach (fun item index => lift_result (check_item item index)) items O ;;
        id' <- (if truthy id then ret id else fresh_uuid pf) ;;
        let dueDate' :=
          if truthy dueDate then
            Some (match dueDate with
                  | VDate d => d
                  | _ => new_Date pf dueDate
                  end)
          else None in
        checklist' <- mapM make_item items ;;
        createdAt' <- (if truthy createdAt then ret (new_Date pf createdAt)
                       else Date_current pf) ;;
        updatedAt' <- (if truthy updatedAt then ret (new_Date pf updatedAt)
                       else Date_current pf) ;;
        ret (Make id' (Str.trim (string_of title))
               (or_else description (VStr ""))
               dueDate'
               (string_of priority)
               (or_else notes (VStr ""))
               checklist'
               (truthy completed)
               (or_else projectId (VStr "default"))
               createdAt' updatedAt')
    | _ => throw (Error "Checklist must be an array")
    end
  end.

(** A method runs on the instance and the oracles *)
Definition in_env {A} (m : M env A) : M (t * env) A :=
  zoom snd (fun e s => (fst s, e)) m.

Definition update (updates : value) : M (t * env) unit :=
  this <- gets fst ;;
  match updates with
  | VUndefined | VNull => throw (TypeError "Cannot read properties of updates")
  | _ =>
      now <- in_env (Date_current pf) ;;
      let updatedData := VObj [
        ("id", id this);
        ("title", provided updates "title" (VStr (title this)));
        ("description", provided updates "description" (description this));
        ("dueDate", provided updates "dueDate" (dueDate_value (dueDate this)));
        ("priority", provided updates "priority" (VStr (priority this)));
        ("notes", provided updates "notes" (notes this));
        ("checklist",
          provided updates "checklist" (VArr (map item_value (checklist this))));
        ("completed", provided updates "completed" (VBool (completed this)));
        ("projectId", provided updates "projectId" (projectId this));
        ("createdAt", VDate (createdAt this));
        ("updatedAt", VDate now) ] in
      updatedTask <- in_env (constructor updatedData) ;;
      (* Object.assign(this, updatedTask) *)
      modify (fun s => (updatedTask, snd s))
  end.

Definition touch : M (t * env) unit :=
  now <- in_env (Date_current pf) ;;
  modify (fun s =>
    let this := fst s in
    (Make (id this) (title this) (description this) (dueDate this)
       (priority this) (notes this) (checklist this) (completed this)
       (projectId this) (createdAt this) now, snd s)).

Definition set_checklist (l : list Item.t) : M (t * env) unit :=
  modify (fun s =>
    let this := fst s in
    (Make (id this) (title this) (description this) (dueDate this)
       (priority this) (notes this) l (completed this)
       (projectId this) (createdAt this) (updatedAt this), snd s)).

Definition toggleCompletion : M (t * env) unit :=
  modify (fun s =>
    let this := fst s in
    (Make (id this) (title this) (description this) (dueDate this)
       (priority this) (notes this) (checklist this) (negb (completed this))
       (projectId this) (createdAt this) (updatedAt this), snd s)) ;;
  touch.

Definition addChecklistItem (text : value) : M (t * env) unit :=
  if negb (truthy text) || negb (jstype_eqb (typeof text) TString)
     || Str.isEmpty (Str.trim (string_of text)) then throw text_required
  else
    this <- gets fst ;;
    id <- in_env (fresh_uuid pf) ;;
    set_checklist
      (checklist this ++ [Item.Make id (Str.trim (string_of text)) false]) ;;
    touch.

Definition updateChecklistItem (itemId updates : value) : M (t * env) unit :=
  this <- gets fst ;;
  match findIndex itemId (checklist this) with
  | None => throw item_not_found
  | Some i =>
      match updates with
      | VUndefined | VNull =>
          throw (TypeError "Cannot read properties of updates")
      | _ =>
        (if negb (isUndefined (get updates "text")) then
           let text := get updates "text" in
           if negb (truthy text) || negb (jstype_eqb (typeof text) TString)
              || Str.isEmpty (Str.trim (string_of text)) then throw text_required
           else
             this <- gets fst ;;
             set_checklist
               (alter (fun it => Item.Make (Item.id it)
                                   (Str.trim (string_of text))
                                   (Item.completed it)) i (checklist this))
         else ret tt) ;;
        (if negb (isUndefined (get updates "completed")) then
           this <- gets fst ;;
           set_checklist
             (alter (fun it => Item.Make (Item.id it) (Item.text it)
                                 (truthy (get updates "completed")))
                i (checklist this))
         else ret tt) ;;
        touch
      end
  end.

Definition removeChecklistItem (itemId : value) : M (t * env) unit :=
  this <- gets fst ;;
  match findIndex itemId (checklist this) with
  | None => throw item_not_found
  | Some index =>
      (* this.checklist.splice(index, 1) *)
      set_checklist (delete index (checklist this)) ;;
      touch
  end.

End WithPlatform.

Definition getChecklistProgress (this : t) : Progress.t :=
  if (length (checklist this) =? 0)%nat then
    Progress.Make 0 0 (S754_zero false)
  else
    let completed := length (filter (fun item => Item.completed item = true)
                               (checklist this)) in
    let total := length (checklist this) in
    let percentage := Float64.percent completed total in
    Progress.Make completed total percentage.

Section WithPlatform.
Context (pf : platform).

Definition isOverdue (this : t) : M env bool :=
  match dueDate this with
  | None => ret false
  | Some due =>
      if completed this then ret false
      else now <- Date_current pf ;; ret (date_gt now due)
  end.

Definition toJSON (this : t) : result value :=
  match (match dueDate this with
         | Some d =>
             match date_toISOString pf d with
             | Ok s => Ok (VStr s)
             | Throw e => Throw e
             end
         | None => Ok VNull
         end) with
  | Throw e => Throw e
  | Ok due =>
      match date_toISOString pf (createdAt this) with
      | Throw e => Throw e
      | Ok created =>
          match date_toISOString pf (updatedAt this) with
          | Throw e => Throw e
          | Ok updated =>
              Ok (VObj [
                ("id", id this);
                ("title", VStr (title this));
                ("description", description this);
                ("dueDate", due);
                ("priority", VStr (priority this));
                ("notes", notes this);
                ("checklist", VArr (map item_value (checklist this)));
                ("completed", VBool (completed this));
                ("projectId", projectId this);
                ("createdAt", VStr created);
                ("updatedAt", VStr updated) ])
          end
      end
  end.

Definition fromJSON (data : value) : M env t :=
  match data with
  | VUndefined | VNull => throw (TypeError "Cannot read properties of data")
  | _ =>
      constructor pf (VObj [
        ("id", get data "id");
        ("title", get data "title");
        ("description", get data "description");
        ("dueDate", get data "dueDate");
        ("priority", get data "priority");
        ("notes", get data "notes");
        ("checklist", or_else (get data "checklist") (VArr []));
        ("completed", get data "completed");
        ("projectId", get data "projectId");
        ("createdAt", get data "createdAt");
        ("updatedAt", get data "updatedAt") ])
  end.

(** [Task.validate]: [{ valid, errors }] *)
Definition validate (data : value) : M env (bool * list string) :=
  try_catch (constructor pf data ;; ret (true, []))
    (fun error => ret (false, [exn_message error])).

End WithPlatform.

End Task.

(** ** [models/Project.js] *)

Module Project.

Record t : Type := Make {
  id : value;
  name : string;
  createdAt : jsdate;
  (** a number: [VNum] or [VFloat] *)
  taskCount : value
}.

Definition name_required : exn :=
  Error "Project name is required and must be a non-empty string".

Definition count_invalid : exn :=
  Error "Task count must be a non-negative number".

(** [!name || typeof name !== 'string' || name.trim() === ''] *)
Definition bad_name (name : value) : bool :=
  negb (truthy name) || negb (jstype_eqb (typeof name) TString)
  || Str.isEmpty (Str.trim (string_of name)).

(** [typeof count !== 'number' || count < 0] *)
Definition bad_count (count : value) : bool :=
  negb (jstype_eqb (typeof count) TNumber) || number_ltb count (VNum 0).

Section WithPlatform.
Context (pf : platform).

Definition constructor (arg : value) : M env t :=
  match arg with
  | VUndefined | VNull => throw (TypeError "Cannot destructure the argument")
  | _ =>
  let id := default_to (get arg "id") VNull in
  let name := get arg "name" in
  let createdAt := default_to (get arg "createdAt") VNull in
  let taskCount := default_to (get arg "taskCount") (VNum 0) in
  if bad_name name then throw name_required
  else if bad_count taskCount then throw count_invalid
  else
    id' <- (if truthy id then ret id else fresh_uuid pf) ;;
    createdAt' <- (if truthy createdAt then ret (new_Date pf createdAt)
                   else Date_current pf) ;;
    ret (Make id' (Str.trim (string_of name)) createdAt' taskCount)
  end.

End WithPlatform.

Definition set_name (n : string) : M t unit :=
  modify (fun this => Make (id this) n (createdAt this) (taskCount this)).

Definition set_count (c : value) : M t unit :=
  modify (fun this => Make (id this) (name this) (createdAt this) c).

(** [update(updates)]: each field is checked and then written, in turn *)
Definition update (updates : value) : M t unit :=
  match updates with
  | VUndefined | VNull => throw (TypeError "Cannot read properties of updates")
  | _ =>
      (if negb (isUndefined (get updates "name")) then
         if bad_name (get updates "name") then throw name_required
         else set_name (Str.trim (string_of (get updates "name")))
       else ret tt) ;;
      (if negb (isUndefined (get updates "taskCount")) then
         if bad_count (get updates "taskCount") then throw count_invalid
         else set_count (get updates "taskCount")
       else ret tt)
  end.



Definition setTaskCount (count : value) : M t unit :=
  if bad_count count then throw count_invalid
  else set_count count.

Definition isDefault (this : t) : bool :=
  strict_eq (id this) (VStr "default")
  || Str.eqb (Str.toLowerCase (name this)) "default".

Section WithPlatform.
Context (pf : platform).

Definition toJSON (this : t) : result value :=
  match date_toISOString pf (createdAt this) with
  | Throw e => Throw e
  | Ok created =>
      Ok (VObj [
        ("id", id this);
        ("name", VStr (name this));
        ("createdAt", VStr created);
        ("taskCount", taskCount this) ])
  end.

Definition fromJSON (data : value) : M env t :=
  match data with
  | VUndefined | VNull => throw (TypeError "Cannot read properties of data")
  | _ =>
      constructor pf (VObj [
        ("id", get data "id");
        ("name", get data "name");
        ("createdAt", get data "createdAt");
        ("taskCount", or_else (get data "taskCount") (VNum 0)) ])
  end.

Definition validate (data : value) : M env (bool * list string) :=
  try_catch (constructor pf data ;; ret (true, []))
    (fun error => ret (false, [exn_message error])).

Definition createDefault : M env t :=
  now <- Date_current pf ;;
  constructor pf (VObj [
    ("id", VStr "default");
    ("name", VStr "All Tasks");
    ("createdAt", VDate now);
    ("taskCount", VNum 0) ]).

End WithPlatform.

End Project.

(** ** [utils/Validation.js] *)

Module Validation.

(** The [{ valid, error, value }] objects the validators return *)
Module Res.
Record t : Type := Make {
  valid : bool;
  error : option string;
  value : value
}.
End Res.

(** The [{ valid, errors, data }] object of [validateTaskData] and
    [validateProjectData]; [data] lists the fields of [validatedData] *)
Module Report.
Record t : Type := Make {
  valid : bool;
  errors : list string;
  data : list (string * value)
}.
End Report.

(** [sanitizeText(text, maxLength)]: [None] is the default [null] *)
Definition sanitizeText (text : value) (maxLength : option nat) : string :=
  match text with
  | VStr text =>
      let sanitized := Str.removeAngles (Str.trim text) in
      match maxLength with
      | Some (S m) =>
          if (S m <? Str.length sanitized)%nat
          then Str.substring sanitized 0 (S m) else sanitized
      | _ => sanitized
      end
  | _ => ""
  end.

Definition validateRequired (v : value) (fieldName : string) : Res.t :=
  let sanitized := sanitizeText v None in
  if Str.isEmpty sanitized || (Str.length sanitized =? 0)%nat then
    Res.Make false (Some (fieldName +:+ " is required")) (VStr sanitized)
  else Res.Make true None (VStr sanitized).

Definition validateLength (v : value) (minLength : nat) (maxLength : option nat)
    (fieldName : string) : Res.t :=
  let sanitized := sanitizeText v None in
  if (Str.length sanitized <? minLength)%nat then
    Res.Make false
      (Some (fieldName +:+ " must be at least " +:+ Str.ofNat minLength
             +:+ " characters long"))
      (VStr sanitized)
  else
    match maxLength with
    | Some (S m) =>
        if (S m <? Str.length sanitized)%nat then
          Res.Make false
            (Some (fieldName +:+ " must be no more than " +:+ Str.ofNat (S m)
                   +:+ " characters long"))
            (VStr sanitized)
        else Res.Make true None (VStr sanitized)
    | _ => Res.Make true None (VStr sanitized)
    end.

Definition validPriorities : list string := ["high"; "medium"; "low"].

Definition priority_error : string :=
  "Priority must be one of: " +:+ Str.join ", " validPriorities.

(** [priority.toLowerCase().trim()] *)
Definition normalizedPriority (priority : string) : string :=
  Str.trim (Str.toLowerCase priority).

Definition validatePriority (priority : value) : Res.t :=
  if negb (truthy priority) || negb (jstype_eqb (typeof priority) TString) then
    Res.Make true None (VStr "medium")
  else
    let normalized := normalizedPriority (string_of priority) in
    if negb (existsb (Str.eqb normalized) validPriorities) then
      Res.Make false (Some priority_error) (VStr "medium")
    else Res.Make true None (VStr normalized).

Section WithPlatform.
Context (pf : platform).

Definition validateDate (dateValue : value) (fieldName : string) : Res.t :=
  if negb (truthy dateValue) then Res.Make true None VNull
  else
    let invalid :=
      Res.Make false (Some (fieldName +:+ " must be a valid date")) VNull in
    match dateValue with
    | VDate dateObj =>
        match dateObj with
        | InvalidDate => invalid
        | ValidDate _ => Res.Make true None (VDate dateObj)
        end
    | VStr s =>
        match new_Date pf (VStr s) with
        | InvalidDate => invalid
        | ValidDate t => Res.Make true None (VDate (ValidDate t))
        end
    | _ => invalid
    end.

End WithPlatform.

(** The body of [checklist.forEach] in [validateChecklist]: the validated
    items and the errors collected so far, and their new values *)
Definition checklist_step (item : value) (index : nat)
    (acc : list value * list string) : list value * list string :=
  let '(validatedItems, errors) := acc in
  if negb (truthy item) || negb (jstype_eqb (typeof item) TObject) then
    (validatedItems,
     errors ++ ["Checklist item " +:+ Str.ofNat (index + 1)
                +:+ " must be an object"])
  else
    let textValidation :=
      validateRequired (get item "text")
        ("Checklist item " +:+ Str.ofNat (index + 1) +:+ " text") in
    if negb (Res.valid textValidation) then
      (validatedItems, errors ++ [default "" (Res.error textValidation)])
    else
      (validatedItems ++
         [VObj [("id", or_else (get item "id") VNull);
                ("text", Res.value textValidation);
                ("completed", VBool (truthy (get item "completed")))]],
       errors).

Fixpoint checklist_loop (items : list value) (index : nat)
    (acc : list value * list string) : list value * list string :=
  match items with
  | [] => acc
  | item :: rest =>
      checklist_loop rest (S index) (checklist_step item index acc)
  end.

Definition validateChecklist (checklist : value) : Res.t :=
  if negb (truthy checklist) then Res.Make true None (VArr [])
  else
    match checklist with
    | VArr items =>
        let '(validatedItems, errors) := checklist_loop items O ([], []) in
        if (0 <? length errors)%nat then
          Res.Make false (Some (Str.join "; " errors)) (VArr validatedItems)
        else Res.Make true None (VArr validatedItems)
    | _ => Res.Make false (Some "Checklist must be an array") (VArr [])
    end.

(** The two accumulators of [validateTaskData]: [errors] and [validatedData] *)
Definition acc : Type := (list string * list (string * value))%type.

(** [if (!r.valid) errors.push(r.error) else validatedData[k] = r.value] *)
Definition record_field (k : string) (r : Res.t) (a : acc) : acc :=
  if negb (Res.valid r) then (fst a ++ [default "" (Res.error r)], snd a)
  else (fst a, set_field k (Res.value r) (snd a)).

Definition optional (v : value) (step : acc -> acc) (a : acc) : acc :=
  if negb (isUndefined v) then step a else a.

Definition title_step (taskData : value) (a : acc) : acc :=
  let titleValidation := validateRequired (get taskData "title") "Title" in
  if negb (Res.valid titleValidation) then
    (fst a ++ [default "" (Res.error titleValidation)], snd a)
  else
    record_field "title"
      (validateLength (Res.value titleValidation) 1 (Some 200%nat) "Title") a.

(** The priority is written to [validatedData] whether it is valid or not *)
Definition priority_step (taskData : value) (a : acc) : acc :=
  let priorityValidation := validatePriority (get taskData "priority") in
  let errors :=
    if negb (Res.valid priorityValidation)
    then fst a ++ [default "" (Res.error priorityValidation)] else fst a in
  (errors, set_field "priority" (Res.value priorityValidation) (snd a)).

Section WithPlatform.
Context (pf : platform).

Definition validateTaskData (taskData : value) : result Report.t :=
  match taskData with
  | VUndefined | VNull => Throw (TypeError "Cannot read properties of taskData")
  | _ =>
      let a0 : acc := ([], []) in
      let a1 := title_step taskData a0 in
      let a2 :=
        optional (get taskData "description")
          (record_field "description"
             (validateLength (get taskData "description") 0 (Some 1000%nat)
                "Description")) a1 in
      let a3 :=
        optional (get taskData "dueDate")
          (record_field "dueDate"
             (validateDate pf (get taskData "dueDate") "Due date")) a2 in
      let a4 := priority_step taskData a3 in
      let a5 :=
        optional (get taskData "notes")
          (record_field "notes"
             (validateLength (get taskData "notes") 0 (Some 2000%nat) "Notes"))
          a4 in
      let a6 :=
        optional (get taskData "checklist")
          (record_field "checklist"
             (validateChecklist (get taskData "checklist"))) a5 in
      let a7 :=
        optional (get taskData "projectId")
          (record_field "projectId"
             (validateRequired (get taskData "projectId") "Project ID")) a6 in
      Ok (Report.Make ((length (fst a7) =? 0)%nat) (fst a7) (snd a7))
  end.

End WithPlatform.

Definition name_step (projectData : value) (a : acc) : acc :=
  let nameValidation :=
    validateRequired (get projectData "name") "Project name" in
  if negb (Res.valid nameValidation) then
    (fst a ++ [default "" (Res.error nameValidation)], snd a)
  else
    record_field "name"
      (validateLength (Res.value nameValidation) 1 (Some 100%nat)
         "Project name") a.

Definition validateProjectData (projectData : value) : result Report.t :=
  match projectData with
  | VUndefined | VNull =>
      Throw (TypeError "Cannot read properties of projectData")
  | _ =>
      let a1 := name_step projectData ([], []) in
      let a2 :=
        optional (get projectData "taskCount")
          (fun a =>
             if Project.bad_count (get projectData "taskCount") then
               (fst a ++ ["Task count must be a non-negative number"], snd a)
             else (fst a, set_field "taskCount" (get projectData "taskCount")
                            (snd a))) a1 in
      Ok (Report.Make ((length (fst a2) =? 0)%nat) (fst a2) (snd a2))
  end.

End Validation.

(** ** The browser's [localStorage]: its entries, in insertion order *)

Module LocalStorage.

Definition t : Type := list (string * string).

Fixpoint getItem (k : string) (ls : t) : option string :=
  match ls with
  | [] => None
  | (k', v) :: r => if Str.eqb k' k then Some v else getItem k r
  end.

(** What a [setItem] that does not throw leaves behind *)
Fixpoint put (k v : string) (ls : t) : t :=
  match ls with
  | [] => [(k, v)]
  | (k', v') :: r =>
      if Str.eqb k' k then (k, v) :: r else (k', v') :: put k v r
  end.

Definition removeItem (k : string) (ls : t) : t :=
  List.filter (fun kv => negb (Str.eqb (fst kv) k)) ls.

(** [key(0)], ..., [key(length - 1)] *)
Definition keys (ls : t) : list string := map fst ls.

End LocalStorage.

(** ** [services/StorageService.js] *)

Module StorageService.

Record t : Type := Make {
  _isAvailable : bool;
  _quotaExceeded : bool;
  _fallbackStorage : gmap string value;
  _usingFallback : bool
}.

(** What the registered handlers have been called with *)
Inductive notification : Type :=
| ErrorNotified (e : exn)
| QuotaNotified (e : exn).

(** The singleton [storageService], the store under it, the oracles and
    what was printed and notified *)
Record world : Type := World {
  localStorage : LocalStorage.t;
  this : t;
  oracles : env;
  console : list string;
  notified : list notification
}.

Definition prefix : string := "todoapp_".
Definition keys_tasks : string := prefix +:+ "tasks".
Definition keys_projects : string := prefix +:+ "projects".
Definition keys_settings : string := prefix +:+ "settings".

(** [key.startsWith(this.prefix) ? key : `${this.prefix}${key}`] *)
Definition fullKey (key : string) : string :=
  if Str.startsWith key prefix then key else prefix +:+ key.

Definition with_localStorage (ls : LocalStorage.t) (w : world) : world :=
  World ls (this w) (oracles w) (console w) (notified w).

Definition with_this (s : t) (w : world) : world :=
  World (localStorage w) s (oracles w) (console w) (notified w).

Definition with_oracles (e : env) (w : world) : world :=
  World (localStorage w) (this w) e (console w) (notified w).

Definition set_quotaExceeded (b : bool) : M world unit :=
  modify (fun w =>
    with_this (Make (_isAvailable (this w)) b (_fallbackStorage (this w))
                 (_usingFallback (this w))) w).

Definition set_usingFallback (b : bool) : M world unit :=
  modify (fun w =>
    with_this (Make (_isAvailable (this w)) (_quotaExceeded (this w))
                 (_fallbackStorage (this w)) b) w).

(** [this._fallbackStorage.set(key, data)] *)
Definition fallback_set (key : string) (data : value) : M world unit :=
  modify (fun w =>
    with_this (Make (_isAvailable (this w)) (_quotaExceeded (this w))
                 (<[key := data]> (_fallbackStorage (this w)))
                 (_usingFallback (this w))) w).

(** [this._fallbackStorage.get(key) || null] *)
Definition fallback_get_or_null (key : string) : M world value :=
  gets (fun w =>
    or_else (default VUndefined (_fallbackStorage (this w) !! key)) VNull).

Definition console_print (msg : string) : M world unit :=
  modify (fun w =>
    World (localStorage w) (this w) (oracles w) (console w ++ [msg])
      (notified w)).

(** [_notifyError]: every handler is called inside its own [try] *)
Definition _notifyError (error : exn) : M world unit :=
  modify (fun w =>
    World (localStorage w) (this w) (oracles w) (console w)
      (notified w ++ [ErrorNotified error])).

Definition _notifyQuotaExceeded (error : exn) : M world unit :=
  modify (fun w =>
    World (localStorage w) (this w) (oracles w) (console w)
      (notified w ++ [QuotaNotified error])).

Definition in_oracles {A} (m : M env A) : M world A :=
  zoom oracles with_oracles m.

Definition isAvailable : M world bool := gets (fun w => _isAvailable (this w)).
Definition isQuotaExceeded : M world bool :=
  gets (fun w => _quotaExceeded (this w)).
Definition isUsingFallback : M world bool :=
  gets (fun w => _usingFallback (this w)).

(** [error.name === 'QuotaExceededError' || error.code === 22] *)
Definition is_quota_error (error : exn) : bool :=
  Str.eqb (exn_name error) "QuotaExceededError"
  || match exn_code error with Some c => c =? 22 | None => false end.

(** The keys of the store under the prefix, as the [for] loops collect them *)
Definition prefixed_keys (ls : LocalStorage.t) : list string :=
  List.filter (fun key => negb (Str.isEmpty key) && Str.startsWith key prefix)
    (LocalStorage.keys ls).

(** The entries [_attemptCleanup] ranks *)
Record ranked : Type := Ranked {
  key : string;
  size : nat;
  isEssential : bool
}.

(** The comparator of the sort says [a] may stay before [b] *)
Definition before (a b : ranked) : bool :=
  if negb (Bool.eqb (isEssential a) (isEssential b)) then negb (isEssential a)
  else (size b <=? size a)%nat.

Fixpoint insert_ranked (x : ranked) (l : list ranked) : list ranked :=
  match l with
  | [] => [x]
  | y :: r => if before x y then x :: y :: r else y :: insert_ranked x r
  end.

(** [Array.prototype.sort], which is stable *)
Definition sort_ranked (l : list ranked) : list ranked :=
  fold_right insert_ranked [] l.

(** The removal loop of [_attemptCleanup]: the store and [removedCount] *)
Fixpoint remove_ranked (l : list ranked) (maxToRemove : nat)
    (acc : LocalStorage.t * nat) : LocalStorage.t * nat :=
  match l with
  | [] => acc
  | item :: r =>
      remove_ranked r maxToRemove
        (if negb (isEssential item) && (snd acc <? maxToRemove)%nat then
           (LocalStorage.removeItem (key item) (fst acc), S (snd acc))
         else acc)
  end.

Definition _attemptCleanup : M world bool :=
  w <- gets (fun w => w) ;;
  if negb (_isAvailable (this w)) then ret false
  else
    let ls := localStorage w in
    let keysToCheck := prefixed_keys ls in
    let keysSorted :=
      sort_ranked
        (map (fun key =>
                Ranked key
                  (match LocalStorage.getItem key ls with
                   | Some v => Str.length v
                   | None => O
                   end)
                  (Str.includes key "tasks" || Str.includes key "projects"))
           keysToCheck) in
    (* Math.max(1, Math.floor(keysSorted.length * 0.25)) *)
    let maxToRemove := Nat.max 1 (length keysSorted / 4) in
    let '(ls', removedCount) := remove_ranked keysSorted maxToRemove (ls, O) in
    modify (with_localStorage ls') ;;
    ret (0 <? removedCount)%nat.

Section WithPlatform.
Context (pf : platform).

(** [localStorage.setItem(k, v)] *)
Definition setItem (k v : string) : M world unit :=
  fun w =>
    match setItem_throws pf (localStorage w) k v with
    | Some e => (Throw e, w)
    | None => (Ok tt, with_localStorage (LocalStorage.put k v (localStorage w)) w)
    end.

(** [localStorage.setItem(fullKey, JSON.stringify(data))] *)
Definition write (key : string) (data : value) : M world unit :=
  match JSON_stringify pf data with
  | None => throw (TypeError "Converting circular structure to JSON")
  | Some serializedData => setItem key serializedData
  end.

(** The body of [keysToMigrate.forEach] *)
Definition migrate_key (key : string) : M world unit :=
  w <- gets (fun w => w) ;;
  match LocalStorage.getItem key (localStorage w) with
  | Some v =>
      if negb (Str.isEmpty v) then
        match JSON_parse pf v with
        | Some data => fallback_set key data
        | None =>
            console_print
              ("Failed to migrate key " +:+ key +:+ " to fallback storage")
        end
      else ret tt
  | None => ret tt
  end.

Definition _migrateToFallback : M world unit :=
  w <- gets (fun w => w) ;;
  if negb (_isAvailable (this w)) then ret tt
  else
    let keysToMigrate := prefixed_keys (localStorage w) in
    forEach (fun key _ => migrate_key key) keysToMigrate O ;;
    console_print
      ("Migrated " +:+ Str.ofNat (length keysToMigrate)
       +:+ " items to fallback storage").

Definition _switchToFallback (reason : string) : M world unit :=
  w <- gets (fun w => w) ;;
  if negb (_usingFallback (this w)) then
    set_usingFallback true ;;
    console_print ("Switching to fallback storage: " +:+ reason) ;;
    _notifyError (Error ("Fallback storage activated: " +:+ reason)) ;;
    _migrateToFallback
  else ret tt.

(** The first half of [save]: [true] when it has returned [true] from the
    store, [false] when control reaches the fallback *)
Definition save_to_store (key : string) (data : value) : M world bool :=
  try_catch
    (write key data ;; set_quotaExceeded false ;; ret true)
    (fun error =>
       if is_quota_error error then
         set_quotaExceeded true ;;
         _notifyQuotaExceeded error ;;
         cleaned <- _attemptCleanup ;;
         if cleaned then
           try_catch
             (write key data ;; set_quotaExceeded false ;; ret true)
             (fun retryError =>
                _switchToFallback "Quota exceeded after cleanup attempt" ;;
                ret false)
         else
           _switchToFallback "Storage quota exceeded" ;; ret false
       else
         _notifyError error ;;
         _switchToFallback ("localStorage error: " +:+ exn_message error) ;;
         ret false).

Definition save (key : string) (data : value) : M world bool :=
  let fullKey := fullKey key in
  w <- gets (fun w => w) ;;
  returned <- (if _isAvailable (this w) && negb (_usingFallback (this w))
               then save_to_store fullKey data else ret false) ;;
  if returned then ret true
  else fallback_set fullKey data ;; ret true.

Definition load (key : string) : M world value :=
  let fullKey := fullKey key in
  w <- gets (fun w => w) ;;
  if _isAvailable (this w) && negb (_usingFallback (this w)) then
    match LocalStorage.getItem fullKey (localStorage w) with
    | None => fallback_get_or_null fullKey
    | Some serializedData =>
        match JSON_parse pf serializedData with
        | Some data => ret data
        | None =>
            console_print
              ("Failed to load data for key " +:+ key +:+ " from localStorage") ;;
            _notifyError (Exn "SyntaxError" "Unexpected token" None) ;;
            fallback_get_or_null fullKey
        end
    end
  else fallback_get_or_null fullKey.

(** The [forEach] of [loadTasks] and of [loadProjects]: a record that fails
    to construct is reported on the console and skipped *)
Fixpoint load_each {A} (fromJSON : value -> M env A) (what : string)
    (records : list value) (index : nat) (loaded : list A)
  : M world (list A) :=
  match records with
  | [] => ret loaded
  | record :: rest =>
      loaded' <-
        try_catch
          (x <- in_oracles (fromJSON record) ;; ret (loaded ++ [x]))
          (fun error =>
             console_print
               ("Skipping corrupted " +:+ what +:+ " at index "
                +:+ Str.ofNat index +:+ ": " +:+ exn_message error) ;;
             ret loaded) ;;
      load_each fromJSON what rest (S index) loaded'
  end.

Definition loadTasks : M world (list Task.t) :=
  tasksData <- load keys_tasks ;;
  if negb (truthy tasksData) then ret []
  else
    match tasksData with
    | VArr records => load_each (Task.fromJSON pf) "task" records O []
    | _ =>
        console_print "Corrupted tasks data detected, returning empty array" ;;
        ret []
    end.

Definition loadProjects : M world (list Project.t) :=
  projectsData <- load keys_projects ;;
  if negb (truthy projectsData) then ret []
  else
    match projectsData with
    | VArr records => load_each (Project.fromJSON pf) "project" records O []
    | _ =>
        console_print "Corrupted projects data detected, returning empty array" ;;
        ret []
    end.

Definition saveTasks (tasks : list Task.t) : M world bool :=
  serializedTasks <- mapM (fun task => lift_result (Task.toJSON pf task)) tasks ;;
  save keys_tasks (VArr serializedTasks).

Definition saveProjects (projects : list Project.t) : M world bool :=
  serializedProjects <-
    mapM (fun project => lift_result (Project.toJSON pf project)) projects ;;
  save keys_projects (VArr serializedProjects).

(** [_checkAvailability]: the probe the constructor makes *)
Definition _checkAvailability (ls : LocalStorage.t) : bool * LocalStorage.t :=
  let testKey := prefix +:+ "test" in
  match setItem_throws pf ls testKey "test" with
  | Some _ => (false, ls)
  | None =>
      (true, LocalStorage.removeItem testKey (LocalStorage.put testKey "test" ls))
  end.

(** [new StorageService()] over a store *)
Definition constructor (ls : LocalStorage.t) (e : env) : world :=
  let '(available, ls') := _checkAvailability ls in
  World ls' (Make available false ∅ false) e
    (if available then [] else ["localStorage is not available"]) [].

(** [localStorage.removeItem(k)] *)
Definition removeItem (k : string) : M world unit :=
  modify (fun w =>
    with_localStorage (LocalStorage.removeItem k (localStorage w)) w).

Definition set_fallbackStorage (fallback : gmap string value) : M world unit :=
  modify (fun w =>
    with_this (Make (_isAvailable (this w)) (_quotaExceeded (this w))
                 fallback (_usingFallback (this w))) w).

(** [this._fallbackStorage.delete(key)] *)
Definition fallback_delete (key : string) : M world unit :=
  w <- gets (fun w => w) ;;
  set_fallbackStorage (delete key (_fallbackStorage (this w))).

Definition remove (key : string) : M world bool :=
  let fullKey := fullKey key in
  w <- gets (fun w => w) ;;
  (if _isAvailable (this w) then removeItem fullKey else ret tt) ;;
  match _fallbackStorage (this w) !! fullKey with
  | Some _ => fallback_delete fullKey ;; ret true
  | None => ret (_isAvailable (this w))
  end.

(** The entries of the fallback map under the prefix.  A [Map] iterates in
    insertion order; the map of the embedding keeps none, and its entries
    come in the order of [map_to_list]. *)
Definition fallback_entries (fallback : gmap string value)
  : list (string * value) :=
  List.filter (fun kv => Str.startsWith (fst kv) prefix) (map_to_list fallback).

Definition clear : M world bool :=
  w <- gets (fun w => w) ;;
  (if _isAvailable (this w) then
     forEach (fun key _ => removeItem key) (prefixed_keys (localStorage w)) O ;;
     set_quotaExceeded false
   else ret tt) ;;
  let fallbackKeys := map fst (fallback_entries (_fallbackStorage (this w))) in
  forEach (fun key _ => fallback_delete key) fallbackKeys O ;;
  ret (_isAvailable (this w) || (0 <? length fallbackKeys)%nat).

(** The own enumerable properties an object spread copies *)
Definition own_properties (v : value) : list (string * value) :=
  match v with
  | VObj fs => fs
  | VArr xs => imap (fun i x => (Str.ofNat i, x)) xs
  | _ => []
  end.

(** [{ ...fields, ...v }] *)
Definition spread (v : value) (fields : list (string * value))
  : list (string * value) :=
  fold_left (fun acc kv => set_field (fst kv) (snd kv) acc)
    (own_properties v) fields.

(** [new Date().toISOString()] *)
Definition now_iso : M world value :=
  now <- in_oracles (Date_current pf) ;;
  s <- lift_result (date_toISOString pf now) ;;
  ret (VStr s).

(** [{ currentProjectId: settings.currentProjectId || 'default', theme:
    settings.theme || 'light', lastAccessed: settings.lastAccessed || new
    Date().toISOString(), ...settings }] *)
Definition settings_with_defaults (settings : value) : M world value :=
  lastAccessed <- (if truthy (get settings "lastAccessed")
                   then ret (get settings "lastAccessed") else now_iso) ;;
  ret (VObj (spread settings
               [("currentProjectId",
                  or_else (get settings "currentProjectId") (VStr "default"));
                ("theme", or_else (get settings "theme") (VStr "light"));
                ("lastAccessed", lastAccessed)])).

Definition default_settings : M world value :=
  lastAccessed <- now_iso ;;
  ret (VObj [("currentProjectId", VStr "default"); ("theme", VStr "light");
             ("lastAccessed", lastAccessed)]).

Definition saveSettings (settings : value) : M world bool :=
  if negb (truthy settings) || negb (jstype_eqb (typeof settings) TObject) then
    throw (Error "Settings must be an object")
  else
    validatedSettings <- settings_with_defaults settings ;;
    save keys_settings validatedSettings.

Definition loadSettings : M world value :=
  settings <- load keys_settings ;;
  if negb (truthy settings) || negb (jstype_eqb (typeof settings) TObject) then
    default_settings
  else settings_with_defaults settings.

(** The [for ... of] loop of [migrateBackToLocalStorage]: [None] when it has
    returned [false] on a quota error, else the new [migratedCount] *)
Fixpoint migrate_back_loop (entries : list (string * value))
    (migratedCount : nat) : M world (option nat) :=
  match entries with
  | [] => ret (Some migratedCount)
  | (key, data) :: rest =>
      step <-
        try_catch
          (write key data ;; ret (Some (S migratedCount)))
          (fun error =>
             if is_quota_error error then
               console_print
                 "Quota exceeded during migration back to localStorage" ;;
               ret None
             else
               console_print
                 ("Failed to migrate key " +:+ key
                  +:+ " back to localStorage") ;;
               ret (Some migratedCount)) ;;
      match step with
      | None => ret None
      | Some migratedCount' => migrate_back_loop rest migratedCount'
      end
  end.

Definition migrateBackToLocalStorage : M world bool :=
  w <- gets (fun w => w) ;;
  if negb (_isAvailable (this w)) || _quotaExceeded (this w)
     || negb (_usingFallback (this w)) then ret false
  else
    let fallbackKeys := fallback_entries (_fallbackStorage (this w)) in
    outcome <- migrate_back_loop fallbackKeys O ;;
    match outcome with
    | None => ret false
    | Some migratedCount =>
        if (migratedCount =? length fallbackKeys)%nat then
          set_usingFallback false ;;
          set_fallbackStorage ∅ ;;
          console_print
            ("Successfully migrated " +:+ Str.ofNat migratedCount
             +:+ " items back to localStorage") ;;
          ret true
        else ret false
    end.

(** [getFallbackInfo().canMigrateBack] *)
Definition canMigrateBack : M world bool :=
  gets (fun w => _isAvailable (this w) && negb (_quotaExceeded (this w))).

(** [forceRecovery]: [{ localStorageCleared, fallbackCleared,
    defaultsRestored }] *)
Definition forceRecovery : M world (bool * bool * bool) :=
  console_print "Initiating force recovery mode" ;;
  w <- gets (fun w => w) ;;
  (if _isAvailable (this w) then
     forEach (fun key _ => removeItem key) (prefixed_keys (localStorage w)) O
   else ret tt) ;;
  forEach (fun key _ => fallback_delete key)
    (map fst (fallback_entries (_fallbackStorage (this w)))) O ;;
  set_usingFallback false ;;
  set_quotaExceeded false ;;
  defaultsRestored <-
    try_catch
      (defaultSettings <- default_settings ;;
       saveSettings defaultSettings ;;
       ret true)
      (fun error =>
         console_print "Failed to restore default settings during recovery:" ;;
         ret false) ;;
  ret (_isAvailable (this w), true, defaultsRestored).

End WithPlatform.

End StorageService.

(** ** [services/TaskService.js] *)

Module TaskService.

Record t : Type := Make {
  _tasks : list Task.t;
  _initialized : bool
}.

(** A service instance and the storage singleton it imports *)
Definition state : Type := (t * StorageService.world)%type.

Definition in_storage {A} (m : M StorageService.world A) : M state A :=
  zoom snd (fun w s => (fst s, w)) m.

Section WithPlatform.
Context (pf : platform).

Definition initialize : M state unit :=
  this <- gets fst ;;
  if _initialized this then ret tt
  else
    try_catch
      (tasks <- in_storage (StorageService.loadTasks pf) ;;
       modify (fun s => (Make tasks true, snd s)))
      (fun error =>
         in_storage
           (StorageService.console_print "Failed to initialize TaskService:") ;;
         modify (fun s => (Make [] true, snd s))).

Definition _ensureInitialized : M state unit :=
  this <- gets fst ;;
  if negb (_initialized this) then initialize else ret tt.

(** [getTasksByProject(projectId = 'default')] *)
Definition getTasksByProject (projectId : value) : M state (list Task.t) :=
  let projectId := default_to projectId (VStr "default") in
  _ensureInitialized ;;
  this <- gets fst ;;
  if strict_eq projectId (VStr "default") then ret (_tasks this)
  else
    ret (List.filter (fun task => strict_eq (Task.projectId task) projectId)
           (_tasks this)).

(** [this._tasks.findIndex(t => t.id === taskId)]; [find] returns the task
    at that index *)
Fixpoint findIndex (taskId : value) (l : list Task.t) : option nat :=
  match l with
  | [] => None
  | t :: r =>
      if strict_eq (Task.id t) taskId then Some O
      else option_map S (findIndex taskId r)
  end.

Definition set_tasks (l : list Task.t) : M state unit :=
  modify (fun s => (Make l (_initialized (fst s)), snd s)).

(** Call a method on the task at [index]: the task object is written in
    place, whether the method returns or throws *)
Definition on_task {A} (index : nat) (method : M (Task.t * env) A) : M state A :=
  fun s =>
    match _tasks (fst s) !! index with
    | None => (Throw (TypeError "Cannot read properties of undefined"), s)
    | Some task =>
        let '(r, (task', e')) :=
          method (task, StorageService.oracles (snd s)) in
        (r, (Make (<[index := task']> (_tasks (fst s))) (_initialized (fst s)),
             StorageService.with_oracles e' (snd s)))
    end.

Definition task_id_required : exn := Error "Task ID is required".
Definition task_not_found : exn := Error "Task not found".

Definition _saveTasks : M state unit :=
  this <- gets fst ;;
  try_catch
    (in_storage (StorageService.saveTasks pf (_tasks this)) ;; ret tt)
    (fun error =>
       throw (Error ("Failed to save tasks to storage: "
                     +:+ exn_message error))).

Definition validation_failed (errors : list string) : exn :=
  Error ("Task validation failed: " +:+ Str.join ", " errors).

Definition createTask (taskData : value) : M state Task.t :=
  _ensureInitialized ;;
  validation <- lift_result (Validation.validateTaskData pf taskData) ;;
  if negb (Validation.Report.valid validation) then
    throw (validation_failed (Validation.Report.errors validation))
  else
    try_catch
      (task <- in_storage
                 (StorageService.in_oracles
                    (Task.constructor pf
                       (VObj (Validation.Report.data validation)))) ;;
       this <- gets fst ;;
       set_tasks (_tasks this ++ [task]) ;;
       _saveTasks ;;
       ret task)
      (fun error =>
         throw (Error ("Failed to create task: " +:+ exn_message error))).

(** The task a method returns is the object it found: [None] can only be
    [undefined] *)
Definition task_at (index : nat) : M state (option Task.t) :=
  gets (fun s => _tasks (fst s) !! index).

Definition updateTask (taskId updates : value) : M state (option Task.t) :=
  _ensureInitialized ;;
  if negb (truthy taskId) then throw task_id_required
  else
    this <- gets fst ;;
    match findIndex taskId (_tasks this) with
    | None => throw task_not_found
    | Some index =>
        validation <- lift_result (Validation.validateTaskData pf updates) ;;
        if negb (Validation.Report.valid validation) then
          throw (validation_failed (Validation.Report.errors validation))
        else
          try_catch
            (on_task index
               (Task.update pf (VObj (Validation.Report.data validation))) ;;
             _saveTasks ;;
             task_at index)
            (fun error =>
               throw (Error ("Failed to update task: " +:+ exn_message error)))
    end.

Definition deleteTask (taskId : value) : M state (option Task.t) :=
  _ensureInitialized ;;
  if negb (truthy taskId) then throw task_id_required
  else
    this <- gets fst ;;
    match findIndex taskId (_tasks this) with
    | None => throw task_not_found
    | Some taskIndex =>
        try_catch
          (let deletedTask := _tasks this !! taskIndex in
           set_tasks (delete taskIndex (_tasks this)) ;;
           _saveTasks ;;
           ret deletedTask)
          (fun error =>
             throw (Error ("Failed to delete task: " +:+ exn_message error)))
    end.

Definition toggleTaskCompletion (taskId : value) : M state (option Task.t) :=
  _ensureInitialized ;;
  if negb (truthy taskId) then throw task_id_required
  else
    this <- gets fst ;;
    match findIndex taskId (_tasks this) with
    | None => throw task_not_found
    | Some index =>
        try_catch
          (on_task index (Task.toggleCompletion pf) ;;
           _saveTasks ;;
           task_at index)
          (fun error =>
             throw (Error ("Failed to toggle task completion: "
                           +:+ exn_message error)))
    end.

Definition moveTaskToProject (taskId projectId : value)
  : M state (option Task.t) :=
  _ensureInitialized ;;
  if negb (truthy taskId) then throw task_id_required
  else if negb (truthy projectId) then throw (Error "Project ID is required")
  else
    this <- gets fst ;;
    match findIndex taskId (_tasks this) with
    | None => throw task_not_found
    | Some index =>
        try_catch
          (on_task index (Task.update pf (VObj [("projectId", projectId)])) ;;
           _saveTasks ;;
           task_at index)
          (fun error =>
             throw (Error ("Failed to move task to project: "
                           +:+ exn_message error)))
    end.

(** [getTaskById]: [None] is [null] *)
Definition getTaskById (taskId : value) : M state (option Task.t) :=
  _ensureInitialized ;;
  if negb (truthy taskId) then throw task_id_required
  else
    this <- gets fst ;;
    ret (match findIndex taskId (_tasks this) with
         | Some index => _tasks this !! index
         | None => None
         end).

(** [clearCompletedTasks(projectId = null)]: [{ deleted, count }] *)
Definition clearCompletedTasks (projectId : value)
  : M state (list Task.t * nat) :=
  let projectId := default_to projectId VNull in
  _ensureInitialized ;;
  this <- gets fst ;;
  let completedTasks :=
    List.filter
      (fun task =>
         Task.completed task
         && (strict_eq projectId VNull
             || strict_eq (Task.projectId task) projectId))
      (_tasks this) in
  if (length completedTasks =? 0)%nat then ret ([], O)
  else
    try_catch
      (set_tasks
         (List.filter
            (fun task =>
               negb (Task.completed task)
               || (negb (strict_eq projectId VNull)
                   && negb (strict_eq (Task.projectId task) projectId)))
            (_tasks this)) ;;
       _saveTasks ;;
       ret (completedTasks, length completedTasks))
      (fun error =>
         throw (Error ("Failed to clear completed tasks: "
                       +:+ exn_message error))).

(** The [for ... of] loop of [bulkDeleteTasks]: what was deleted and the
    [{ taskId, error }] entries *)
Fixpoint bulk_delete_loop (taskIds : list value)
    (acc : list (option Task.t) * list (value * string))
  : M state (list (option Task.t) * list (value * string)) :=
  match taskIds with
  | [] => ret acc
  | taskId :: rest =>
      acc' <-
        try_catch
          (task <- deleteTask taskId ;; ret (fst acc ++ [task], snd acc))
          (fun error =>
             ret (fst acc, snd acc ++ [(taskId, exn_message error)])) ;;
      bulk_delete_loop rest acc'
  end.

(** [bulkDeleteTasks]: [{ deleted, errors, success }] *)
Definition bulkDeleteTasks (taskIds : value)
  : M state (list (option Task.t) * list (value * string) * bool) :=
  _ensureInitialized ;;
  match taskIds with
  | VArr (taskId :: rest) =>
      report <- bulk_delete_loop (taskId :: rest) ([], []) ;;
      ret (fst report, snd report, (length (snd report) =? 0)%nat)
  | _ => throw (Error "Task IDs array is required")
  end.

Definition refreshFromStorage : M state unit :=
  try_catch
    (tasks <- in_storage (StorageService.loadTasks pf) ;;
     set_tasks tasks)
    (fun error =>
       in_storage
         (StorageService.console_print
            "Failed to refresh tasks from storage:") ;;
       throw (Error ("Failed to refresh tasks: " +:+ exn_message error))).

End WithPlatform.

End TaskService.

(** ** [services/ProjectService.js] *)

Module ProjectService.

Record t : Type := Make {
  _projects : list Project.t;
  _initialized : bool
}.

Definition state : Type := (t * StorageService.world)%type.

Definition in_storage {A} (m : M StorageService.world A) : M state A :=
  zoom snd (fun w s => (fst s, w)) m.

Definition set_projects (l : list Project.t) : M state unit :=
  modify (fun s => (Make l (_initialized (fst s)), snd s)).

Definition set_initialized (b : bool) : M state unit :=
  modify (fun s => (Make (_projects (fst s)) b, snd s)).

(** [this._projects.findIndex(p => p.id === projectId)] *)
Fixpoint findIndex (projectId : value) (l : list Project.t) : option nat :=
  match l with
  | [] => None
  | p :: r =>
      if strict_eq (Project.id p) projectId then Some O
      else option_map S (findIndex projectId r)
  end.

Definition cannot_delete_default : exn :=
  Error "Cannot delete the default project".

Section WithPlatform.
Context (pf : platform).

Definition _saveProjects : M state unit :=
  this <- gets fst ;;
  try_catch
    (in_storage (StorageService.saveProjects pf (_projects this)) ;; ret tt)
    (fun error =>
       throw (Error ("Failed to save projects to storage: "
                     +:+ exn_message error))).

Definition _createDefaultProject : M state Project.t :=
  try_catch
    (defaultProject <-
       in_storage (StorageService.in_oracles (Project.createDefault pf)) ;;
     this <- gets fst ;;
     (* this._projects.unshift(defaultProject) *)
     set_projects (defaultProject :: _projects this) ;;
     _saveProjects ;;
     ret defaultProject)
    (fun error =>
       throw (Error ("Failed to create default project: "
                     +:+ exn_message error))).

Definition _ensureDefaultProject : M state unit :=
  this <- gets fst ;;
  match findIndex (VStr "default") (_projects this) with
  | Some _ => ret tt
  | None => _createDefaultProject ;; ret tt
  end.

Definition initialize : M state unit :=
  this <- gets fst ;;
  if _initialized this then ret tt
  else
    try_catch
      (projects <- in_storage (StorageService.loadProjects pf) ;;
       set_projects projects ;;
       _ensureDefaultProject ;;
       set_initialized true)
      (fun error =>
         in_storage
           (StorageService.console_print
              "Failed to initialize ProjectService:") ;;
         set_projects [] ;;
         try_catch _ensureDefaultProject
           (fun defaultError =>
              in_storage
                (StorageService.console_print
                   "Failed to create default project:")) ;;
         set_initialized true).

Definition _ensureInitialized : M state unit :=
  this <- gets fst ;;
  if negb (_initialized this) then initialize else ret tt.

(** [deleteProject] returns [this._projects.splice(projectIndex, 1)[0]]:
    [None] stands for [undefined] *)
Definition deleteProject (projectId : value) : M state (option Project.t) :=
  _ensureInitialized ;;
  if negb (truthy projectId) then throw (Error "Project ID is required")
  else if strict_eq projectId (VStr "default") then throw cannot_delete_default
  else
    this <- gets fst ;;
    match findIndex projectId (_projects this) with
    | None => throw (Error "Project not found")
    | Some projectIndex =>
        try_catch
          (let deletedProject := _projects this !! projectIndex in
           set_projects (delete projectIndex (_projects this)) ;;
           _saveProjects ;;
           ret deletedProject)
          (fun error =>
             throw (Error ("Failed to delete project: "
                           +:+ exn_message error)))
    end.

(** Call a method on the project at [index], which is written in place *)
Definition on_project {A} (index : nat) (method : M Project.t A) : M state A :=
  fun s =>
    match _projects (fst s) !! index with
    | None => (Throw (TypeError "Cannot read properties of undefined"), s)
    | Some project =>
        let '(r, project') := method project in
        (r, (Make (<[index := project']> (_projects (fst s)))
               (_initialized (fst s)), snd s))
    end.

Definition name_exists : exn := Error "A project with this name already exists".

Definition project_validation_failed (errors : list string) : exn :=
  Error ("Project validation failed: " +:+ Str.join ", " errors).

(** [p.name.toLowerCase() === name.toLowerCase()] *)
Definition same_name (name : string) (p : Project.t) : bool :=
  Str.eqb (Str.toLowerCase (Project.name p)) (Str.toLowerCase name).

Definition createProject (name : value) : M state Project.t :=
  _ensureInitialized ;;
  if Project.bad_name name then throw Project.name_required
  else
    validation <-
      lift_result (Validation.validateProjectData (VObj [("name", name)])) ;;
    if negb (Validation.Report.valid validation) then
      throw (project_validation_failed (Validation.Report.errors validation))
    else
      this <- gets fst ;;
      let validated :=
        string_of (lookup_field "name" (Validation.Report.data validation)) in
      if existsb (same_name validated) (_projects this) then throw name_exists
      else
        try_catch
          (project <-
             in_storage
               (StorageService.in_oracles
                  (Project.constructor pf
                     (VObj (Validation.Report.data validation)))) ;;
           this <- gets fst ;;
           set_projects (_projects this ++ [project]) ;;
           _saveProjects ;;
           ret project)
          (fun error =>
             throw (Error ("Failed to create project: "
                           +:+ exn_message error))).

(** [getProjectById]: [None] is [null] *)
Definition getProjectById (projectId : value) : M state (option Project.t) :=
  _ensureInitialized ;;
  if negb (truthy projectId) then throw (Error "Project ID is required")
  else
    this <- gets fst ;;
    ret (match findIndex projectId (_projects this) with
         | Some index => _projects this !! index
         | None => None
         end).

Definition updateProjectName (projectId newName : value)
  : M state (option Project.t) :=
  _ensureInitialized ;;
  if negb (truthy projectId) then throw (Error "Project ID is required")
  else if Project.bad_name newName then throw Project.name_required
  else
    this <- gets fst ;;
    match findIndex projectId (_projects this) with
    | None => throw (Error "Project not found")
    | Some index =>
        validation <-
          lift_result
            (Validation.validateProjectData (VObj [("name", newName)])) ;;
        if negb (Validation.Report.valid validation) then
          throw (project_validation_failed
                   (Validation.Report.errors validation))
        else
          let validated :=
            lookup_field "name" (Validation.Report.data validation) in
          if existsb
               (fun p => negb (strict_eq (Project.id p) projectId)
                         && same_name (string_of validated) p)
               (_projects this)
          then throw name_exists
          else
            try_catch
              (on_project index
                 (Project.update (VObj [("name", validated)])) ;;
               _saveProjects ;;
               gets (fun s => _projects (fst s) !! index))
              (fun error =>
                 throw (Error ("Failed to update project name: "
                               +:+ exn_message error)))
    end.

(** The report of [syncTaskCounts]; an entry of [updated] is
    [{ projectId, oldCount, newCount }] *)
Record syncResults : Type := SyncResults {
  updated : list (value * value * value);
  errors : list (value * string);
  totalSynced : nat
}.

(** The body of the [for ... of] loop of [syncTaskCounts], on the project at
    [index].  The callback is a function of the id it is asked about. *)
Definition sync_step (getTaskCountForProject : value -> result value)
    (index : nat) (project : Project.t) (acc : syncResults)
  : M state syncResults :=
  try_catch
    (actualTaskCount <-
       lift_result
         (if strict_eq (Project.id project) (VStr "default")
          then getTaskCountForProject (VStr "all")
          else getTaskCountForProject (Project.id project)) ;;
     (* typeof actualTaskCount === 'number' && actualTaskCount >= 0 *)
     if jstype_eqb (typeof actualTaskCount) TNumber
        && number_leb (VNum 0) actualTaskCount then
       if negb (strict_eq (Project.taskCount project) actualTaskCount) then
         on_project index (Project.setTaskCount actualTaskCount) ;;
         this <- gets fst ;;
         let oldCount :=
           match _projects this !! index with
           | Some p => Project.taskCount p
           | None => VUndefined
           end in
         ret (SyncResults
                (updated acc
                 ++ [(Project.id project, oldCount, actualTaskCount)])
                (errors acc) (S (totalSynced acc)))
       else ret acc
     else ret acc)
    (fun error =>
       ret (SyncResults (updated acc)
              (errors acc ++ [(Project.id project, exn_message error)])
              (totalSynced acc))).

Fixpoint sync_loop (getTaskCountForProject : value -> result value)
    (index : nat) (remaining : nat) (acc : syncResults) : M state syncResults :=
  match remaining with
  | O => ret acc
  | S remaining' =>
      this <- gets fst ;;
      match _projects this !! index with
      | None => ret acc
      | Some project =>
          acc' <- sync_step getTaskCountForProject index project acc ;;
          sync_loop getTaskCountForProject (S index) remaining' acc'
      end
  end.

Definition syncTaskCounts (getTaskCountForProject : value -> result value)
  : M state syncResults :=
  _ensureInitialized ;;
  this <- gets fst ;;
  results <- sync_loop getTaskCountForProject O (length (_projects this))
               (SyncResults [] [] O) ;;
  if (0 <? totalSynced results)%nat then
    try_catch (_saveProjects ;; ret results)
      (fun error =>
         throw (Error ("Failed to save synced project data: "
                       +:+ exn_message error)))
  else ret results.

End WithPlatform.

End ProjectService.


(** The three flags of the service are the same in two worlds *)
Definition same_flags (w w' : StorageService.world) : Prop :=
  StorageService._isAvailable (StorageService.this w')
  = StorageService._isAvailable (StorageService.this w)
  /\ StorageService._quotaExceeded (StorageService.this w')
     = StorageService._quotaExceeded (StorageService.this w)
  /\ StorageService._usingFallback (StorageService.this w')
     = StorageService._usingFallback (StorageService.this w).

(** The exception [localStorage.setItem(key, JSON.stringify(data))] throws
    on the given contents, if any *)
Definition write_throws (pf : platform) (key : string) (data : value)
    (ls : LocalStorage.t) : option exn :=
  match JSON_stringify pf data with
  | None => Some (TypeError "Converting circular structure to JSON")
  | Some serializedData => setItem_throws pf ls key serializedData
  end.

(** The shape of the tasks that the round trip through [toJSON] and
    [fromJSON] reproduces: what the constructor leaves in each field, with
    valid dates and with checklist texts that are not empty *)
Definition item_well_formed (i : Task.Item.t) : Prop :=
  truthy (Task.Item.id i) = true
  /\ Str.trim (Task.Item.text i) = Task.Item.text i
  /\ Task.Item.text i <> "".

Definition valid_date (d : jsdate) : Prop :=
  match d with ValidDate _ => True | InvalidDate => False end.

Definition well_formed (t : Task.t) : Prop :=
  truthy (Task.id t) = true
  /\ Str.trim (Task.title t) = Task.title t
  /\ Task.title t <> ""
  /\ or_else (Task.description t) (VStr "") = Task.description t
  /\ match Task.dueDate t with Some d => valid_date d | None => True end
  /\ In (Task.priority t) Task.validPriorities
  /\ or_else (Task.notes t) (VStr "") = Task.notes t
  /\ Forall item_well_formed (Task.checklist t)
  /\ truthy (Task.projectId t) = true
  /\ valid_date (Task.createdAt t)
  /\ valid_date (Task.updatedAt t).

(** What [Task.update] rebuilds unchanged: a well-formed task, whatever its
    dates *)
Definition shaped (t : Task.t) : Prop :=
  truthy (Task.id t) = true
  /\ Str.trim (Task.title t) = Task.title t
  /\ Task.title t <> ""
  /\ or_else (Task.description t) (VStr "") = Task.description t
  /\ In (Task.priority t) Task.validPriorities
  /\ or_else (Task.notes t) (VStr "") = Task.notes t
  /\ Forall item_well_formed (Task.checklist t)
  /\ truthy (Task.projectId t) = true.

(** The fields of a task that only [update] and the checklist operations
    write *)
Definition same_but_checklist (a b : Task.t) : Prop :=
  Task.id a = Task.id b
  /\ Task.title a = Task.title b
  /\ Task.description a = Task.description b
  /\ Task.dueDate a = Task.dueDate b
  /\ Task.priority a = Task.priority b
  /\ Task.notes a = Task.notes b
  /\ Task.completed a = Task.completed b
  /\ Task.projectId a = Task.projectId b
  /\ Task.createdAt a = Task.createdAt b.

(** The dates of a task are valid: what [toJSON] needs *)
Definition valid_dates (t : Task.t) : Prop :=
  match Task.dueDate t with Some d => valid_date d | None => True end
  /\ valid_date (Task.createdAt t)
  /\ valid_date (Task.updatedAt t).

(** What a [forEach] of [localStorage.removeItem] leaves of the store, and a
    [forEach] of [Map.prototype.delete] of the fallback map *)
Definition remove_keys (keys : list string) (ls : LocalStorage.t)
  : LocalStorage.t :=
  fold_left (fun ls k => LocalStorage.removeItem k ls) keys ls.

Definition delete_keys (keys : list string) (m : gmap string value)
  : gmap string value :=
  fold_left (fun m k => delete k m) keys m.

(** The records of a stored project collection from which [Project.fromJSON]
    constructs a project, read off the two checks of the constructor *)
Definition project_constructs (record : value) : bool :=
  match record with
  | VUndefined | VNull => false
  | _ =>
      negb (Project.bad_name (get record "name"))
      && negb (Project.bad_count (or_else (get record "taskCount") (VNum 0)))
  end.

(** What the loop of [migrateBackToLocalStorage] writes when the store
    accepts every write *)
Definition put_entries (pf : platform) (entries : list (string * value))
    (ls : LocalStorage.t) : LocalStorage.t :=
  fold_left (fun ls kv =>
               LocalStorage.put (fst kv)
                 (default "" (JSON_stringify pf (snd kv))) ls) entries ls.

(** What [validateTaskData] leaves in [validatedData] when it reports no
    error, as far as the constructor of [Task] looks at it *)
Definition due_accepted (v : value) : Prop :=
  match v with
  | VUndefined | VNull | VDate (ValidDate _) => True
  | _ => False
  end.

Definition item_accepted (item : value) : Prop :=
  forall index, Task.check_item item index = Ok tt.

Definition validated_fields (fs : list (string * value)) : Prop :=
  (exists title, lookup_field "title" fs = VStr title
                 /\ Str.isEmpty (Str.trim title) = false)
  /\ due_accepted (lookup_field "dueDate" fs)
  /\ (exists p, lookup_field "priority" fs = VStr p
                /\ In p Task.validPriorities)
  /\ (lookup_field "checklist" fs = VUndefined
      \/ exists items, lookup_field "checklist" fs = VArr items
                       /\ Forall item_accepted items)
  /\ lookup_field "id" fs = VUndefined
  /\ lookup_field "completed" fs = VUndefined
  /\ lookup_field "createdAt" fs = VUndefined
  /\ lookup_field "updatedAt" fs = VUndefined.

(** What [syncTaskCounts] makes of a project: its task count becomes the
    number the callback returns, when that is a number and not negative *)
Definition synced_count (getTaskCountForProject : value -> result value)
    (project : Project.t) : value :=
  match (if strict_eq (Project.id project) (VStr "default")
         then getTaskCountForProject (VStr "all")
         else getTaskCountForProject (Project.id project)) with
  | Ok actual =>
      if jstype_eqb (typeof actual) TNumber && number_leb (VNum 0) actual
         && negb (strict_eq (Project.taskCount project) actual)
      then actual else Project.taskCount project
  | Throw _ => Project.taskCount project
  end.

Definition sync_project (getTaskCountForProject : value -> result value)
    (project : Project.t) : Project.t :=
  Project.Make (Project.id project) (Project.name project)
    (Project.createdAt project)
    (synced_count getTaskCountForProject project).

(** What [_migrateToFallback] copies for a key of the store: the parsed
    value of a text that is not empty and that [JSON.parse] accepts *)
Definition migrated (pf : platform) (ls : LocalStorage.t) (key : string)
  : option value :=
  match LocalStorage.getItem key ls with
  | Some v => if negb (Str.isEmpty v) then JSON_parse pf v else None
  | None => None
  end.



(** [Date.parse] reads back what [toISOString] prints *)
Definition iso_round_trip (pf : platform) : Prop :=
  forall t, Date_parse pf (toISOString pf t) = ValidDate t
            /\ toISOString pf t <> "".

(** A stored record is valid when [Task.fromJSON] constructs a task from it *)
Definition constructs (pf : platform) (record : value) : bool :=
  isOk (fst (Task.fromJSON pf record (Env 0 0))).

(** ** The specification's rounding, and sample data *)

(** [round(100 * completed / total)] as the specification writes it: the
    integer nearest to the exact quotient, a tie going up *)
Definition spec_percentage (completed total : nat) : Z :=
  (2 * (100 * Z.of_nat completed) + Z.of_nat total) / (2 * Z.of_nat total).

(** Whether, for [completed <= total], the percentage the code computes is
    an integer of [0..100] that is the specification's value, or one below it
    at one of the listed pairs *)
Definition percent_agrees (exceptions : list (nat * nat)) (completed total : nat)
  : bool :=
  match Float64.toZ (Float64.percent completed total) with
  | Some p =>
      (0 <=? p) && (p <=? 100)
      && ((p =? spec_percentage completed total)
          || ((p + 1 =? spec_percentage completed total)
              && existsb (fun ct => (fst ct =? completed)%nat
                                    && (snd ct =? total)%nat) exceptions))
  | None => false
  end.

Definition percent_agrees_upto (exceptions : list (nat * nat)) (bound : nat)
  : bool :=
  forallb (fun total =>
             forallb (fun completed =>
                        percent_agrees exceptions completed (S total))
               (seq 0 (S (S total))))
    (seq 0 bound).

Module Examples.

(** A browser whose store refuses every write for lack of space *)
Definition full_store : platform :=
  Platform
    (fun n => "uuid-" +:+ Str.ofNat n)
    (fun n => Z.of_nat n)
    (fun _ => InvalidDate)
    (fun _ => InvalidDate)
    (fun _ => "1970-01-01T00:00:00.000Z")
    (fun _ => Some "null")
    (fun _ => None)
    (fun _ _ _ => Some (Exn "QuotaExceededError" "The quota has been exceeded" (Some 22))).

(** A browser whose store accepts every write *)
Definition roomy_store : platform :=
  Platform
    (fun n => "uuid-" +:+ Str.ofNat n)
    (fun n => Z.of_nat n)
    (fun _ => InvalidDate)
    (fun _ => InvalidDate)
    (fun _ => "1970-01-01T00:00:00.000Z")
    (fun _ => Some "null")
    (fun _ => None)
    (fun _ _ _ => None).

Definition fresh_env : env := Env 0 0.

(** A service on an empty store that was available when it was constructed *)
Definition fresh_world : StorageService.world :=
  StorageService.World []
    (StorageService.Make true false ∅ false) fresh_env [] [].

(** A service already on its fallback map, holding [data] under the tasks key *)
Definition fallback_world (data : value) : StorageService.world :=
  StorageService.World []
    (StorageService.Make true true {[ StorageService.keys_tasks := data ]} true)
    fresh_env [] [].

(** A service already on its fallback map, holding [data] under the
    projects key *)
Definition fallback_projects_world (data : value) : StorageService.world :=
  StorageService.World []
    (StorageService.Make true true {[ StorageService.keys_projects := data ]}
       true)
    fresh_env [] [].

(** Stored project records: one that constructs and one with a blank name *)
Definition stored_projects : list value :=
  [VObj [("name", VStr "Home")]; VObj [("name", VStr " ")]].

(** A service on its store with the quota flag raised *)
Definition flagged_world : StorageService.world :=
  StorageService.World []
    (StorageService.Make true true ∅ false) fresh_env [] [].

Definition work : Project.t :=
  Project.Make (VStr "p1") "Work" (ValidDate 0) (VNum 3).

(** One half and minus one half, as doubles: 2^52 * 2^-53 *)
Definition half : spec_float := S754_finite false 4503599627370496 (-53).
Definition minus_half : spec_float := S754_finite true 4503599627370496 (-53).

Definition default_project : Project.t :=
  Project.Make (VStr "default") "All Tasks" (ValidDate 0) (VNum 0).

(** A checklist of [total] items, the first [completed] of them ticked *)
Definition ticked (completed total : nat) : list Task.Item.t :=
  map (fun i => Task.Item.Make (VStr (Str.ofNat i)) "step" (i <? completed)%nat)
    (seq 0 total).

Definition task_with (checklist : list Task.Item.t) (projectId : string) : Task.t :=
  Task.Make (VStr "t1") "Ship release" (VStr "") None "high" (VStr "")
    checklist false (VStr projectId) (ValidDate 0) (ValidDate 0).

(** An initialised task service holding one task of the default project
    and one of the project "p1" *)
Definition two_tasks : TaskService.state :=
  (TaskService.Make
     [task_with [] "default"; task_with (ticked 1 2) "p1"] true,
   fresh_world).

(** An initialised project service holding the default project and "Work" *)
Definition two_projects : ProjectService.state :=
  (ProjectService.Make [default_project; work] true, fresh_world).

(** Stored task records: two that construct and one without a title *)
Definition record_ok (id : string) : value :=
  VObj [("id", VStr id); ("title", VStr "Write report");
        ("priority", VStr "low"); ("createdAt", VNum 1000);
        ("updatedAt", VNum 2000)].

Definition record_without_title : value :=
  VObj [("id", VStr "b"); ("priority", VStr "low")].

Definition stored_records : list value :=
  [record_ok "a"; record_without_title; record_ok "c"].

(** A constructor input the constructor accepts, with a checklist item whose
    text is one space *)
Definition blank_item_input : value :=
  VObj [("title", VStr "a");
        ("checklist", VArr [VObj [("text", VStr " "); ("completed", VBool false)]])].

(** An input of [createTask] whose checklist text is '< >': sanitising it
    leaves one space *)
Definition angle_item_input : value :=
  VObj [("title", VStr "a");
        ("checklist",
          VArr [VObj [("text", VStr "< >"); ("completed", VBool false)]])].

(** A browser that prints a date as its time value in decimal after a 'T',
    a stand-in for the ISO format that [Date.parse] reads back; its JSON is
    observed on one stored value, and its store accepts every write *)
Definition parse_stamp (s : string) : jsdate :=
  match s with
  | String "T" digits =>
      match NilEmpty.int_of_string digits with
      | Some d => ValidDate (Z.of_int d)
      | None => InvalidDate
      end
  | _ => InvalidDate
  end.

Definition stamping_store (stored : value) : platform :=
  Platform
    (fun n => "uuid-" +:+ Str.ofNat n)
    (fun n => Z.of_nat n)
    parse_stamp
    (fun _ => InvalidDate)
    (fun t => "T" +:+ NilEmpty.string_of_int (Z.to_int t))
    (fun _ => Some "stored")
    (fun s => if Str.eqb s "stored" then Some stored else None)
    (fun _ _ _ => None).

(** A task whose due date is no date *)
Definition undated : Task.t :=
  Task.Make (VStr "t2") "Plan" (VStr "") (Some InvalidDate) "low" (VStr "")
    [] false (VStr "default") (ValidDate 0) (ValidDate 0).

(** What [toJSON] makes of [task_with [] "p1"] in that browser *)
Definition task_record : value :=
  VObj [("id", VStr "t1"); ("title", VStr "Ship release");
        ("description", VStr ""); ("dueDate", VNull);
        ("priority", VStr "high"); ("notes", VStr "");
        ("checklist", VArr []); ("completed", VBool false);
        ("projectId", VStr "p1"); ("createdAt", VStr "T0");
        ("updatedAt", VStr "T0")].

End Examples.

(** * Properties *)

(** ** Strings *)

Lemma Str_eqb_eq a b : Str.eqb a b = true <-> a = b.
Proof. apply String.eqb_eq. Qed.

Lemma Str_eqb_neq a b : Str.eqb a b = false <-> a <> b.
Proof. apply String.eqb_neq. Qed.

Lemma Str_isEmpty_true s : Str.isEmpty s = true <-> s = "".
Proof. destruct s; simpl; split; congruence. Qed.

(** ** Doubles that are integers *)


















(** ** [Project]: the task count *)




(** What the guard of [syncTaskCounts],
    [typeof count === 'number' && count >= 0], accepts, the guard of
    [setTaskCount] accepts as well *)
Lemma sync_guard_accepts count :
  jstype_eqb (typeof count) TNumber && number_leb (VNum 0) count = true ->
  Project.bad_count count = false.
Proof.
  intros H. apply andb_prop in H as [Ht Hle].
  unfold Project.bad_count. rewrite Ht. cbn [negb orb].
  destruct count as [| |b|n|s|d|xs|fs|x]; try discriminate.
  - simpl in *. apply Z.ltb_ge, Z.leb_le. exact Hle.
  - unfold number_leb, number_ltb, double in *.
    change (Float64.ofZ 0) with (S754_zero false) in *.
    destruct x as [s|s| |s m e]; try reflexivity; try discriminate;
      destruct s; try reflexivity; discriminate.
Qed.


(** One half is 1 / 2, and minus one half 0 - 1 / 2 *)
Lemma half_is_1_over_2 :
  Float64.div (Float64.ofZ 1) (Float64.ofZ 2) = Examples.half
  /\ Float64.sub (Float64.ofZ 0) Examples.half = Examples.minus_half.
Proof. split; vm_compute; reflexivity. Qed.




(** X30. [setTaskCount(NaN)] does not throw and stores [NaN]: the guard
    [count < 0] is false of [NaN], and so is [NaN >= 0], the guard of
    [syncTaskCounts].  The constructor accepts [NaN] in the same way. *)
Theorem Project_setTaskCount_accepts_NaN :
  Project.setTaskCount (VFloat S754_nan) Examples.work
  = (Ok tt, Project.Make (VStr "p1") "Work" (ValidDate 0) (VFloat S754_nan))
  /\ number_leb (VNum 0) (VFloat S754_nan) = false
  /\ (forall pf e,
        fst (Project.constructor pf
               (VObj [("id", VStr "p1"); ("name", VStr "Work");
                      ("createdAt", VDate (ValidDate 0));
                      ("taskCount", VFloat S754_nan)]) e)
        = Ok (Project.Make (VStr "p1") "Work" (ValidDate 0)
                (VFloat S754_nan))).
Proof. repeat split. Qed.

(** ** [update] and a failed validation *)

(** [Task.update] builds the new task before it writes to the instance:
    when it throws, the instance is the one before the call. *)
Lemma Task_update_throw_unchanged pf updates this e err s' :
  Task.update pf updates (this, e) = (Throw err, s') -> fst s' = this.
Proof.
  unfold Task.update, bind, gets. cbn [fst snd].
  destruct updates; try (intros H; injection H as _ <-; reflexivity).
  all: unfold Task.in_env, zoom, modify, Date_current; cbn [fst snd].
  all: match goal with
       | |- context [Task.constructor ?p ?d ?e1] =>
           destruct (Task.constructor p d e1) as [[t1|err1] e2]
       end; cbn [fst snd];
       intros H; try discriminate; injection H as _ <-; reflexivity.
Qed.

(** C1. [Project.update] with a valid new name and a negative task count
    throws the task-count error after it has already written the name: the
    instance is not the one before the call. *)
Theorem Project_update_throws_after_renaming :
  Project.update (VObj [("name", VStr "Home"); ("taskCount", VNum (-1))])
    Examples.work
  = (Throw Project.count_invalid,
     Project.Make (VStr "p1") "Home" (ValidDate 0) (VNum 3))
  /\ Project.name Examples.work = "Work".
Proof. split; reflexivity. Qed.

(** ** [getChecklistProgress] *)

Lemma getChecklistProgress_empty this :
  Task.checklist this = [] ->
  Task.getChecklistProgress this = Task.Progress.Make 0 0 (S754_zero false).
Proof. intros H. unfold Task.getChecklistProgress. rewrite H. reflexivity. Qed.

Lemma getChecklistProgress_counts this :
  Task.checklist this <> [] ->
  Task.getChecklistProgress this =
  let completed :=
    length (filter (fun item => Task.Item.completed item = true)
              (Task.checklist this)) in
  let total := length (Task.checklist this) in
  Task.Progress.Make completed total (Float64.percent completed total).
Proof.
  intros H. unfold Task.getChecklistProgress.
  destruct (Task.checklist this); [congruence | reflexivity].
Qed.

(** C7. On a checklist of 40 items of which 23 are completed the code
    computes (23 / 40) * 100 in binary64, which is just below 57.5, and
    [Math.round] gives 57; the specification's round(100 * 23 / 40) is 58. *)
Theorem getChecklistProgress_23_of_40 :
  let progress :=
    Task.getChecklistProgress
      (Examples.task_with (Examples.ticked 23 40) "default") in
  Task.Progress.completed progress = 23%nat
  /\ Task.Progress.total progress = 40%nat
  /\ Float64.toZ (Task.Progress.percentage progress) = Some 57
  /\ spec_percentage 23 40 = 58.
Proof. vm_compute. repeat split; reflexivity. Qed.

Lemma percent_agrees_upto_100 :
  percent_agrees_upto [(23, 40); (46, 80)]%nat 100 = true.
Proof. vm_compute. reflexivity. Qed.

Lemma percent_agrees_upto_elim exceptions bound completed total :
  percent_agrees_upto exceptions bound = true ->
  (0 < total <= bound)%nat -> (completed <= total)%nat ->
  percent_agrees exceptions completed total = true.
Proof.
  intros H Ht Hc. unfold percent_agrees_upto in H.
  rewrite forallb_forall in H.
  specialize (H (total - 1)%nat).
  rewrite in_seq in H. specialize (H ltac:(lia)).
  rewrite forallb_forall in H. specialize (H completed).
  rewrite in_seq in H. specialize (H ltac:(lia)).
  replace (S (total - 1)) with total in H by lia. exact H.
Qed.

(** On checklists of at most 100 items the percentage is an integer of
    [0..100]; it is the specification's value except at 23 of 40 and at 46
    of 80, where it is one below. *)
Lemma getChecklistProgress_upto_100 this :
  Task.checklist this <> [] ->
  (length (Task.checklist this) <= 100)%nat ->
  let progress := Task.getChecklistProgress this in
  exists p,
    Float64.toZ (Task.Progress.percentage progress) = Some p
    /\ 0 <= p <= 100
    /\ (p = spec_percentage (Task.Progress.completed progress)
              (Task.Progress.total progress)
        \/ p + 1 = spec_percentage (Task.Progress.completed progress)
                     (Task.Progress.total progress)).
Proof.
  intros Hne Hlen. rewrite (getChecklistProgress_counts _ Hne).
  cbv zeta. cbn [Task.Progress.percentage Task.Progress.completed
                 Task.Progress.total].
  set (c := length (filter _ _)). set (t := length (Task.checklist this)).
  assert (Hc : (c <= t)%nat) by apply length_filter.
  assert (Ht : (0 < t <= 100)%nat).
  { unfold t in *. destruct (Task.checklist this); [congruence | simpl in *; lia]. }
  pose proof (percent_agrees_upto_elim _ _ c t percent_agrees_upto_100 Ht Hc)
    as H.
  unfold percent_agrees in H.
  destruct (Float64.toZ (Float64.percent c t)) as [p|]; [|discriminate].
  exists p. split; [reflexivity|].
  apply andb_prop in H as [H1 H2]. apply andb_prop in H1 as [H0 H1].
  split; [lia|].
  apply orb_prop in H2 as [H2|H2].
  - left. lia.
  - right. apply andb_prop in H2 as [H2 _]. lia.
Qed.

(** ** The round trip through [toJSON] and [fromJSON] *)

(** C6. The constructor accepts a checklist item whose text is one space and
    stores it with the empty text; [toJSON] serialises the task, and
    [fromJSON] of that record throws, because the empty text is rejected. *)
Theorem fromJSON_toJSON_blank_item_throws pf e :
  exists task e1 json,
    Task.constructor pf Examples.blank_item_input e = (Ok task, e1)
    /\ map Task.Item.text (Task.checklist task) = [""]
    /\ Task.toJSON pf task = Ok json
    /\ forall e2,
        Task.fromJSON pf json e2 =
        (Throw (Error "Checklist item at index 0 must have a text property"), e2).
Proof.
  eexists _, _, _. split; [lazy; reflexivity|].
  split; [reflexivity|]. split; [lazy; reflexivity|].
  intros e2. lazy. reflexivity.
Qed.

(** The same task is reached through [validateTaskData], the way
    [createTask] builds its tasks: the text '< >' is sanitised to one space,
    which [validateRequired] accepts and the constructor trims to nothing. *)
Lemma validated_blank_item_throws pf e :
  exists report task e1 json,
    Validation.validateTaskData pf Examples.angle_item_input = Ok report
    /\ Validation.Report.valid report = true
    /\ Task.constructor pf (VObj (Validation.Report.data report)) e
       = (Ok task, e1)
    /\ map Task.Item.text (Task.checklist task) = [""]
    /\ Task.toJSON pf task = Ok json
    /\ forall e2,
        Task.fromJSON pf json e2 =
        (Throw (Error "Checklist item at index 0 must have a text property"), e2).
Proof.
  eexists _, _, _, _. split; [lazy; reflexivity|].
  split; [reflexivity|]. split; [lazy; reflexivity|].
  split; [reflexivity|]. split; [lazy; reflexivity|].
  intros e2. lazy. reflexivity.
Qed.

(** ** [validateTaskData]: the priority *)




















(** ** [StorageService]: [save], [load] and the fallback map *)

Import StorageService.

Lemma forEach_migrate_flags pf keys : forall index w,
  exists w', forEach (fun key _ => migrate_key pf key) keys index w = (Ok tt, w')
             /\ same_flags w w' /\ localStorage w' = localStorage w.
Proof.
  induction keys as [|k keys IH]; intros index w; simpl.
  - exists w. repeat split.
  - unfold bind at 1.
    assert (Hk : exists w1, migrate_key pf k w = (Ok tt, w1)
                            /\ same_flags w w1
                            /\ localStorage w1 = localStorage w).
    { unfold migrate_key, bind, gets.
      destruct (LocalStorage.getItem k (localStorage w)) as [v|];
        [|exists w; repeat split].
      destruct (negb (Str.isEmpty v)); [|exists w; repeat split].
      destruct (JSON_parse pf v); eexists; (split; [reflexivity|]);
        repeat split. }
    destruct Hk as (w1 & -> & Hf1 & Hl1).
    destruct (IH (S index) w1) as (w2 & -> & Hf2 & Hl2).
    exists w2. split; [reflexivity|]. split.
    + destruct Hf1 as (? & ? & ?), Hf2 as (? & ? & ?).
      repeat split; congruence.
    + congruence.
Qed.

Lemma switchToFallback_spec pf reason w :
  exists w', _switchToFallback pf reason w = (Ok tt, w')
             /\ _usingFallback (this w') = true
             /\ _quotaExceeded (this w') = _quotaExceeded (this w)
             /\ _isAvailable (this w') = _isAvailable (this w).
Proof.
  unfold _switchToFallback, bind, gets.
  destruct (_usingFallback (this w)) eqn:Hu; simpl.
  - exists w. repeat split. exact Hu.
  - unfold _migrateToFallback, bind, gets. simpl.
    destruct (_isAvailable (this w)) eqn:Ha; simpl.
    + match goal with
      | |- context [forEach ?f ?l ?i ?w0] =>
          destruct (forEach_migrate_flags pf l i w0)
            as (w1 & -> & (Hf1 & Hf2 & Hf3) & _)
      end.
      simpl in *. eexists. split; [reflexivity|]. simpl.
      repeat split; congruence.
    + eexists. split; [reflexivity|]. simpl. repeat split; congruence.
Qed.

Lemma attemptCleanup_spec w :
  exists cleaned w', _attemptCleanup w = (Ok cleaned, w') /\ this w' = this w.
Proof.
  unfold _attemptCleanup, bind, gets.
  destruct (negb (_isAvailable (this w))); [eexists _, _; split; reflexivity|].
  destruct (remove_ranked _ _ _) as [ls' removed].
  eexists _, _. split; reflexivity.
Qed.

Lemma write_spec pf key data w :
  match write_throws pf key data (localStorage w) with
  | Some e => write pf key data w = (Throw e, w)
  | None => exists w', write pf key data w = (Ok tt, w') /\ this w' = this w
  end.
Proof.
  unfold write_throws, write, throw, setItem.
  destruct (JSON_stringify pf data) as [s|]; [|reflexivity].
  destruct (setItem_throws pf (localStorage w) key s); [reflexivity|].
  eexists. split; reflexivity.
Qed.

(** What [save] does to the flags and to the fallback map: it returns [true],
    either from a write the store accepted, which clears the quota flag, or
    after putting the value in the fallback map. *)
Lemma save_cases pf key data w :
  exists w',
    save pf key data w = (Ok true, w')
    /\ _isAvailable (this w') = _isAvailable (this w)
    /\ ((_isAvailable (this w) = true
         /\ _usingFallback (this w) = false
         /\ (exists ls, write_throws pf (fullKey key) data ls = None)
         /\ _usingFallback (this w') = false
         /\ _quotaExceeded (this w') = false)
        \/ (_fallbackStorage (this w') !! fullKey key = Some data
            /\ ((_isAvailable (this w) && negb (_usingFallback (this w)) = false
                 /\ _usingFallback (this w') = _usingFallback (this w)
                 /\ _quotaExceeded (this w') = _quotaExceeded (this w))
                \/ (_isAvailable (this w) = true
                    /\ _usingFallback (this w) = false
                    /\ _usingFallback (this w') = true
                    /\ exists e,
                        write_throws pf (fullKey key) data (localStorage w)
                        = Some e
                        /\ _quotaExceeded (this w') =
                           (if is_quota_error e then true
                            else _quotaExceeded (this w)))))).
Proof.
  unfold save, bind at 1, gets at 1. cbn beta iota.
  destruct (_isAvailable (this w) && negb (_usingFallback (this w))) eqn:Hnormal.
  2:{ eexists. split; [reflexivity|]. split; [reflexivity|]. right. simpl.
      split; [apply lookup_insert_eq|]. left. repeat split. }
  apply andb_prop in Hnormal as [Ha Hu]. apply negb_true_iff in Hu.
  unfold bind at 1. unfold save_to_store, try_catch at 1.
  unfold bind at 1.
  pose proof (write_spec pf (fullKey key) data w) as Hw.
  destruct (write_throws pf (fullKey key) data (localStorage w)) as [e|] eqn:Hwt.
  2:{ destruct Hw as (w1 & -> & Hthis). cbn.
      eexists. split; [reflexivity|]. simpl. rewrite Hthis.
      split; [reflexivity|]. left. rewrite Ha, Hu. repeat split. eauto. }
  rewrite Hw. cbn beta iota.
  destruct (is_quota_error e) eqn:Hq.
  - (* a quota error *)
    unfold bind at 1. unfold set_quotaExceeded at 1, modify at 1. cbn beta iota.
    unfold bind at 1. unfold _notifyQuotaExceeded at 1, modify at 1.
    cbn beta iota. unfold bind at 1.
    match goal with
    | |- context [_attemptCleanup ?w0] =>
        destruct (attemptCleanup_spec w0) as (cleaned & w1 & -> & Hthis1)
    end.
    cbn beta iota. simpl in Hthis1.
    destruct cleaned.
    + unfold try_catch at 1. unfold bind at 1.
      pose proof (write_spec pf (fullKey key) data w1) as Hw1.
      destruct (write_throws pf (fullKey key) data (localStorage w1))
        as [e1|] eqn:Hwt1.
      * rewrite Hw1. cbn beta iota. unfold bind at 1.
        destruct (switchToFallback_spec pf
                    "Quota exceeded after cleanup attempt" w1)
          as (w2 & -> & Hu2 & Hq2 & Ha2).
        cbn. eexists. split; [reflexivity|]. simpl.
        rewrite Ha2, Hthis1. simpl. split; [reflexivity|]. right.
        split; [apply lookup_insert_eq|]. right.
        rewrite Ha, Hu, Hu2, Hq2, Hthis1. simpl. repeat split.
        exists e. rewrite Hq. split; reflexivity.
      * destruct Hw1 as (w2 & -> & Hthis2). cbn.
        eexists. split; [reflexivity|]. simpl. rewrite Hthis2, Hthis1. simpl.
        split; [reflexivity|]. left. rewrite Ha, Hu. repeat split. eauto.
    + unfold bind at 1.
      destruct (switchToFallback_spec pf "Storage quota exceeded" w1)
        as (w2 & -> & Hu2 & Hq2 & Ha2).
      cbn. eexists. split; [reflexivity|]. simpl.
      rewrite Ha2, Hthis1. simpl. split; [reflexivity|]. right.
      split; [apply lookup_insert_eq|]. right.
      rewrite Ha, Hu, Hu2, Hq2, Hthis1. simpl. repeat split.
      exists e. rewrite Hq. split; reflexivity.
  - (* another error *)
    unfold bind at 1. unfold _notifyError at 1, modify at 1. cbn beta iota.
    unfold bind at 1.
    match goal with
    | |- context [_switchToFallback pf ?r ?w0] =>
        destruct (switchToFallback_spec pf r w0) as (w2 & -> & Hu2 & Hq2 & Ha2)
    end.
    cbn. eexists. split; [reflexivity|]. simpl in *.
    rewrite Ha2. split; [reflexivity|]. right.
    split; [apply lookup_insert_eq|]. right.
    rewrite Ha, Hu, Hu2, Hq2. repeat split.
    exists e. rewrite Hq. split; reflexivity.
Qed.

Lemma load_from_fallback pf key w :
  _isAvailable (this w) && negb (_usingFallback (this w)) = false ->
  load pf key w =
  (Ok (or_else (default VUndefined (_fallbackStorage (this w) !! fullKey key))
         VNull), w).
Proof.
  intros H. unfold load, bind, gets. cbn beta iota. rewrite H. reflexivity.
Qed.

(** When every write to the store throws, [save] returns [true] and the
    next [load] of the key returns [data || null]. *)
Lemma save_then_load_when_every_write_throws pf key data w :
  (forall ls k v, exists e, setItem_throws pf ls k v = Some e
                            /\ is_quota_error e = true) ->
  exists w',
    save pf key data w = (Ok true, w')
    /\ load pf key w' = (Ok (or_else data VNull), w').
Proof.
  intros Hfull.
  destruct (save_cases pf key data w) as (w' & Hsave & Ha & Hcases).
  exists w'. split; [exact Hsave|].
  destruct Hcases as [(_ & _ & (ls & Hls) & _) | (Hmap & Hflags)].
  - exfalso. unfold write_throws in Hls.
    destruct (JSON_stringify pf data) as [s|]; [|discriminate].
    destruct (Hfull ls (fullKey key) s) as (e & He & _). congruence.
  - rewrite load_from_fallback.
    + rewrite Hmap. reflexivity.
    + destruct Hflags as [(Hn & Hu & _) | (_ & _ & Hu & _)].
      * rewrite Ha, Hu. exact Hn.
      * rewrite Hu. apply andb_false_r.
Qed.

Lemma save_then_load_when_every_write_throws_example :
  exists w',
    save Examples.full_store "settings" (VObj [("theme", VStr "dark")])
      Examples.fresh_world = (Ok true, w')
    /\ load Examples.full_store "settings" w'
       = (Ok (VObj [("theme", VStr "dark")]), w').
Proof.
  apply (save_then_load_when_every_write_throws Examples.full_store "settings"
           (VObj [("theme", VStr "dark")]) Examples.fresh_world).
  intros ls k v. eexists. split; reflexivity.
Defined.

(** C2. With a store that throws a quota error on every write, and whatever
    the state of the service, saving the number 0 returns [true] and puts 0
    in the fallback map, and the next [load] of the key returns [null], not
    0: [load] reads the map through [get(fullKey) || null]. *)
Theorem save_then_load_zero_when_store_is_full w :
  exists w',
    save Examples.full_store "count" (VNum 0) w = (Ok true, w')
    /\ _fallbackStorage (this w') !! fullKey "count" = Some (VNum 0)
    /\ load Examples.full_store "count" w' = (Ok VNull, w').
Proof.
  destruct (save_cases Examples.full_store "count" (VNum 0) w)
    as (w' & Hsave & Ha & Hcases).
  exists w'. split; [exact Hsave|].
  destruct Hcases as [(_ & _ & (ls & Hls) & _) | (Hmap & Hflags)];
    [discriminate|].
  split; [exact Hmap|].
  rewrite load_from_fallback.
  - rewrite Hmap. reflexivity.
  - destruct Hflags as [(Hn & Hu & _) | (_ & _ & Hu & _)].
    + rewrite Ha, Hu. exact Hn.
    + rewrite Hu. apply andb_false_r.
Qed.

(** ** The quota flag *)

(** C5, as stated, fails: with a store that throws a quota error on every
    write, a save returns [true] and leaves the flag set, and so does the
    save after it. *)
Lemma save_returns_true_with_quota_flag_set :
  exists w1 w2,
    save Examples.full_store "tasks" (VArr []) Examples.fresh_world
    = (Ok true, w1)
    /\ isQuotaExceeded w1 = (Ok true, w1)
    /\ save Examples.full_store "tasks" (VArr []) w1 = (Ok true, w2)
    /\ isQuotaExceeded w2 = (Ok true, w2).
Proof.
  destruct (save_cases Examples.full_store "tasks" (VArr []) Examples.fresh_world)
    as (w1 & Hsave1 & Ha1 & Hc1).
  destruct (save_cases Examples.full_store "tasks" (VArr []) w1)
    as (w2 & Hsave2 & Ha2 & Hc2).
  exists w1, w2.
  assert (H1 : _usingFallback (this w1) = true
               /\ _quotaExceeded (this w1) = true).
  { destruct Hc1 as [(_ & _ & (ls & Hls) & _) | (_ & [(Hn & _) | H])];
      try discriminate.
    destruct H as (_ & _ & Hu & e & He & Hq).
    injection He as <-. split; assumption. }
  destruct H1 as [Hu1 Hq1].
  assert (H2 : _quotaExceeded (this w2) = true).
  { destruct Hc2 as [(_ & Hu & _) | (_ & [(_ & _ & Hq) | (_ & Hu & _)])];
      congruence. }
  unfold isQuotaExceeded, gets. rewrite Hq1, H2. repeat split; assumption.
Qed.

(** C5, amended. [save] returns [true].  When it ends with the service still
    on the store (available, not on the fallback), the flag is cleared; when
    the write throws a quota error and the save ends on the fallback, the
    flag is set; a save that goes straight to the fallback map leaves the
    flag as it was. *)
Theorem quota_flag_after_save pf key data w :
  exists w',
    save pf key data w = (Ok true, w')
    /\ (_isAvailable (this w) = true ->
        _usingFallback (this w') = false -> _quotaExceeded (this w') = false)
    /\ (forall e,
          _isAvailable (this w) = true ->
          _usingFallback (this w) = false ->
          write_throws pf (fullKey key) data (localStorage w) = Some e ->
          is_quota_error e = true ->
          _usingFallback (this w') = true ->
          _quotaExceeded (this w') = true)
    /\ (_isAvailable (this w) && negb (_usingFallback (this w)) = false ->
        _usingFallback (this w') = _usingFallback (this w)
        /\ _quotaExceeded (this w') = _quotaExceeded (this w)).
Proof.
  destruct (save_cases pf key data w) as (w' & Hsave & Ha & Hcases).
  exists w'. split; [exact Hsave|].
  destruct Hcases
    as [(Hav & Hu & _ & Hu' & Hq')
       | (_ & [(Hn & Hu' & Hq') | (Hav & Hu & Hu' & e' & He' & Hq')])].
  - split; [intros _ _; exact Hq'|]. split; [intros; congruence|].
    rewrite Hav, Hu. discriminate.
  - split.
    + intros Hav Hu. rewrite Hu' in Hu. rewrite Hav, Hu in Hn. discriminate.
    + split; [|intros _; split; assumption].
      intros e Hav Hu. rewrite Hav, Hu in Hn. discriminate.
  - split; [intros; congruence|]. split.
    + intros e _ _ He Hq _. rewrite He in He'. injection He' as <-.
      rewrite Hq in Hq'. exact Hq'.
    + rewrite Hav, Hu. discriminate.
Qed.

Lemma quota_flag_after_save_witness :
  exists w',
    save Examples.roomy_store "tasks" (VArr []) Examples.flagged_world
    = (Ok true, w')
    /\ _quotaExceeded (this Examples.flagged_world) = true
    /\ _quotaExceeded (this w') = false.
Proof.
  destruct (quota_flag_after_save Examples.roomy_store "tasks" (VArr [])
              Examples.flagged_world)
    as (w' & Hsave & Hclear & _).
  exists w'. split; [exact Hsave|]. split; [reflexivity|].
  apply Hclear; [reflexivity|].
  assert (Hrun : save Examples.roomy_store "tasks" (VArr [])
                   Examples.flagged_world
                 = (Ok true,
                    World [("todoapp_tasks", "null")]
                      (Make true false ∅ false) Examples.fresh_env [] []))
    by reflexivity.
  rewrite Hrun in Hsave. injection Hsave as <-. reflexivity.
Defined.

(** ** Loading the stored tasks *)

Lemma forEach_lift_result {St A} (f : A -> nat -> result unit) (l : list A) :
  forall index, exists r, forall s : St,
    forEach (fun x i => lift_result (f x i)) l index s = (r, s).
Proof.
  induction l as [|x l IH]; intros index; simpl.
  - exists (Ok tt). reflexivity.
  - destruct (IH (S index)) as [r Hr].
    destruct (f x index) as [[]|e].
    + exists r. intros s. unfold bind, lift_result. apply Hr.
    + exists (Throw e). intros s. unfold bind, lift_result. reflexivity.
Qed.

Lemma make_item_ok pf item e :
  exists it e', Task.make_item pf item e = (Ok it, e').
Proof.
  unfold Task.make_item, bind, ret.
  destruct (truthy (get item "id")); simpl; eauto.
Qed.

Lemma mapM_make_item_ok pf items : forall e,
  exists l e', mapM (Task.make_item pf) items e = (Ok l, e').
Proof.
  induction items as [|item items IH]; intros e; simpl.
  - eexists _, _. reflexivity.
  - unfold bind at 1. destruct (make_item_ok pf item e) as (it & e1 & ->).
    unfold bind at 1. destruct (IH e1) as (l & e2 & ->).
    eexists _, _. reflexivity.
Qed.

(** Whether the constructor accepts its argument does not depend on the
    oracles: every check comes before the first identifier or clock reading. *)
Lemma Task_constructor_isOk_env pf arg :
  exists b, forall e, isOk (fst (Task.constructor pf arg e)) = b.
Proof.
  unfold Task.constructor.
  destruct arg; try (exists false; reflexivity).
  all: cbv zeta.
  all: destruct (_ || _ || _); [exists false; reflexivity|].
  all: destruct (negb (Task.includes_priority _)); [exists false; reflexivity|].
  all: destruct (_ && _ && _); [exists false; reflexivity|].
  all: destruct (default_to (get _ "checklist") _) as [| |b0|n0|s0|d0|items|fs|x0];
    try (exists false; reflexivity).
  all: destruct (forEach_lift_result (St := env) Task.check_item items O)
         as [r Hr];
    destruct r as [[]|err];
    [|exists false; intros e; unfold bind at 1; rewrite Hr; reflexivity].
  all: exists true; intros e; unfold bind at 1; rewrite Hr.
  all: unfold bind at 1;
    match goal with
    | |- context [(if truthy ?v then ret ?v else fresh_uuid ?p) ?e0] =>
        assert (H1 : exists v1 e1,
                   (if truthy v then ret v else fresh_uuid p) e0 = (Ok v1, e1))
          by (destruct (truthy v); eexists _, _; reflexivity);
        destruct H1 as (v1 & e1 & ->)
    end.
  all: unfold bind at 1;
    match goal with
    | |- context [mapM (Task.make_item ?p) ?its ?e1] =>
        destruct (mapM_make_item_ok p its e1) as (l & e2 & ->)
    end.
  all: unfold bind at 1;
    match goal with
    | |- context [(if truthy ?v then ret ?d else Date_current ?p) ?e2] =>
        assert (H3 : exists v3 e3,
                   (if truthy v then ret d else Date_current p) e2 = (Ok v3, e3))
          by (destruct (truthy v); eexists _, _; reflexivity);
        destruct H3 as (v3 & e3 & ->)
    end.
  all: unfold bind at 1;
    match goal with
    | |- context [(if truthy ?v then ret ?d else Date_current ?p) ?e3] =>
        assert (H4 : exists v4 e4,
                   (if truthy v then ret d else Date_current p) e3 = (Ok v4, e4))
          by (destruct (truthy v); eexists _, _; reflexivity);
        destruct H4 as (v4 & e4 & ->)
    end.
  all: reflexivity.
Qed.

Lemma Task_fromJSON_isOk pf record e :
  isOk (fst (Task.fromJSON pf record e)) = constructs pf record.
Proof.
  unfold constructs, Task.fromJSON.
  destruct record; try reflexivity;
    match goal with
    | |- context [Task.constructor pf ?arg e] =>
        destruct (Task_constructor_isOk_env pf arg) as [b Hb];
        rewrite !Hb; reflexivity
    end.
Qed.

Lemma load_ok pf key w :
  exists v w', load pf key w = (Ok v, w').
Proof.
  unfold load, bind, gets. cbn beta iota.
  destruct (_ && _); [|eexists _, _; reflexivity].
  destruct (LocalStorage.getItem _ _) as [s|]; [|eexists _, _; reflexivity].
  destruct (JSON_parse pf s); eexists _, _; reflexivity.
Qed.

(** The loop of [loadTasks] and [loadProjects]: it never throws, keeps in
    order what constructs, and prints one line for each record it skips. *)
Lemma load_each_spec {A} (fromJSON : value -> M env A) (ok : value -> bool)
    (what : string) :
  (forall record e, isOk (fst (fromJSON record e)) = ok record) ->
  forall records index loaded w,
  exists xs w',
    load_each fromJSON what records index loaded w = (Ok (loaded ++ xs), w')
    /\ Forall2 (fun record x => exists e, fst (fromJSON record e) = Ok x)
         (List.filter ok records) xs
    /\ length (console w')
       = (length (console w)
          + length (List.filter (fun r => negb (ok r)) records))%nat
    /\ this w' = this w
    /\ localStorage w' = localStorage w.
Proof.
  intros Hok. induction records as [|record rest IH]; intros index loaded w.
  - exists [], w. simpl. rewrite app_nil_r. repeat split; [constructor | lia].
  - simpl. unfold bind at 1. unfold try_catch at 1. unfold bind at 1.
    unfold in_oracles, zoom.
    pose proof (Hok record (oracles w)) as Hrec.
    destruct (fromJSON record (oracles w)) as [[x|err] e1] eqn:Hfrom;
      simpl in Hrec; rewrite <- Hrec; cbn.
    + destruct (IH (S index) (loaded ++ [x]) (with_oracles e1 w))
        as (xs & w' & -> & Hall & Hlen & Hthis & Hls).
      exists (x :: xs), w'. rewrite <- app_assoc. simpl.
      repeat split; try assumption.
      constructor; [|exact Hall]. exists (oracles w). rewrite Hfrom. reflexivity.
    + match goal with
      | |- context [load_each fromJSON what rest (S index) loaded ?w0] =>
          destruct (IH (S index) loaded w0)
            as (xs & w' & -> & Hall & Hlen & Hthis & Hls)
      end.
      exists xs, w'. simpl in *.
      repeat split; try assumption.
      rewrite Hlen, length_app. simpl. lia.
Qed.

Lemma load_each_ok {A} (fromJSON : value -> M env A) (what : string) :
  forall records index loaded w,
  exists xs w', load_each fromJSON what records index loaded w = (Ok xs, w').
Proof.
  induction records as [|record rest IH]; intros index loaded w; simpl.
  - eexists _, _. reflexivity.
  - unfold bind at 1. unfold try_catch at 1. unfold bind at 1.
    unfold in_oracles, zoom.
    destruct (fromJSON record (oracles w)) as [[x|err] e1]; cbn; apply IH.
Qed.

Lemma loadTasks_ok pf w :
  exists tasks w', loadTasks pf w = (Ok tasks, w').
Proof.
  unfold loadTasks, bind at 1.
  destruct (load_ok pf keys_tasks w) as (v & w1 & ->). cbn beta iota.
  destruct (negb (truthy v)); [eexists _, _; reflexivity|].
  destruct v; try (eexists _, _; reflexivity).
  apply load_each_ok.
Qed.

Lemma loadProjects_ok pf w :
  exists projects w', loadProjects pf w = (Ok projects, w').
Proof.
  unfold loadProjects, bind at 1.
  destruct (load_ok pf keys_projects w) as (v & w1 & ->). cbn beta iota.
  destruct (negb (truthy v)); [eexists _, _; reflexivity|].
  destruct v; try (eexists _, _; reflexivity).
  apply load_each_ok.
Qed.

(** C3. [loadTasks] never throws.  When the stored collection is an array,
    it returns, in order, the tasks built from exactly the records from
    which [Task.fromJSON] constructs a task, and prints one warning for each
    record it drops. *)
Theorem loadTasks_keeps_the_valid_records pf w :
  (exists tasks w', loadTasks pf w = (Ok tasks, w'))
  /\ forall records w1,
      load pf keys_tasks w = (Ok (VArr records), w1) ->
      exists tasks w2,
        loadTasks pf w = (Ok tasks, w2)
        /\ Forall2
             (fun record task =>
                exists e, fst (Task.fromJSON pf record e) = Ok task)
             (List.filter (constructs pf) records) tasks
        /\ length tasks = length (List.filter (constructs pf) records)
        /\ length (console w2)
           = (length (console w1)
              + length (List.filter (fun r => negb (constructs pf r)) records))%nat.
Proof.
  assert (Harr : forall records w1,
    load pf keys_tasks w = (Ok (VArr records), w1) ->
    exists tasks w2,
      loadTasks pf w = (Ok tasks, w2)
      /\ Forall2
           (fun record task =>
              exists e, fst (Task.fromJSON pf record e) = Ok task)
           (List.filter (constructs pf) records) tasks
      /\ length tasks = length (List.filter (constructs pf) records)
      /\ length (console w2)
         = (length (console w1)
            + length (List.filter (fun r => negb (constructs pf r)) records))%nat).
  { intros records w1 Hload. unfold loadTasks, bind at 1. rewrite Hload.
    cbn beta iota. simpl negb. cbn iota.
    destruct (load_each_spec (Task.fromJSON pf) (constructs pf) "task"
                (Task_fromJSON_isOk pf) records O [] w1)
      as (xs & w2 & Heach & Hall & Hlen & _).
    exists xs, w2. split; [exact Heach|]. split; [exact Hall|].
    split; [|exact Hlen].
    symmetry. eapply Forall2_length. exact Hall. }
  split; [apply loadTasks_ok | exact Harr].
Qed.

Lemma loadTasks_keeps_the_valid_records_witness :
  exists tasks w2,
    loadTasks Examples.full_store
      (Examples.fallback_world (VArr Examples.stored_records)) = (Ok tasks, w2)
    /\ length tasks = 2%nat
    /\ length (console w2) = 1%nat.
Proof.
  destruct (proj2 (loadTasks_keeps_the_valid_records Examples.full_store
                     (Examples.fallback_world (VArr Examples.stored_records)))
              Examples.stored_records
              (Examples.fallback_world (VArr Examples.stored_records))
              eq_refl)
    as (tasks & w2 & Hload & _ & Hlen & Hconsole).
  exists tasks, w2. split; [exact Hload|]. split.
  - rewrite Hlen. reflexivity.
  - rewrite Hconsole. reflexivity.
Defined.

(** ** [TaskService.getTasksByProject] *)

Lemma strict_eq_string v s : strict_eq v (VStr s) = true <-> v = VStr s.
Proof.
  destruct v; simpl; try (split; discriminate).
  rewrite Str_eqb_eq. split; congruence.
Qed.

Lemma TaskService_ensureInitialized_ok pf s :
  exists s',
    TaskService._ensureInitialized pf s = (Ok tt, s')
    /\ (TaskService._initialized (fst s) = true -> s' = s).
Proof.
  unfold TaskService._ensureInitialized, bind at 1, gets at 1. cbn beta iota.
  destruct (TaskService._initialized (fst s)) eqn:Hinit; simpl.
  - exists s. split; [reflexivity | reflexivity].
  - unfold TaskService.initialize, bind at 1, gets at 1. cbn beta iota.
    rewrite Hinit. unfold try_catch, bind, TaskService.in_storage, zoom.
    destruct (loadTasks_ok pf (snd s)) as (tasks & w' & ->).
    eexists. split; [reflexivity | discriminate].
Qed.

(** C4. [getTasksByProject] first makes sure the service is initialised,
    which changes nothing once it is.  For 'default' (and for no argument)
    it returns the whole collection; for any other id it returns the tasks
    whose [projectId] is that id, and only those. *)
Theorem getTasksByProject_default_is_master_view pf s :
  exists s',
    TaskService._ensureInitialized pf s = (Ok tt, s')
    /\ (TaskService._initialized (fst s) = true -> s' = s)
    /\ TaskService.getTasksByProject pf (VStr "default") s
       = (Ok (TaskService._tasks (fst s')), s')
    /\ TaskService.getTasksByProject pf VUndefined s
       = (Ok (TaskService._tasks (fst s')), s')
    /\ forall projectId,
        projectId <> VUndefined -> projectId <> VStr "default" ->
        exists tasks,
          TaskService.getTasksByProject pf projectId s = (Ok tasks, s')
          /\ tasks = List.filter
                       (fun task => strict_eq (Task.projectId task) projectId)
                       (TaskService._tasks (fst s'))
          /\ forall task,
              In task tasks <->
              In task (TaskService._tasks (fst s'))
              /\ strict_eq (Task.projectId task) projectId = true.
Proof.
  destruct (TaskService_ensureInitialized_ok pf s) as (s' & Hinit & Hsame).
  exists s'. split; [exact Hinit|]. split; [exact Hsame|].
  unfold TaskService.getTasksByProject.
  split; [|split].
  - simpl default_to. unfold bind at 1. rewrite Hinit. reflexivity.
  - simpl default_to. unfold bind at 1. rewrite Hinit. reflexivity.
  - intros projectId Hundef Hdefault.
    assert (Hd : default_to projectId (VStr "default") = projectId)
      by (destruct projectId; try reflexivity; congruence).
    rewrite Hd. unfold bind at 1. rewrite Hinit.
    unfold bind, gets, ret. cbn beta iota.
    destruct (strict_eq projectId (VStr "default")) eqn:Heq.
    + apply strict_eq_string in Heq. congruence.
    + eexists. split; [reflexivity|]. split; [reflexivity|].
      intros task. apply List.filter_In.
Qed.

Lemma getTasksByProject_default_is_master_view_witness :
  TaskService.getTasksByProject Examples.roomy_store (VStr "default")
    Examples.two_tasks
  = (Ok [Examples.task_with [] "default";
         Examples.task_with (Examples.ticked 1 2) "p1"], Examples.two_tasks)
  /\ TaskService.getTasksByProject Examples.roomy_store (VStr "p1")
       Examples.two_tasks
     = (Ok [Examples.task_with (Examples.ticked 1 2) "p1"], Examples.two_tasks).
Proof.
  destruct (getTasksByProject_default_is_master_view Examples.roomy_store
              Examples.two_tasks)
    as (s' & _ & Hsame & Hdefault & _ & Hother).
  rewrite (Hsame eq_refl) in *.
  split; [exact Hdefault|].
  destruct (Hother (VStr "p1") ltac:(discriminate) ltac:(discriminate))
    as (tasks & Hget & -> & _).
  exact Hget.
Defined.

(** ** [ProjectService.deleteProject] *)

Lemma ProjectService_ensureInitialized_ok pf s :
  exists s',
    ProjectService._ensureInitialized pf s = (Ok tt, s')
    /\ (ProjectService._initialized (fst s) = true -> s' = s).
Proof.
  unfold ProjectService._ensureInitialized, bind at 1, gets at 1.
  cbn beta iota.
  destruct (ProjectService._initialized (fst s)) eqn:Hinit; simpl.
  - exists s. split; reflexivity.
  - unfold ProjectService.initialize, bind at 1, gets at 1. cbn beta iota.
    rewrite Hinit. unfold try_catch at 1.
    match goal with
    | |- context [match ?body s with _ => _ end] =>
        destruct (body s) as [[[]|err] s1]
    end.
    + eexists. split; [reflexivity | discriminate].
    + unfold bind at 1. unfold ProjectService.in_storage at 1, zoom at 1.
      unfold console_print at 1, modify at 1. cbn beta iota.
      unfold bind at 1. unfold ProjectService.set_projects at 1, modify at 1.
      cbn beta iota. unfold bind at 1. unfold try_catch at 1.
      match goal with
      | |- context [ProjectService._ensureDefaultProject pf ?s0] =>
          destruct (ProjectService._ensureDefaultProject pf s0)
            as [[[]|err2] s2]
      end; eexists; (split; [reflexivity | discriminate]).
Qed.

(** C8. [deleteProject('default')] always throws 'Cannot delete the default
    project'.  The only thing it does before is the lazy initialisation of
    the service; on an initialised service the project collection, and the
    rest of the state, are exactly as before the call. *)
Theorem deleteProject_default_is_rejected pf s :
  exists s',
    ProjectService._ensureInitialized pf s = (Ok tt, s')
    /\ ProjectService.deleteProject pf (VStr "default") s
       = (Throw ProjectService.cannot_delete_default, s')
    /\ (ProjectService._initialized (fst s) = true ->
        s' = s
        /\ ProjectService._projects (fst s') = ProjectService._projects (fst s)).
Proof.
  destruct (ProjectService_ensureInitialized_ok pf s) as (s' & Hinit & Hsame).
  exists s'. split; [exact Hinit|]. split.
  - unfold ProjectService.deleteProject, bind at 1. rewrite Hinit. reflexivity.
  - intros H. rewrite (Hsame H). split; reflexivity.
Qed.

Lemma deleteProject_default_is_rejected_witness :
  ProjectService.deleteProject Examples.roomy_store (VStr "default")
    Examples.two_projects
  = (Throw ProjectService.cannot_delete_default, Examples.two_projects).
Proof.
  destruct (deleteProject_default_is_rejected Examples.roomy_store
              Examples.two_projects)
    as (s' & _ & Hdelete & Hsame).
  destruct (Hsame eq_refl) as [-> _]. exact Hdelete.
Defined.

(** ** The round trip on well-formed tasks *)

Lemma trimStart_fixed s :
  Str.trimStart (Str.trimStart s) = Str.trimStart s.
Proof.
  induction s as [|c r IH]; simpl; [reflexivity|].
  destruct (Str.isWhiteSpace c) eqn:Hc; [exact IH|]. simpl. rewrite Hc.
  reflexivity.
Qed.

Lemma trimEnd_fixed s : Str.trimEnd (Str.trimEnd s) = Str.trimEnd s.
Proof.
  induction s as [|c r IH]; simpl; [reflexivity|].
  destruct (Str.isWhiteSpace c && Str.isEmpty (Str.trimEnd r)) eqn:Hc;
    [reflexivity|].
  simpl. rewrite IH, Hc. reflexivity.
Qed.

(** Trimming the end leaves a string that starts with a character other
    than white space starting with it *)
Lemma trimStart_trimEnd s :
  Str.trimStart s = s -> Str.trimStart (Str.trimEnd s) = Str.trimEnd s.
Proof.
  destruct s as [|c r]; simpl; [reflexivity|].
  destruct (Str.isWhiteSpace c) eqn:Hc.
  - intros H. exfalso.
    assert (Hlen : forall u, (String.length (Str.trimStart u)
                              <= String.length u)%nat).
    { induction u as [|d u IHu]; simpl; [lia|].
      destruct (Str.isWhiteSpace d); simpl; lia. }
    pose proof (Hlen r) as Hr. rewrite H in Hr. simpl in Hr. lia.
  - intros _. simpl. rewrite Hc. reflexivity.
Qed.

Lemma trim_idempotent s : Str.trim (Str.trim s) = Str.trim s.
Proof.
  unfold Str.trim.
  rewrite (trimStart_trimEnd (Str.trimStart s) (trimStart_fixed s)).
  apply trimEnd_fixed.
Qed.

Lemma truthy_string s : s <> "" -> truthy (VStr s) = true.
Proof. destruct s; simpl; congruence. Qed.

Lemma item_value_fields i :
  get (Task.item_value i) "id" = Task.Item.id i
  /\ get (Task.item_value i) "text" = VStr (Task.Item.text i)
  /\ get (Task.item_value i) "completed" = VBool (Task.Item.completed i).
Proof. repeat split; reflexivity. Qed.

Lemma check_items_well_formed items : forall index (e : env),
  Forall item_well_formed items ->
  forEach (fun item i => lift_result (Task.check_item item i))
    (map Task.item_value items) index e = (Ok tt, e).
Proof.
  induction items as [|i items IH]; intros index e Hwf; simpl; [reflexivity|].
  inversion Hwf as [|? ? (Hid & Htrim & Htext) Hrest]; subst.
  unfold bind at 1, lift_result at 1, Task.check_item.
  destruct (item_value_fields i) as (_ & -> & ->).
  assert (Hv : truthy (Task.item_value i) = true) by reflexivity.
  assert (Ho : typeof (Task.item_value i) = TObject) by reflexivity.
  rewrite Hv, Ho, (truthy_string _ Htext). simpl.
  apply IH. exact Hrest.
Qed.

Lemma make_items_well_formed pf items : forall e,
  Forall item_well_formed items ->
  mapM (Task.make_item pf) (map Task.item_value items) e = (Ok items, e).
Proof.
  induction items as [|i items IH]; intros e Hwf; simpl; [reflexivity|].
  inversion Hwf as [|? ? (Hid & Htrim & Htext) Hrest]; subst.
  unfold bind at 1. unfold Task.make_item at 1. unfold bind at 1.
  destruct (item_value_fields i) as (-> & -> & ->).
  rewrite Hid. unfold ret at 1. cbn beta iota.
  unfold ret at 1. unfold bind at 1. rewrite (IH e Hrest).
  simpl. rewrite Htrim. destruct i; reflexivity.
Qed.

Lemma includes_priority_In s :
  In s Task.validPriorities -> Task.includes_priority (VStr s) = true.
Proof.
  intros H. unfold Task.includes_priority. apply existsb_exists.
  exists s. split; [exact H|]. simpl. apply Str_eqb_eq. reflexivity.
Qed.

(** [default_to] and [|| ''] leave alone a field that is truthy or '' *)
Lemma text_field_fixed v :
  or_else v (VStr "") = v ->
  or_else (default_to v (VStr "")) (VStr "") = v.
Proof.
  intros H. destruct v; exact H.
Qed.

Lemma default_truthy v d : truthy v = true -> default_to v d = v.
Proof. destruct v; simpl; congruence. Qed.

(** On a well-formed task, [Task.fromJSON(task.toJSON())] is the task, and
    it uses no identifier and no clock reading. *)
Lemma fromJSON_toJSON_well_formed pf task :
  iso_round_trip pf ->
  well_formed task ->
  exists json,
    Task.toJSON pf task = Ok json
    /\ forall e, Task.fromJSON pf json e = (Ok task, e).
Proof.
  intros Hiso (Hid & Htitle & Htitle' & Hdesc & Hdue & Hprio & Hnotes & Hitems
               & Hproj & Hcreated & Hupdated).
  destruct task as [id title description dueDate priority notes checklist
                      completed projectId createdAt updatedAt].
  simpl in *.
  destruct createdAt as [tc|]; [|contradiction].
  destruct updatedAt as [tu|]; [|contradiction].
  destruct (Hiso tc) as [Hpc Hnc]. destruct (Hiso tu) as [Hpu Hnu].
  assert (Hbody : forall due dueDate',
    (due = VNull /\ dueDate' = None
     \/ exists td, due = VStr (toISOString pf td)
                   /\ dueDate' = Some (ValidDate td)) ->
    forall e,
      Task.fromJSON pf
        (VObj [("id", id); ("title", VStr title); ("description", description);
               ("dueDate", due); ("priority", VStr priority); ("notes", notes);
               ("checklist", VArr (map Task.item_value checklist));
               ("completed", VBool completed); ("projectId", projectId);
               ("createdAt", VStr (toISOString pf tc));
               ("updatedAt", VStr (toISOString pf tu))]) e
      = (Ok (Task.Make id title description dueDate' priority notes checklist
               completed projectId (ValidDate tc) (ValidDate tu)), e)).
  { intros due dueDate' Hd e.
    unfold Task.fromJSON, Task.constructor. cbv zeta.
    cbn [get lookup_field Str.eqb String.eqb Ascii.eqb Bool.eqb andb].
    rewrite (default_truthy id VNull Hid).
    rewrite (default_truthy projectId (VStr "default") Hproj).
    assert (Hor : or_else (VArr (map Task.item_value checklist)) (VArr [])
                  = VArr (map Task.item_value checklist)) by reflexivity.
    rewrite Hor.
    cbn [default_to typeof string_of jstype_eqb negb].
    rewrite (truthy_string title Htitle'). rewrite Htitle.
    assert (He : Str.isEmpty title = false)
      by (destruct title; [congruence | reflexivity]).
    rewrite He. cbn [negb orb].
    rewrite (includes_priority_In priority Hprio). cbn [negb].
    assert (Hdue' : negb (isNull (default_to due VNull))
                    && negb (isDate (default_to due VNull))
                    && negb (jstype_eqb (typeof (default_to due VNull)) TString)
                    = false).
    { destruct Hd as [[-> _] | (td & -> & _)]; reflexivity. }
    rewrite Hdue'.
    unfold bind at 1. rewrite (check_items_well_formed checklist O e Hitems).
    rewrite Hid. unfold bind at 1. unfold ret at 1.
    unfold bind at 1. rewrite (make_items_well_formed pf checklist e Hitems).
    rewrite (truthy_string _ Hnc), (truthy_string _ Hnu).
    unfold bind, ret. cbn [new_Date]. rewrite Hpc, Hpu.
    rewrite (text_field_fixed description Hdesc).
    rewrite (text_field_fixed notes Hnotes).
    unfold or_else at 1. rewrite Hproj.
    destruct Hd as [[-> ->] | (td & -> & ->)].
    - reflexivity.
    - cbn [default_to]. destruct (Hiso td) as [Hpd Hnd].
      rewrite (truthy_string _ Hnd). cbn [new_Date]. rewrite Hpd. reflexivity. }
  unfold Task.toJSON. simpl.
  destruct dueDate as [[td|]|]; simpl; try contradiction.
  - eexists. split; [reflexivity|]. apply Hbody. right. eauto.
  - eexists. split; [reflexivity|]. apply Hbody. left. split; reflexivity.
Qed.

(** The constructor accepts a due date that does not parse, and [toJSON]
    throws on the task it builds. *)
Lemma toJSON_unparsable_dueDate_throws pf e :
  Date_parse pf "invalid-date" = InvalidDate ->
  exists task e',
    Task.constructor pf
      (VObj [("title", VStr "Test"); ("dueDate", VStr "invalid-date")]) e
    = (Ok task, e')
    /\ Task.toJSON pf task = Throw (RangeError "Invalid time value").
Proof.
  intros H. eexists _, _. split.
  - lazy -[Date_parse]. reflexivity.
  - unfold Task.toJSON. simpl. rewrite H. reflexivity.
Qed.

Lemma make_item_shape pf item e it e' :
  (forall n, uuidv4 pf n <> "") ->
  Task.make_item pf item e = (Ok it, e') ->
  truthy (Task.Item.id it) = true
  /\ Str.trim (Task.Item.text it) = Task.Item.text it.
Proof.
  intros Huuid H. unfold Task.make_item, bind, ret, fresh_uuid in H.
  destruct (truthy (get item "id")) eqn:Hid; injection H as <- _; simpl.
  - split; [exact Hid | apply trim_idempotent].
  - split; [apply truthy_string, Huuid | apply trim_idempotent].
Qed.

Lemma make_items_shape pf items : forall e l e',
  (forall n, uuidv4 pf n <> "") ->
  mapM (Task.make_item pf) items e = (Ok l, e') ->
  Forall (fun it => truthy (Task.Item.id it) = true
                    /\ Str.trim (Task.Item.text it) = Task.Item.text it) l.
Proof.
  induction items as [|item items IH]; intros e l e' Huuid H; simpl in H.
  - injection H as <- _. constructor.
  - unfold bind at 1 in H.
    destruct (Task.make_item pf item e) as [[it|err] e1] eqn:Hit;
      [|discriminate].
    unfold bind at 1 in H.
    destruct (mapM (Task.make_item pf) items e1) as [[l1|err] e2] eqn:Hl;
      [|discriminate].
    injection H as <- _. constructor.
    + eapply make_item_shape; eassumption.
    + eapply IH; eassumption.
Qed.

Lemma includes_priority_string priority :
  Task.includes_priority priority = true ->
  In (string_of priority) Task.validPriorities.
Proof.
  unfold Task.includes_priority. rewrite existsb_exists.
  intros (p & Hin & Heq). destruct priority; try discriminate.
  simpl in Heq. apply Str_eqb_eq in Heq. subst. exact Hin.
Qed.

(** What the constructor builds is well formed as soon as its dates are
    valid and no checklist text is empty. *)
Lemma constructor_well_formed pf arg e task e' :
  (forall n, uuidv4 pf n <> "") ->
  Task.constructor pf arg e = (Ok task, e') ->
  match Task.dueDate task with Some d => valid_date d | None => True end ->
  valid_date (Task.createdAt task) ->
  valid_date (Task.updatedAt task) ->
  Forall (fun it => Task.Item.text it <> "") (Task.checklist task) ->
  well_formed task.
Proof.
  intros Huuid H. unfold Task.constructor in H.
  assert (Hbody : forall id title description dueDate priority notes checklist
                         completed projectId createdAt updatedAt,
    (if negb (truthy title) || negb (jstype_eqb (typeof title) TString)
        || Str.isEmpty (Str.trim (string_of title))
     then throw Task.title_required
     else if negb (Task.includes_priority priority)
     then throw Task.priority_invalid
     else if negb (isNull dueDate) && negb (isDate dueDate)
             && negb (jstype_eqb (typeof dueDate) TString)
     then throw (Error "Due date must be a Date object, ISO string, or null")
     else
       match checklist with
       | VArr items =>
           forEach (fun item index =>
                      lift_result (Task.check_item item index)) items O ;;
           id' <- (if truthy id then ret id else fresh_uuid pf) ;;
           checklist' <- mapM (Task.make_item pf) items ;;
           createdAt' <- (if truthy createdAt then ret (new_Date pf createdAt)
                          else Date_current pf) ;;
           updatedAt' <- (if truthy updatedAt then ret (new_Date pf updatedAt)
                          else Date_current pf) ;;
           ret (Task.Make id' (Str.trim (string_of title))
                  (or_else description (VStr ""))
                  (if truthy dueDate then
                     Some (match dueDate with
                           | VDate d => d
                           | _ => new_Date pf dueDate
                           end)
                   else None)
                  (string_of priority)
                  (or_else notes (VStr ""))
                  checklist'
                  (truthy completed)
                  (or_else projectId (VStr "default"))
                  createdAt' updatedAt')
       | _ => throw (Error "Checklist must be an array")
       end) e = (Ok task, e') ->
    match Task.dueDate task with Some d => valid_date d | None => True end ->
    valid_date (Task.createdAt task) ->
    valid_date (Task.updatedAt task) ->
    Forall (fun it => Task.Item.text it <> "") (Task.checklist task) ->
    well_formed task).
  { clear H. intros id title description dueDate priority notes checklist
      completed projectId createdAt updatedAt H Hdue Hcreated Hupdated Htexts.
    destruct (_ || _ || _) eqn:Htitle; [discriminate|].
    destruct (negb (Task.includes_priority priority)) eqn:Hprio; [discriminate|].
    destruct (_ && _ && _); [discriminate|].
    destruct checklist as [| |b0|n0|s0|d0|items|fs|x0]; try discriminate.
    unfold bind at 1 in H.
    destruct (forEach _ items O e) as [[[]|err] e0]; [|discriminate].
    unfold bind at 1 in H.
    destruct ((if truthy id then ret id else fresh_uuid pf) e0)
      as [[id'|err] e1] eqn:Hid; [|discriminate].
    unfold bind at 1 in H.
    destruct (mapM (Task.make_item pf) items e1) as [[l|err] e2] eqn:Hl;
      [|discriminate].
    unfold bind at 1 in H.
    match type of H with
    | context [(if truthy createdAt then ?a else ?b) e2] =>
        destruct ((if truthy createdAt then a else b) e2) as [[c|err] e3];
          [|discriminate]
    end.
    unfold bind at 1 in H.
    match type of H with
    | context [(if truthy updatedAt then ?a else ?b) e3] =>
        destruct ((if truthy updatedAt then a else b) e3) as [[u|err] e4];
          [|discriminate]
    end.
    injection H as <- _. unfold well_formed. simpl in *.
    apply orb_false_elim in Htitle as [Htitle Hempty].
    apply negb_false_iff in Hprio.
    repeat split.
    - destruct (truthy id) eqn:Hi.
      + injection Hid as <- _. exact Hi.
      + injection Hid as <- _. apply truthy_string, Huuid.
    - apply trim_idempotent.
    - intros Hn. rewrite Hn in Hempty. discriminate.
    - unfold or_else. destruct (truthy description) eqn:Hd'; [rewrite Hd'|];
        reflexivity.
    - exact Hdue.
    - apply includes_priority_string. exact Hprio.
    - unfold or_else. destruct (truthy notes) eqn:Hn'; [rewrite Hn'|];
        reflexivity.
    - pose proof (make_items_shape pf items e1 l e2 Huuid Hl) as Hshape.
      rewrite List.Forall_forall in *. intros it Hin.
      destruct (Hshape it Hin) as [Hi Ht].
      repeat split; auto.
    - unfold or_else. destruct (truthy projectId) eqn:Hp; [exact Hp|].
      reflexivity.
    - exact Hcreated.
    - exact Hupdated. }
  destruct arg; try discriminate; eapply Hbody; exact H.
Qed.

(** Every task the constructor builds with valid dates and without an empty
    checklist text survives the round trip unchanged. *)
Lemma fromJSON_toJSON_constructed pf arg e task e' :
  iso_round_trip pf ->
  (forall n, uuidv4 pf n <> "") ->
  Task.constructor pf arg e = (Ok task, e') ->
  match Task.dueDate task with Some d => valid_date d | None => True end ->
  valid_date (Task.createdAt task) ->
  valid_date (Task.updatedAt task) ->
  Forall (fun it => Task.Item.text it <> "") (Task.checklist task) ->
  exists json,
    Task.toJSON pf task = Ok json
    /\ forall e2, Task.fromJSON pf json e2 = (Ok task, e2).
Proof.
  intros Hiso Huuid H Hdue Hc Hu Ht.
  apply fromJSON_toJSON_well_formed; [exact Hiso|].
  eapply constructor_well_formed; eassumption.
Qed.

(** * Further properties of the models and the services *)

(** ** [Task]: the checklist operations *)

Lemma Task_findIndex_Some itemId l i :
  Task.findIndex itemId l = Some i ->
  exists it, l !! i = Some it
             /\ strict_eq (Task.Item.id it) itemId = true
             /\ forall j it', (j < i)%nat -> l !! j = Some it' ->
                              strict_eq (Task.Item.id it') itemId = false.
Proof.
  revert i. induction l as [|x l IH]; intros i H; simpl in H; [discriminate|].
  destruct (strict_eq (Task.Item.id x) itemId) eqn:Hx.
  - injection H as <-. exists x. repeat split; [exact Hx|]. intros j it' Hj. lia.
  - destruct (Task.findIndex itemId l) as [k|]; [|discriminate].
    injection H as <-. destruct (IH k eq_refl) as (it & Hit & Hid & Hfirst).
    exists it. repeat split; [exact Hit | exact Hid |].
    intros [|j] it' Hj Hl; simpl in Hl.
    + injection Hl as <-. exact Hx.
    + apply (Hfirst j it'); [lia | exact Hl].
Qed.

Lemma Task_findIndex_None itemId l :
  Task.findIndex itemId l = None <->
  Forall (fun it => strict_eq (Task.Item.id it) itemId = false) l.
Proof.
  induction l as [|x l IH]; simpl.
  - split; [constructor | reflexivity].
  - destruct (strict_eq (Task.Item.id x) itemId) eqn:Hx.
    + split; [discriminate|]. intros H. inversion H; congruence.
    + destruct (Task.findIndex itemId l) as [k|]; simpl; split.
      * discriminate.
      * intros H. inversion H as [|? ? _ Hl]; subst. apply IH in Hl. discriminate.
      * intros _. constructor; [exact Hx | apply IH; reflexivity].
      * reflexivity.
Qed.

(** X1. [addChecklistItem] throws 'Checklist item text is required' for a
    text that is not a string or is empty once trimmed, and leaves the task
    as it was.  Otherwise it appends one item, not completed, with the
    trimmed text and the next identifier, and it writes no other field than
    [updatedAt], which takes the clock reading. *)
Theorem addChecklistItem_appends_or_rejects pf text this e :
  match text with
  | VStr s =>
      if Str.isEmpty (Str.trim s) then
        Task.addChecklistItem pf text (this, e)
        = (Throw Task.text_required, (this, e))
      else
        exists this',
          Task.addChecklistItem pf text (this, e)
          = (Ok tt, (this', Env (S (uuid_calls e)) (S (clock_calls e))))
          /\ Task.checklist this'
             = Task.checklist this
               ++ [Task.Item.Make (VStr (uuidv4 pf (uuid_calls e)))
                     (Str.trim s) false]
          /\ same_but_checklist this' this
          /\ Task.updatedAt this' = ValidDate (Date_now pf (clock_calls e))
  | _ =>
      Task.addChecklistItem pf text (this, e)
      = (Throw Task.text_required, (this, e))
  end.
Proof.
  unfold Task.addChecklistItem.
  destruct text as [| |b|n|s|d|xs|fs|x]; simpl; rewrite ?orb_true_r;
    try reflexivity.
  destruct (Str.isEmpty (Str.trim s)) eqn:Htrim.
  - rewrite orb_true_r. reflexivity.
  - assert (Hs : Str.isEmpty s = false) by (destruct s; [discriminate|reflexivity]).
    rewrite Hs. simpl.
    eexists. split; [reflexivity|]. simpl.
    split; [reflexivity|]. split; [repeat split | reflexivity].
Qed.

(** X2. [removeChecklistItem] throws 'Checklist item not found', leaving the
    task as it was, exactly when no item has the id.  Otherwise it removes
    the first item with that id and nothing else: the checklist is one item
    shorter, the items before and after keep their order, and the other
    fields but [updatedAt] are not written. *)
Theorem removeChecklistItem_removes_first_match pf itemId this e :
  (Forall (fun it => strict_eq (Task.Item.id it) itemId = false)
     (Task.checklist this) ->
   Task.removeChecklistItem pf itemId (this, e)
   = (Throw Task.item_not_found, (this, e)))
  /\ (Exists (fun it => strict_eq (Task.Item.id it) itemId = true)
        (Task.checklist this) ->
      exists this' e' i it,
        Task.removeChecklistItem pf itemId (this, e) = (Ok tt, (this', e'))
        /\ Task.checklist this !! i = Some it
        /\ strict_eq (Task.Item.id it) itemId = true
        /\ Task.checklist this
           = take i (Task.checklist this) ++ it :: drop (S i) (Task.checklist this)
        /\ Task.checklist this'
           = take i (Task.checklist this) ++ drop (S i) (Task.checklist this)
        /\ Forall (fun it' => strict_eq (Task.Item.id it') itemId = false)
             (take i (Task.checklist this))
        /\ S (length (Task.checklist this')) = length (Task.checklist this)
        /\ same_but_checklist this' this).
Proof.
  assert (Hrun : Task.removeChecklistItem pf itemId (this, e)
                 = match Task.findIndex itemId (Task.checklist this) with
                   | Some index =>
                       (Task.set_checklist
                          (delete index (Task.checklist this)) ;;
                        Task.touch pf) (this, e)
                   | None => (Throw Task.item_not_found, (this, e))
                   end).
  { unfold Task.removeChecklistItem, bind at 1, gets. cbn [fst].
    destruct (Task.findIndex _ _); reflexivity. }
  rewrite Hrun. clear Hrun.
  split.
  - intros H. apply Task_findIndex_None in H. rewrite H. reflexivity.
  - intros H.
    destruct (Task.findIndex itemId (Task.checklist this)) as [i|] eqn:Hi.
    2:{ apply Task_findIndex_None in Hi. exfalso.
        apply Exists_exists in H as (it & Hin & Hit).
        rewrite Forall_forall in Hi. specialize (Hi it Hin). congruence. }
    destruct (Task_findIndex_Some _ _ _ Hi) as (it & Hit & Hid & Hfirst).
    eexists _, _, i, it. split; [reflexivity|]. simpl.
    split; [exact Hit|]. split; [exact Hid|].
    split; [symmetry; apply take_drop_middle; exact Hit|].
    split; [apply delete_take_drop|].
    split.
    { apply Forall_forall. intros it' Hin.
      apply list_elem_of_lookup in Hin as [j Hj].
      pose proof (lookup_lt_Some _ _ _ Hj) as Hlt. rewrite length_take in Hlt.
      rewrite lookup_take in Hj by lia.
      destruct (decide (j < i)%nat); [|lia].
      eapply Hfirst; eassumption. }
    split.
    { rewrite length_delete by (eexists; exact Hit).
      pose proof (lookup_lt_Some _ _ _ Hit). lia. }
    repeat split.
Qed.

Lemma removeChecklistItem_removes_first_match_witness :
  exists this' e',
    Task.removeChecklistItem Examples.roomy_store (VStr "1")
      (Examples.task_with (Examples.ticked 1 3) "default", Examples.fresh_env)
    = (Ok tt, (this', e'))
    /\ length (Task.checklist this') = 2%nat.
Proof.
  destruct (proj2 (removeChecklistItem_removes_first_match Examples.roomy_store
                     (VStr "1")
                     (Examples.task_with (Examples.ticked 1 3) "default")
                     Examples.fresh_env))
    as (this' & e' & i & it & Hrun & _ & _ & _ & _ & _ & Hlen & _).
  - apply Exists_cons_tl, Exists_cons_hd. reflexivity.
  - exists this', e'. split; [exact Hrun|]. simpl in Hlen. lia.
Defined.

Lemma alter_ids (f : Task.Item.t -> Task.Item.t) i (l : list Task.Item.t) :
  (forall it, Task.Item.id (f it) = Task.Item.id it) ->
  map Task.Item.id (alter f i l) = map Task.Item.id l.
Proof.
  intros Hf. revert i. induction l as [|x l IH]; intros [|i]; simpl;
    try reflexivity.
  - rewrite Hf. reflexivity.
  - f_equal. apply IH.
Qed.

(** X3. [updateChecklistItem] never changes the ids of the items, their
    number or their order, and writes no field of the task but [checklist]
    and [updatedAt]; when it throws (unknown id, or a text that is not a
    string or is blank) the task is exactly as before. *)
Theorem updateChecklistItem_keeps_ids pf itemId updates this e r this' e' :
  Task.updateChecklistItem pf itemId updates (this, e) = (r, (this', e')) ->
  map Task.Item.id (Task.checklist this') = map Task.Item.id (Task.checklist this)
  /\ same_but_checklist this' this
  /\ (forall err, r = Throw err -> this' = this /\ e' = e)
  /\ (Forall (fun it => strict_eq (Task.Item.id it) itemId = false)
        (Task.checklist this) -> r = Throw Task.item_not_found).
Proof.
  unfold Task.updateChecklistItem, bind at 1, gets at 1. cbn [fst].
  destruct (Task.findIndex itemId (Task.checklist this)) as [i|] eqn:Hi.
  2:{ intros H. injection H as <- <- <-.
      repeat split; intros; congruence. }
  assert (Hnone : ~ Forall (fun it => strict_eq (Task.Item.id it) itemId = false)
                      (Task.checklist this)).
  { intros H. apply Task_findIndex_None in H. congruence. }
  remember (get updates "text") as text eqn:Htext.
  remember (get updates "completed") as done eqn:Hdone.
  assert (Hbody :
    (((if negb (isUndefined text) then
         if negb (truthy text) || negb (jstype_eqb (typeof text) TString)
            || Str.isEmpty (Str.trim (string_of text))
         then throw Task.text_required
         else
           this0 <- gets fst ;;
           Task.set_checklist
             (alter (fun it => Task.Item.Make (Task.Item.id it)
                                 (Str.trim (string_of text))
                                 (Task.Item.completed it)) i
                (Task.checklist this0))
       else ret tt) ;;
      (if negb (isUndefined done) then
         this0 <- gets fst ;;
         Task.set_checklist
           (alter (fun it => Task.Item.Make (Task.Item.id it) (Task.Item.text it)
                               (truthy done)) i (Task.checklist this0))
       else ret tt) ;;
      Task.touch pf) (this, e)) = (r, (this', e')) ->
    map Task.Item.id (Task.checklist this')
    = map Task.Item.id (Task.checklist this)
    /\ same_but_checklist this' this
    /\ (forall err, r = Throw err -> this' = this /\ e' = e)).
  { clear. intros H. unfold bind at 1 in H.
    destruct (negb (isUndefined text)).
    - destruct (_ || _ || _).
      + injection H as <- <- <-. repeat split; intros; congruence.
      + cbn in H. destruct (negb (isUndefined done)); cbn in H;
          injection H as <- <- <-; cbn;
          (split; [rewrite ?alter_ids by reflexivity; reflexivity|]);
          (split; [repeat split | intros; discriminate]).
    - cbn in H. destruct (negb (isUndefined done)); cbn in H;
        injection H as <- <- <-; cbn;
        (split; [rewrite ?alter_ids by reflexivity; reflexivity|]);
        (split; [repeat split | intros; discriminate]). }
  destruct updates; intros H;
    try (injection H as <- <- <-; repeat split; intros; try congruence;
         contradiction);
    (destruct (Hbody H) as (H1 & H2 & H3);
     split; [exact H1|]; split; [exact H2|]; split; [exact H3|];
     intros Hall; contradiction).
Qed.

Lemma updateChecklistItem_keeps_ids_witness :
  exists this' e',
    Task.updateChecklistItem Examples.roomy_store (VStr "1")
      (VObj [("text", VStr "   ")])
      (Examples.task_with (Examples.ticked 1 3) "default", Examples.fresh_env)
    = (Throw Task.text_required, (this', e'))
    /\ this' = Examples.task_with (Examples.ticked 1 3) "default".
Proof.
  eexists _, _. split; [reflexivity|].
  eapply (updateChecklistItem_keeps_ids Examples.roomy_store (VStr "1")
            (VObj [("text", VStr "   ")])
            (Examples.task_with (Examples.ticked 1 3) "default")
            Examples.fresh_env _ _ _ eq_refl).
  reflexivity.
Defined.

(** X4. The checklist operations keep the items well formed (a truthy id,
    a trimmed text that is not empty): what [addChecklistItem],
    [updateChecklistItem] and [removeChecklistItem] leave, whether they
    return or throw, is well formed if the checklist was. *)
Theorem checklist_operations_keep_items_well_formed pf this e :
  (forall n, uuidv4 pf n <> "") ->
  Forall item_well_formed (Task.checklist this) ->
  (forall text r this' e',
      Task.addChecklistItem pf text (this, e) = (r, (this', e')) ->
      Forall item_well_formed (Task.checklist this'))
  /\ (forall itemId updates r this' e',
      Task.updateChecklistItem pf itemId updates (this, e) = (r, (this', e')) ->
      Forall item_well_formed (Task.checklist this'))
  /\ (forall itemId r this' e',
      Task.removeChecklistItem pf itemId (this, e) = (r, (this', e')) ->
      Forall item_well_formed (Task.checklist this')).
Proof.
  intros Huuid Hwf. split; [|split].
  - intros text r this' e' H. unfold Task.addChecklistItem in H.
    destruct (negb (truthy text) || negb (jstype_eqb (typeof text) TString))
      eqn:Hg; cbn [orb] in H; [injection H as _ <- _; exact Hwf|].
    destruct (Str.isEmpty (Str.trim (string_of text))) eqn:Ht;
      [injection H as _ <- _; exact Hwf|].
    cbn in H. injection H as _ <- _. cbn.
    apply Forall_app. split; [exact Hwf|].
    constructor; [|constructor]. repeat split; simpl.
    + apply truthy_string, Huuid.
    + apply trim_idempotent.
    + intros Hn. rewrite Hn in Ht. discriminate.
  - intros itemId updates r this' e' H.
    unfold Task.updateChecklistItem, bind at 1, gets at 1 in H. cbn [fst] in H.
    destruct (Task.findIndex itemId (Task.checklist this)) as [i|];
      [|injection H as _ <- _; exact Hwf].
    remember (get updates "text") as text eqn:Htext.
    remember (get updates "completed") as done eqn:Hdone.
    clear Htext Hdone.
    assert (Halter : forall f l,
               (forall it, item_well_formed it -> item_well_formed (f it)) ->
               Forall item_well_formed l ->
               Forall item_well_formed (alter f i l)).
    { clear. intros f l Hf Hl. rewrite Forall_forall in *. intros it Hin.
      apply list_elem_of_lookup in Hin as [j Hj].
      rewrite list_lookup_alter in Hj.
      case_decide as Hij.
      - subst j.
        destruct (l !! i) as [it0|] eqn:Hl0; simpl in Hj; [|discriminate].
        injection Hj as <-. apply Hf, Hl.
        apply list_elem_of_lookup. eauto.
      - apply Hl. apply list_elem_of_lookup. eauto. }
    assert (Hdone' : forall l,
               Forall item_well_formed l ->
               Forall item_well_formed
                 (alter (fun it => Task.Item.Make (Task.Item.id it)
                                     (Task.Item.text it) (truthy done)) i l)).
    { intros l Hl. apply Halter; [|exact Hl]. intros it Hit. exact Hit. }
    assert (Htext' : forall l,
               Str.isEmpty (Str.trim (string_of text)) = false ->
               Forall item_well_formed l ->
               Forall item_well_formed
                 (alter (fun it => Task.Item.Make (Task.Item.id it)
                                     (Str.trim (string_of text))
                                     (Task.Item.completed it)) i l)).
    { intros l He Hl. apply Halter; [|exact Hl].
      intros it (Hid & _ & _). repeat split; simpl.
      - exact Hid.
      - apply trim_idempotent.
      - intros Hn. rewrite Hn in He. discriminate. }
    destruct updates; try (injection H as _ <- _; exact Hwf);
      unfold bind at 1 in H;
      (destruct (negb (isUndefined text));
       [ destruct (negb (truthy text) || negb (jstype_eqb (typeof text) TString))
           eqn:Hg; cbn [orb] in H;
         [ injection H as _ <- _; exact Hwf
         | destruct (Str.isEmpty (Str.trim (string_of text))) eqn:He;
           [ injection H as _ <- _; exact Hwf
           | cbn in H; destruct (negb (isUndefined done)); cbn in H;
             injection H as _ <- _; cbn; auto ] ]
       | cbn in H; destruct (negb (isUndefined done)); cbn in H;
         injection H as _ <- _; cbn; auto ]).
  - intros itemId r this' e' H.
    unfold Task.removeChecklistItem, bind at 1, gets at 1 in H. cbn [fst] in H.
    destruct (Task.findIndex itemId (Task.checklist this)) as [i|];
      [|injection H as _ <- _; exact Hwf].
    cbn in H. injection H as _ <- _. cbn.
    apply Forall_delete. exact Hwf.
Qed.

Lemma checklist_operations_keep_items_well_formed_witness :
  Forall item_well_formed
    (Task.checklist
       (fst (snd (Task.addChecklistItem Examples.roomy_store (VStr " pack ")
                    (Examples.task_with (Examples.ticked 1 3) "default",
                     Examples.fresh_env))))).
Proof.
  destruct (Task.addChecklistItem Examples.roomy_store (VStr " pack ")
              (Examples.task_with (Examples.ticked 1 3) "default",
               Examples.fresh_env)) as [r [this' e']] eqn:Hrun.
  exact (proj1 (checklist_operations_keep_items_well_formed
                  Examples.roomy_store
                  (Examples.task_with (Examples.ticked 1 3) "default")
                  Examples.fresh_env
                  ltac:(intros n; discriminate)
                  ltac:(repeat constructor; discriminate))
           (VStr " pack ") r this' e' Hrun).
Defined.

(** ** [Task.isOverdue] *)

(** X5. [isOverdue] never throws; it answers [true] exactly when the task is
    not completed and has a valid due date strictly before the clock
    reading.  It reads the clock only for a task that is not completed and
    has a due date. *)
Theorem isOverdue_iff pf this e :
  exists b e',
    Task.isOverdue pf this e = (Ok b, e')
    /\ (b = true <->
        Task.completed this = false
        /\ exists due, Task.dueDate this = Some (ValidDate due)
                       /\ due < Date_now pf (clock_calls e))
    /\ (Task.completed this = true \/ Task.dueDate this = None -> e' = e).
Proof.
  unfold Task.isOverdue.
  destruct (Task.dueDate this) as [due|] eqn:Hdue.
  - destruct (Task.completed this) eqn:Hc.
    + exists false, e. split; [reflexivity|]. split.
      * split; [discriminate | intros [H _]; discriminate].
      * reflexivity.
    + eexists _, _. split; [reflexivity|]. cbn. split.
      * destruct due as [d|]; simpl.
        -- rewrite Z.ltb_lt. split.
           ++ intros H. split; [reflexivity|]. exists d. split; [reflexivity|lia].
           ++ intros (_ & d' & Hd' & Hlt). injection Hd' as <-. lia.
        -- split; [discriminate|]. intros (_ & d' & Hd' & _). discriminate.
      * intros [H|H]; discriminate.
  - exists false, e. split; [reflexivity|]. split.
    + split; [discriminate|]. intros (_ & d & Hd & _). discriminate.
    + reflexivity.
Qed.

Lemma isOverdue_iff_witness :
  exists b e',
    Task.isOverdue Examples.roomy_store (Examples.task_with [] "default")
      Examples.fresh_env = (Ok b, e')
    /\ e' = Examples.fresh_env.
Proof.
  destruct (isOverdue_iff Examples.roomy_store
              (Examples.task_with [] "default") Examples.fresh_env)
    as (b & e' & Hrun & _ & Hclock).
  exists b, e'. split; [exact Hrun|]. apply Hclock. right. reflexivity.
Defined.


(** ** [Task]: the constructor and [update] *)

(** X6. Whatever the constructor accepts, the task it builds has a truthy
    id, a trimmed title that is not empty, one of the three priorities, a
    truthy project id, a description and notes that are truthy or '', and
    checklist items with truthy ids and trimmed texts, one for each item of
    the input. *)
Theorem Task_constructor_establishes_shape pf arg e task e' :
  (forall n, uuidv4 pf n <> "") ->
  Task.constructor pf arg e = (Ok task, e') ->
  truthy (Task.id task) = true
  /\ Str.trim (Task.title task) = Task.title task
  /\ Task.title task <> ""
  /\ or_else (Task.description task) (VStr "") = Task.description task
  /\ In (Task.priority task) Task.validPriorities
  /\ or_else (Task.notes task) (VStr "") = Task.notes task
  /\ Forall (fun it => truthy (Task.Item.id it) = true
                       /\ Str.trim (Task.Item.text it) = Task.Item.text it)
       (Task.checklist task)
  /\ truthy (Task.projectId task) = true
  /\ match default_to (get arg "checklist") (VArr []) with
     | VArr items => length (Task.checklist task) = length items
     | _ => False
     end.
Proof.
  intros Huuid H. unfold Task.constructor in H.
  assert (Hlen : forall items e0 l e1,
             mapM (Task.make_item pf) items e0 = (Ok l, e1) ->
             length l = length items).
  { clear. induction items as [|x items IH]; intros e0 l e1 H; simpl in H.
    - injection H as <- _. reflexivity.
    - unfold bind at 1 in H.
      destruct (Task.make_item pf x e0) as [[it|err] e2]; [|discriminate].
      unfold bind at 1 in H.
      destruct (mapM (Task.make_item pf) items e2) as [[l1|err] e3] eqn:Hl;
        [|discriminate].
      injection H as <- _. simpl. f_equal. eapply IH. exact Hl. }
  assert (Hbody : forall id title description dueDate priority notes checklist
                         completed projectId createdAt updatedAt,
    (if negb (truthy title) || negb (jstype_eqb (typeof title) TString)
        || Str.isEmpty (Str.trim (string_of title))
     then throw Task.title_required
     else if negb (Task.includes_priority priority)
     then throw Task.priority_invalid
     else if negb (isNull dueDate) && negb (isDate dueDate)
             && negb (jstype_eqb (typeof dueDate) TString)
     then throw (Error "Due date must be a Date object, ISO string, or null")
     else
       match checklist with
       | VArr items =>
           forEach (fun item index =>
                      lift_result (Task.check_item item index)) items O ;;
           id' <- (if truthy id then ret id else fresh_uuid pf) ;;
           checklist' <- mapM (Task.make_item pf) items ;;
           createdAt' <- (if truthy createdAt then ret (new_Date pf createdAt)
                          else Date_current pf) ;;
           updatedAt' <- (if truthy updatedAt then ret (new_Date pf updatedAt)
                          else Date_current pf) ;;
           ret (Task.Make id' (Str.trim (string_of title))
                  (or_else description (VStr ""))
                  (if truthy dueDate then
                     Some (match dueDate with
                           | VDate d => d
                           | _ => new_Date pf dueDate
                           end)
                   else None)
                  (string_of priority)
                  (or_else notes (VStr ""))
                  checklist'
                  (truthy completed)
                  (or_else projectId (VStr "default"))
                  createdAt' updatedAt')
       | _ => throw (Error "Checklist must be an array")
       end) e = (Ok task, e') ->
    truthy (Task.id task) = true
    /\ Str.trim (Task.title task) = Task.title task
    /\ Task.title task <> ""
    /\ or_else (Task.description task) (VStr "") = Task.description task
    /\ In (Task.priority task) Task.validPriorities
    /\ or_else (Task.notes task) (VStr "") = Task.notes task
    /\ Forall (fun it => truthy (Task.Item.id it) = true
                         /\ Str.trim (Task.Item.text it) = Task.Item.text it)
         (Task.checklist task)
    /\ truthy (Task.projectId task) = true
    /\ match checklist with
       | VArr items => length (Task.checklist task) = length items
       | _ => False
       end).
  { clear H. intros id title description dueDate priority notes checklist
      completed projectId createdAt updatedAt H.
    destruct (_ || _ || _) eqn:Htitle; [discriminate|].
    destruct (negb (Task.includes_priority priority)) eqn:Hprio; [discriminate|].
    destruct (_ && _ && _); [discriminate|].
    destruct checklist as [| |b0|n0|s0|d0|items|fs|x0]; try discriminate.
    unfold bind at 1 in H.
    destruct (forEach _ items O e) as [[[]|err] e0]; [|discriminate].
    unfold bind at 1 in H.
    destruct ((if truthy id then ret id else fresh_uuid pf) e0)
      as [[id'|err] e1] eqn:Hid; [|discriminate].
    unfold bind at 1 in H.
    destruct (mapM (Task.make_item pf) items e1) as [[l|err] e2] eqn:Hl;
      [|discriminate].
    unfold bind at 1 in H.
    match type of H with
    | context [(if truthy createdAt then ?a else ?b) e2] =>
        destruct ((if truthy createdAt then a else b) e2) as [[c|err] e3];
          [|discriminate]
    end.
    unfold bind at 1 in H.
    match type of H with
    | context [(if truthy updatedAt then ?a else ?b) e3] =>
        destruct ((if truthy updatedAt then a else b) e3) as [[u|err] e4];
          [|discriminate]
    end.
    injection H as <- _.
    cbn [Task.id Task.title Task.description Task.priority Task.notes
         Task.checklist Task.projectId].
    apply orb_false_elim in Htitle as [Htitle Hempty].
    apply negb_false_iff in Hprio.
    repeat split.
    - destruct (truthy id) eqn:Hi.
      + injection Hid as <- _. exact Hi.
      + injection Hid as <- _. apply truthy_string, Huuid.
    - apply trim_idempotent.
    - intros Hn. rewrite Hn in Hempty. discriminate.
    - unfold or_else. destruct (truthy description) eqn:Hd'; [rewrite Hd'|];
        reflexivity.
    - apply includes_priority_string. exact Hprio.
    - unfold or_else. destruct (truthy notes) eqn:Hn'; [rewrite Hn'|];
        reflexivity.
    - exact (make_items_shape pf items e1 l e2 Huuid Hl).
    - unfold or_else. destruct (truthy projectId) eqn:Hp;
        [exact Hp | reflexivity].
    - exact (Hlen items e1 l e2 Hl). }
  destruct arg; try discriminate; cbv zeta in H; exact (Hbody _ _ _ _ _ _ _ _ _ _ _ H).
Qed.

Lemma Task_constructor_establishes_shape_witness :
  exists task e',
    Task.constructor Examples.roomy_store Examples.blank_item_input
      Examples.fresh_env = (Ok task, e')
    /\ Task.title task <> ""
    /\ In (Task.priority task) Task.validPriorities.
Proof.
  destruct (Task.constructor Examples.roomy_store Examples.blank_item_input
              Examples.fresh_env) as [[task|err] e'] eqn:Hrun;
    [|vm_compute in Hrun; discriminate].
  exists task, e'. split; [reflexivity|].
  pose proof (Task_constructor_establishes_shape Examples.roomy_store
                Examples.blank_item_input Examples.fresh_env task e'
                ltac:(intros n; discriminate) Hrun)
    as (_ & _ & Ht & _ & Hp & _).
  split; [exact Ht | exact Hp].
Defined.

(** What the constructor makes of the fields of a shaped task, as [update]
    hands them over *)
Lemma constructor_rebuilds pf this projectId' updatedAt' e :
  shaped this ->
  truthy projectId' = true ->
  Task.constructor pf
    (VObj [("id", Task.id this); ("title", VStr (Task.title this));
           ("description", Task.description this);
           ("dueDate", Task.dueDate_value (Task.dueDate this));
           ("priority", VStr (Task.priority this));
           ("notes", Task.notes this);
           ("checklist", VArr (map Task.item_value (Task.checklist this)));
           ("completed", VBool (Task.completed this));
           ("projectId", projectId');
           ("createdAt", VDate (Task.createdAt this));
           ("updatedAt", VDate updatedAt')]) e
  = (Ok (Task.Make (Task.id this) (Task.title this) (Task.description this)
           (Task.dueDate this) (Task.priority this) (Task.notes this)
           (Task.checklist this) (Task.completed this) projectId'
           (Task.createdAt this) updatedAt'), e).
Proof.
  intros (Hid & Htitle & Htitle' & Hdesc & Hprio & Hnotes & Hitems & _) Hproj.
  destruct this as [id title description dueDate priority notes checklist
                      completed projectId createdAt updatedAt].
  simpl in *.
  unfold Task.constructor. cbv zeta.
  cbn [get lookup_field Str.eqb String.eqb Ascii.eqb Bool.eqb andb].
  rewrite (default_truthy id VNull Hid).
  rewrite (default_truthy projectId' (VStr "default") Hproj).
  cbn [default_to typeof string_of jstype_eqb negb].
  rewrite Htitle.
  assert (He : Str.isEmpty title = false)
    by (destruct title; [congruence | reflexivity]).
  rewrite He. cbn [negb orb].
  rewrite (includes_priority_In priority Hprio). cbn [negb].
  assert (Hdue : forall d, default_to (Task.dueDate_value d) VNull
                           = Task.dueDate_value d)
    by (intros [d|]; reflexivity).
  rewrite Hdue.
  assert (Hdue' : negb (isNull (Task.dueDate_value dueDate))
                  && negb (isDate (Task.dueDate_value dueDate))
                  && negb (jstype_eqb (typeof (Task.dueDate_value dueDate))
                             TString) = false)
    by (destruct dueDate; reflexivity).
  rewrite Hdue'.
  unfold bind at 1. rewrite (check_items_well_formed checklist O e Hitems).
  rewrite Hid. unfold bind at 1. unfold ret at 1.
  unfold bind at 1. rewrite (make_items_well_formed pf checklist e Hitems).
  cbn [truthy]. unfold bind, ret. cbn [new_Date].
  rewrite (text_field_fixed description Hdesc).
  rewrite (text_field_fixed notes Hnotes).
  unfold or_else at 1. rewrite Hproj.
  destruct dueDate as [d|], completed; reflexivity.
Qed.

(** On a shaped task, [update({ projectId })] with a truthy project id
    returns, writes that project id and the clock reading as [updatedAt],
    and leaves every other field, the checklist included, as it was; it
    takes no identifier. *)
Lemma Task_update_projectId pf this projectId e :
  shaped this ->
  truthy projectId = true ->
  Task.update pf (VObj [("projectId", projectId)]) (this, e)
  = (Ok tt,
     (Task.Make (Task.id this) (Task.title this) (Task.description this)
        (Task.dueDate this) (Task.priority this) (Task.notes this)
        (Task.checklist this) (Task.completed this) projectId
        (Task.createdAt this)
        (ValidDate (Date_now pf (clock_calls e))),
      Env (uuid_calls e) (S (clock_calls e)))).
Proof.
  intros Hshape Hproj.
  unfold Task.update, bind at 1, gets at 1. cbn [fst].
  unfold bind at 1. unfold Task.in_env at 1, zoom at 1, Date_current.
  cbn [fst snd]. unfold bind at 1. unfold Task.in_env, zoom. cbn [fst snd].
  assert (Hprov : forall k cur, k <> "projectId" ->
             Task.provided (VObj [("projectId", projectId)]) k cur = cur).
  { intros k cur Hk. unfold Task.provided. cbn [get lookup_field].
    assert (Hf : Str.eqb "projectId" k = false).
    { apply Str_eqb_neq. congruence. }
    rewrite Hf. reflexivity. }
  rewrite !Hprov by discriminate.
  assert (Hp : Task.provided (VObj [("projectId", projectId)]) "projectId"
                 (Task.projectId this) = projectId).
  { unfold Task.provided. simpl. destruct projectId; try reflexivity.
    discriminate. }
  rewrite Hp.
  rewrite (constructor_rebuilds pf this projectId _ _ Hshape Hproj).
  reflexivity.
Qed.

Lemma check_items_blank items : forall index (e : env),
  Exists (fun it => Task.Item.text it = "") items ->
  exists err,
    forEach (fun item i => lift_result (Task.check_item item i))
      (map Task.item_value items) index e = (Throw err, e).
Proof.
  induction items as [|i items IH]; intros index e Hex; [inversion Hex|].
  simpl. unfold bind at 1, lift_result at 1, Task.check_item.
  destruct (item_value_fields i) as (_ & -> & ->).
  assert (Hv : truthy (Task.item_value i) = true) by reflexivity.
  assert (Ho : typeof (Task.item_value i) = TObject) by reflexivity.
  rewrite Hv, Ho. cbn [negb jstype_eqb orb].
  destruct (Task.Item.text i) as [|c s] eqn:Ht.
  - simpl. eauto.
  - simpl. apply IH. inversion Hex as [? ? H|? ? H]; subst; [congruence|exact H].
Qed.

(** X7. A task that holds a checklist item with the empty text cannot be
    updated: every [update] that does not replace the checklist throws, and
    the task stays as it was. *)
Theorem Task_update_blocked_by_empty_item pf updates this e :
  Exists (fun it => Task.Item.text it = "") (Task.checklist this) ->
  get updates "checklist" = VUndefined ->
  exists err s',
    Task.update pf updates (this, e) = (Throw err, s') /\ fst s' = this.
Proof.
  intros Hex Hget.
  destruct (Task.update pf updates (this, e)) as [[[]|err] s'] eqn:Hrun.
  2:{ exists err, s'. split; [reflexivity|].
      eapply Task_update_throw_unchanged. exact Hrun. }
  exfalso. revert Hrun.
  unfold Task.update, bind at 1, gets at 1. cbn [fst].
  assert (Hctor : forall id title description dueDate priority notes completed
                         projectId createdAt updatedAt e0,
    isOk (fst (Task.constructor pf
      (VObj [("id", id); ("title", title); ("description", description);
             ("dueDate", dueDate); ("priority", priority); ("notes", notes);
             ("checklist", VArr (map Task.item_value (Task.checklist this)));
             ("completed", completed); ("projectId", projectId);
             ("createdAt", createdAt); ("updatedAt", updatedAt)]) e0))
    = false).
  { intros. unfold Task.constructor. cbv zeta.
    cbn [get lookup_field Str.eqb String.eqb Ascii.eqb Bool.eqb andb].
    destruct (_ || _ || _); [reflexivity|].
    destruct (negb (Task.includes_priority _)); [reflexivity|].
    destruct (_ && _ && _); [reflexivity|].
    cbn [default_to]. unfold bind at 1.
    destruct (check_items_blank (Task.checklist this) O e0 Hex) as [err ->].
    reflexivity. }
  assert (Hprov : Task.provided updates "checklist"
                    (VArr (map Task.item_value (Task.checklist this)))
                  = VArr (map Task.item_value (Task.checklist this))).
  { unfold Task.provided. rewrite Hget. reflexivity. }
  destruct updates; try discriminate;
    unfold bind at 1; unfold Task.in_env at 1, zoom at 1, Date_current;
    cbn [fst snd]; unfold bind at 1; unfold Task.in_env, zoom; cbn [fst snd];
    rewrite Hprov;
    match goal with
    | |- context [Task.constructor pf ?d ?e0] =>
        destruct (Task.constructor pf d e0) as [[t1|err1] e1] eqn:Hc
    end;
    try discriminate;
    match type of Hc with
    | Task.constructor pf (VObj [(_, ?a); (_, ?b); (_, ?c); (_, ?d); (_, ?f);
                                 (_, ?g); _; (_, ?h); (_, ?i); (_, ?j);
                                 (_, ?k)]) ?e0 = _ =>
        pose proof (Hctor a b c d f g h i j k e0) as Hfalse;
        rewrite Hc in Hfalse; discriminate
    end.
Qed.

Lemma Task_update_blocked_by_empty_item_witness :
  exists err s',
    Task.update Examples.roomy_store (VObj [("title", VStr "b")])
      (Task.Make (VStr "t") "a" (VStr "") None "medium" (VStr "")
         [Task.Item.Make (VStr "i") "" false] false (VStr "default")
         (ValidDate 0) (ValidDate 0), Examples.fresh_env)
    = (Throw err, s').
Proof.
  destruct (Task_update_blocked_by_empty_item Examples.roomy_store
              (VObj [("title", VStr "b")])
              (Task.Make (VStr "t") "a" (VStr "") None "medium" (VStr "")
                 [Task.Item.Make (VStr "i") "" false] false (VStr "default")
                 (ValidDate 0) (ValidDate 0)) Examples.fresh_env)
    as (err & s' & H & _).
  - constructor. reflexivity.
  - reflexivity.
  - exists err, s'. exact H.
Defined.

(** ** [StorageService]: the store and the fallback map *)

Lemma getItem_put_eq k v ls :
  LocalStorage.getItem k (LocalStorage.put k v ls) = Some v.
Proof.
  induction ls as [|[k' v'] ls IH]; simpl.
  - assert (H : Str.eqb k k = true) by (apply Str_eqb_eq; reflexivity).
    rewrite H. reflexivity.
  - destruct (Str.eqb k' k) eqn:He; simpl.
    + assert (H : Str.eqb k k = true) by (apply Str_eqb_eq; reflexivity).
      rewrite H. reflexivity.
    + rewrite He. exact IH.
Qed.

Lemma getItem_put_ne k k' v ls :
  k' <> k ->
  LocalStorage.getItem k' (LocalStorage.put k v ls) = LocalStorage.getItem k' ls.
Proof.
  intros Hne. induction ls as [|[k0 v0] ls IH]; simpl.
  - assert (H : Str.eqb k k' = false) by (apply Str_eqb_neq; congruence).
    rewrite H. reflexivity.
  - destruct (Str.eqb k0 k) eqn:He; simpl.
    + apply Str_eqb_eq in He. subst k0.
      assert (H : Str.eqb k k' = false) by (apply Str_eqb_neq; congruence).
      rewrite H. reflexivity.
    + rewrite IH. reflexivity.
Qed.

Lemma getItem_removeItem_eq k ls :
  LocalStorage.getItem k (LocalStorage.removeItem k ls) = None.
Proof.
  unfold LocalStorage.removeItem.
  induction ls as [|[k' v'] ls IH]; simpl; [reflexivity|].
  destruct (Str.eqb k' k) eqn:He; simpl; [exact IH|].
  rewrite He. exact IH.
Qed.

Lemma getItem_removeItem_ne k k' ls :
  k' <> k ->
  LocalStorage.getItem k' (LocalStorage.removeItem k ls)
  = LocalStorage.getItem k' ls.
Proof.
  intros Hne. unfold LocalStorage.removeItem.
  induction ls as [|[k0 v0] ls IH]; simpl; [reflexivity|].
  destruct (Str.eqb k0 k) eqn:He; simpl.
  - apply Str_eqb_eq in He. subst k0.
    assert (H : Str.eqb k k' = false) by (apply Str_eqb_neq; congruence).
    rewrite H. exact IH.
  - rewrite IH. reflexivity.
Qed.

Lemma getItem_In_keys k ls :
  LocalStorage.getItem k ls <> None -> In k (LocalStorage.keys ls).
Proof.
  induction ls as [|[k' v'] ls IH]; simpl; [congruence|].
  destruct (Str.eqb k' k) eqn:He.
  - apply Str_eqb_eq in He. auto.
  - auto.
Qed.

(** A full key is not empty and starts with the prefix *)
Lemma startsWith_append p s : Str.startsWith (p +:+ s) p = true.
Proof.
  unfold Str.startsWith. induction p as [|c p IH]; simpl.
  - destruct s; reflexivity.
  - destruct (ascii_dec c c); [exact IH|congruence].
Qed.

Lemma fullKey_prefixed key :
  Str.startsWith (fullKey key) prefix = true /\ Str.isEmpty (fullKey key) = false.
Proof.
  unfold fullKey. destruct (Str.startsWith key prefix) eqn:H.
  - split; [exact H|]. destruct key; [discriminate H | reflexivity].
  - split; [apply startsWith_append | reflexivity].
Qed.

Lemma fullKey_fixed key : fullKey (fullKey key) = fullKey key.
Proof.
  destruct (fullKey_prefixed key) as [H _].
  unfold fullKey at 1. rewrite H. reflexivity.
Qed.


Lemma getItem_remove_keys keys : forall k ls,
  LocalStorage.getItem k (remove_keys keys ls)
  = if existsb (Str.eqb k) keys then None else LocalStorage.getItem k ls.
Proof.
  unfold remove_keys.
  induction keys as [|k0 keys IH]; intros k ls; simpl; [reflexivity|].
  rewrite IH. destruct (existsb (Str.eqb k) keys) eqn:Hex.
  - rewrite orb_true_r. reflexivity.
  - rewrite orb_false_r. destruct (Str.eqb k k0) eqn:He.
    + apply Str_eqb_eq in He. subst k0. apply getItem_removeItem_eq.
    + apply getItem_removeItem_ne. apply Str_eqb_neq. exact He.
Qed.

Lemma lookup_delete_keys keys : forall k (m : gmap string value),
  delete_keys keys m !! k
  = if existsb (Str.eqb k) keys then None else m !! k.
Proof.
  unfold delete_keys.
  induction keys as [|k0 keys IH]; intros k m; simpl; [reflexivity|].
  rewrite IH. destruct (existsb (Str.eqb k) keys) eqn:Hex.
  - rewrite orb_true_r. reflexivity.
  - rewrite orb_false_r. destruct (Str.eqb k k0) eqn:He.
    + apply Str_eqb_eq in He. subst k0. apply lookup_delete_eq.
    + apply lookup_delete_ne. apply Str_eqb_neq in He. congruence.
Qed.

Lemma forEach_removeItem keys : forall index w,
  forEach (fun key (_ : nat) => removeItem key) keys index w
  = (Ok tt, with_localStorage (remove_keys keys (localStorage w)) w).
Proof.
  induction keys as [|k keys IH]; intros index w.
  - destruct w; reflexivity.
  - simpl. unfold bind at 1, removeItem at 1, modify at 1.
    rewrite IH. reflexivity.
Qed.

Lemma forEach_fallback_delete keys : forall index w,
  forEach (fun key (_ : nat) => fallback_delete key) keys index w
  = (Ok tt,
     with_this (Make (_isAvailable (this w)) (_quotaExceeded (this w))
                  (delete_keys keys (_fallbackStorage (this w)))
                  (_usingFallback (this w))) w).
Proof.
  induction keys as [|k keys IH]; intros index w.
  - destruct w as [ls [a q f u] o c n]; reflexivity.
  - simpl. unfold bind at 1, fallback_delete at 1, bind at 1, gets at 1.
    unfold set_fallbackStorage at 1, modify at 1.
    rewrite IH. reflexivity.
Qed.

Lemma existsb_eqb_In k keys : existsb (Str.eqb k) keys = true <-> In k keys.
Proof.
  rewrite existsb_exists. split.
  - intros (x & Hin & He). apply Str_eqb_eq in He. subst. exact Hin.
  - intros Hin. exists k. split; [exact Hin|]. apply Str_eqb_eq. reflexivity.
Qed.

(** The keys [clear] and [forceRecovery] collect from the fallback map *)
Lemma fallback_key_collected k (m : gmap string value) :
  Str.startsWith k prefix = true ->
  m !! k <> None ->
  In k (map fst (fallback_entries m)).
Proof.
  intros Hp Hm. destruct (m !! k) as [v|] eqn:Hv; [|congruence].
  apply in_map_iff. exists (k, v). split; [reflexivity|].
  unfold fallback_entries. apply filter_In. split; [|exact Hp].
  apply list_elem_of_In. apply elem_of_map_to_list. exact Hv.
Qed.

(** A key neither the store in use nor the fallback map holds loads as
    [null] *)
Lemma load_absent pf key w :
  (_isAvailable (this w) && negb (_usingFallback (this w)) = true ->
   LocalStorage.getItem (fullKey key) (localStorage w) = None) ->
  _fallbackStorage (this w) !! fullKey key = None ->
  load pf key w = (Ok VNull, w).
Proof.
  intros Hls Hf. unfold load, bind, gets. cbn beta iota.
  destruct (_isAvailable (this w) && negb (_usingFallback (this w))).
  - rewrite (Hls eq_refl). unfold fallback_get_or_null, gets.
    rewrite Hf. reflexivity.
  - unfold fallback_get_or_null, gets. rewrite Hf. reflexivity.
Qed.

(** A [save] whose write the store in use accepts *)
Lemma save_accepted pf key data text w :
  _isAvailable (this w) = true ->
  _usingFallback (this w) = false ->
  JSON_stringify pf data = Some text ->
  setItem_throws pf (localStorage w) (fullKey key) text = None ->
  save pf key data w
  = (Ok true,
     World (LocalStorage.put (fullKey key) text (localStorage w))
       (Make true false (_fallbackStorage (this w)) false)
       (oracles w) (console w) (notified w)).
Proof.
  intros Ha Hu Hs Hset.
  unfold save, bind at 1, gets at 1. cbn beta iota. rewrite Ha, Hu.
  cbn [andb negb]. unfold bind at 1, save_to_store, try_catch at 1.
  unfold bind at 1, write. rewrite Hs. unfold setItem. rewrite Hset.
  unfold bind, set_quotaExceeded, modify, ret, with_this, with_localStorage.
  cbn [this localStorage oracles console notified _isAvailable
       _fallbackStorage _usingFallback].
  rewrite Ha, Hu. reflexivity.
Qed.

(** What [load] reads from the store in use *)
Lemma load_stored pf key text stored w :
  _isAvailable (this w) = true ->
  _usingFallback (this w) = false ->
  LocalStorage.getItem (fullKey key) (localStorage w) = Some text ->
  JSON_parse pf text = Some stored ->
  load pf key w = (Ok stored, w).
Proof.
  intros Ha Hu Hget Hparse. unfold load, bind, gets. cbn beta iota.
  rewrite Ha, Hu, Hget, Hparse. reflexivity.
Qed.

(** X8. On a store in use, a [save] whose write the store accepts returns
    [true], leaves the text [JSON.stringify] gave under the full key, clears
    the quota flag, and touches no other key; the [load] of the key that
    follows returns what [JSON.parse] makes of that text. *)
Theorem save_then_load_on_healthy_store pf key data text w :
  _isAvailable (this w) = true ->
  _usingFallback (this w) = false ->
  JSON_stringify pf data = Some text ->
  setItem_throws pf (localStorage w) (fullKey key) text = None ->
  exists w',
    save pf key data w = (Ok true, w')
    /\ LocalStorage.getItem (fullKey key) (localStorage w') = Some text
    /\ (forall k, k <> fullKey key ->
          LocalStorage.getItem k (localStorage w')
          = LocalStorage.getItem k (localStorage w))
    /\ this w' = Make true false (_fallbackStorage (this w)) false
    /\ forall stored, JSON_parse pf text = Some stored ->
         load pf key w' = (Ok stored, w').
Proof.
  intros Ha Hu Hs Hset.
  eexists. split; [exact (save_accepted pf key data text w Ha Hu Hs Hset)|].
  cbn [localStorage this].
  split; [apply getItem_put_eq|].
  split; [intros k Hk; apply getItem_put_ne; exact Hk|].
  split; [reflexivity|].
  intros stored Hparse.
  apply (load_stored pf key text stored); try reflexivity; [|exact Hparse].
  apply getItem_put_eq.
Qed.

Lemma save_then_load_on_healthy_store_witness :
  exists w',
    save Examples.roomy_store "tasks" (VArr []) Examples.fresh_world
    = (Ok true, w')
    /\ LocalStorage.getItem "todoapp_tasks" (localStorage w') = Some "null".
Proof.
  destruct (save_then_load_on_healthy_store Examples.roomy_store "tasks"
              (VArr []) "null" Examples.fresh_world
              eq_refl eq_refl eq_refl eq_refl)
    as (w' & Hsave & Hget & _).
  exists w'. split; [exact Hsave | exact Hget].
Defined.

(** X9. [remove] never throws; it returns [true] when the store is
    available or the fallback map holds the key; and afterwards a [load] of
    the key returns [null] without changing anything, while the other keys
    of the store and of the fallback map are as before. *)
Theorem remove_then_load_null pf key w :
  exists w',
    remove key w
    = (Ok (_isAvailable (this w)
           || bool_decide (is_Some (_fallbackStorage (this w) !! fullKey key))),
       w')
    /\ load pf key w' = (Ok VNull, w')
    /\ (forall k, k <> fullKey key ->
          LocalStorage.getItem k (localStorage w')
          = LocalStorage.getItem k (localStorage w)
          /\ _fallbackStorage (this w') !! k = _fallbackStorage (this w) !! k).
Proof.
  destruct w as [ls [a q f u] o c n].
  unfold remove, bind at 1, gets at 1. cbn beta iota.
  cbn [this _isAvailable _fallbackStorage].
  assert (Hload : forall ls' f', 
            (a = true -> LocalStorage.getItem (fullKey key) ls' = None) ->
            f' !! fullKey key = None ->
            load pf key (World ls' (Make a q f' u) o c n)
            = (Ok VNull, World ls' (Make a q f' u) o c n)).
  { intros ls' f' Hls Hf. unfold load, bind, gets. cbn beta iota.
    cbn [this localStorage _isAvailable _usingFallback].
    destruct (a && negb u) eqn:Hn.
    - apply andb_prop in Hn as [-> _]. rewrite (Hls eq_refl).
      unfold fallback_get_or_null, gets. cbn [this _fallbackStorage].
      rewrite Hf. reflexivity.
    - unfold fallback_get_or_null, gets. cbn [this _fallbackStorage].
      rewrite Hf. reflexivity. }
  destruct a; cbn [orb]; unfold bind at 1, removeItem, modify, ret;
    cbn [localStorage with_localStorage this oracles console notified];
    destruct (f !! fullKey key) as [v|] eqn:Hf.
  - eexists. split; [reflexivity|]. split.
    + apply Hload; [intros _; apply getItem_removeItem_eq|apply lookup_delete_eq].
    + intros k Hk. cbn. split; [apply getItem_removeItem_ne; exact Hk|].
      apply lookup_delete_ne. congruence.
  - eexists. split; [reflexivity|]. split.
    + apply Hload; [intros _; apply getItem_removeItem_eq|exact Hf].
    + intros k Hk. cbn. split; [apply getItem_removeItem_ne; exact Hk|].
      reflexivity.
  - eexists. split.
    { rewrite bool_decide_eq_true_2 by eauto. reflexivity. } split.
    + apply Hload; [discriminate|apply lookup_delete_eq].
    + intros k Hk. cbn. split; [reflexivity|].
      apply lookup_delete_ne. congruence.
  - eexists. split.
    { rewrite bool_decide_eq_false_2 by (intros [? ?]; discriminate).
      reflexivity. } split.
    + apply Hload; [discriminate|exact Hf].
    + intros k Hk. split; reflexivity.
Qed.

Lemma remove_then_load_null_witness :
  exists w',
    remove "tasks" (Examples.fallback_world VNull) = (Ok true, w')
    /\ load Examples.roomy_store "tasks" w' = (Ok VNull, w')
    /\ _fallbackStorage (this w') !! "todoapp_projects" = None.
Proof.
  destruct (remove_then_load_null Examples.roomy_store "tasks"
              (Examples.fallback_world VNull))
    as (w' & Hrun & Hload & Hother).
  exists w'. split; [exact Hrun|]. split; [exact Hload|].
  destruct (Hother "todoapp_projects") as [_ ->]; [discriminate|].
  reflexivity.
Defined.


(** X10. [clear] never throws.  Afterwards the [load] of every key returns
    [null] and changes nothing; the store keeps every entry whose key does
    not start with the prefix; the quota flag is down if the store is
    available; and [_usingFallback] is what it was. *)
Theorem clear_then_load_null pf w :
  exists b w',
    clear w = (Ok b, w')
    /\ (forall key, load pf key w' = (Ok VNull, w'))
    /\ (forall k, Str.startsWith k prefix = false ->
          LocalStorage.getItem k (localStorage w')
          = LocalStorage.getItem k (localStorage w)
          /\ _fallbackStorage (this w') !! k = _fallbackStorage (this w) !! k)
    /\ _usingFallback (this w') = _usingFallback (this w)
    /\ _isAvailable (this w') = _isAvailable (this w)
    /\ _quotaExceeded (this w')
       = (if _isAvailable (this w) then false else _quotaExceeded (this w)).
Proof.
  destruct w as [ls [a q f u] o c n].
  unfold clear, bind at 1, gets at 1. cbn beta iota.
  cbn [this _isAvailable _fallbackStorage localStorage].
  set (fkeys := map fst (fallback_entries f)).
  assert (Hf : forall key, delete_keys fkeys f !! fullKey key = None).
  { intros key. rewrite lookup_delete_keys.
    destruct (existsb (Str.eqb (fullKey key)) fkeys) eqn:Hex; [reflexivity|].
    destruct (f !! fullKey key) as [v|] eqn:Hv; [|reflexivity].
    assert (Hin : In (fullKey key) fkeys).
    { apply fallback_key_collected; [apply fullKey_prefixed|congruence]. }
    apply existsb_eqb_In in Hin. congruence. }
  assert (Hforeign : forall k keys,
            Str.startsWith k prefix = false ->
            Forall (fun k' => Str.startsWith k' prefix = true) keys ->
            existsb (Str.eqb k) keys = false).
  { intros k keys Hk Hall. destruct (existsb (Str.eqb k) keys) eqn:Hex;
      [|reflexivity].
    apply existsb_eqb_In in Hex. rewrite List.Forall_forall in Hall.
    apply Hall in Hex. congruence. }
  assert (Hfk : Forall (fun k' => Str.startsWith k' prefix = true) fkeys).
  { apply List.Forall_forall. intros k Hin. subst fkeys.
    apply in_map_iff in Hin as ([k' v] & <- & Hin).
    unfold fallback_entries in Hin. apply filter_In in Hin as [_ Hp].
    exact Hp. }
  assert (Hpk : Forall (fun k' => Str.startsWith k' prefix = true)
                  (prefixed_keys ls)).
  { apply List.Forall_forall. intros k Hin. unfold prefixed_keys in Hin.
    apply filter_In in Hin as [_ Hp]. apply andb_prop in Hp as [_ Hp].
    exact Hp. }
  destruct a.
  - unfold bind at 1. unfold bind at 1. rewrite forEach_removeItem.
    unfold set_quotaExceeded, modify, bind at 1.
    rewrite forEach_fallback_delete. unfold ret.
    cbn [this localStorage with_localStorage with_this oracles console
         notified _isAvailable _quotaExceeded _fallbackStorage _usingFallback].
    eexists _, _. split; [reflexivity|].
    cbn [this localStorage _isAvailable _quotaExceeded _fallbackStorage
         _usingFallback with_this with_localStorage].
    split; [|split; [|repeat split]].
    + intros key. apply load_absent; [intros _|apply Hf].
      cbn [localStorage with_this with_localStorage].
      { rewrite getItem_remove_keys.
        destruct (existsb _ _) eqn:Hex; [reflexivity|].
        destruct (LocalStorage.getItem (fullKey key) ls) eqn:Hg; [|reflexivity].
        assert (Hin : In (fullKey key) (prefixed_keys ls)).
        { unfold prefixed_keys. apply filter_In. split.
          - apply getItem_In_keys. congruence.
          - destruct (fullKey_prefixed key) as [-> ->]. reflexivity. }
        apply existsb_eqb_In in Hin. congruence. }
    + intros k Hk.
      cbn [localStorage this _fallbackStorage with_this with_localStorage].
      split.
      * rewrite getItem_remove_keys, (Hforeign k _ Hk Hpk). reflexivity.
      * rewrite lookup_delete_keys, (Hforeign k _ Hk Hfk). reflexivity.
  - unfold bind at 1. unfold ret at 1. unfold bind at 1.
    rewrite forEach_fallback_delete. unfold ret.
    cbn [this localStorage with_localStorage with_this oracles console
         notified _isAvailable _quotaExceeded _fallbackStorage _usingFallback].
    eexists _, _. split; [reflexivity|].
    cbn [this localStorage _isAvailable _quotaExceeded _fallbackStorage
         _usingFallback with_this with_localStorage].
    split; [|split; [|repeat split]].
    + intros key. apply load_absent; [discriminate|apply Hf].
    + intros k Hk.
      cbn [localStorage this _fallbackStorage with_this with_localStorage].
      split; [reflexivity|].
      rewrite lookup_delete_keys, (Hforeign k _ Hk Hfk). reflexivity.
Qed.

Lemma clear_then_load_null_witness :
  exists b w',
    clear (Examples.fallback_world VNull) = (Ok b, w')
    /\ load Examples.roomy_store "tasks" w' = (Ok VNull, w')
    /\ LocalStorage.getItem "theme" (localStorage w') = None.
Proof.
  destruct (clear_then_load_null Examples.roomy_store
              (Examples.fallback_world VNull))
    as (b & w' & Hrun & Hload & Hother & _).
  exists b, w'. split; [exact Hrun|]. split; [apply Hload|].
  destruct (Hother "theme") as [-> _]; reflexivity.
Defined.


(** ** [StorageService]: the collections *)

Lemma stamping_store_iso stored : iso_round_trip (Examples.stamping_store stored).
Proof.
  intros t. split; [|discriminate].
  change (Date_parse _ _)
    with (match NilEmpty.int_of_string
                  (NilEmpty.string_of_int (Z.to_int t)) with
          | Some d => ValidDate (Z.of_int d)
          | None => InvalidDate
          end).
  rewrite NilEmpty.isi, DecimalZ.of_to. reflexivity.
Qed.

Lemma toJSON_valid_dates pf task :
  valid_dates task -> exists json, Task.toJSON pf task = Ok json.
Proof.
  intros (Hdue & Hc & Hu). unfold Task.toJSON.
  destruct (Task.createdAt task); [|contradiction].
  destruct (Task.updatedAt task); [|contradiction].
  destruct (Task.dueDate task) as [[due|]|]; [| contradiction |];
    eexists; reflexivity.
Qed.

Lemma toJSON_invalid_dates pf task :
  ~ valid_dates task ->
  Task.toJSON pf task = Throw (RangeError "Invalid time value").
Proof.
  intros Hn. unfold Task.toJSON.
  destruct (Task.dueDate task) as [[due|]|] eqn:Hd; simpl; try reflexivity;
    destruct (Task.createdAt task) eqn:Hc; simpl; try reflexivity;
    destruct (Task.updatedAt task) eqn:Hu; simpl; try reflexivity;
    exfalso; apply Hn; unfold valid_dates; rewrite Hd, Hc, Hu; simpl; auto.
Qed.

Lemma mapM_lift_result_ok {St A B} (f : A -> result B) (l : list A) :
  forall (s : St),
  Forall (fun x => isOk (f x) = true) l ->
  exists ys, mapM (fun x => lift_result (f x)) l s = (Ok ys, s)
             /\ Forall2 (fun x y => f x = Ok y) l ys.
Proof.
  induction l as [|x l IH]; intros s Hall.
  - exists []. split; [reflexivity|constructor].
  - inversion Hall as [|? ? Hx Hl]; subst.
    destruct (f x) as [y|err] eqn:Hf; [|discriminate].
    destruct (IH s Hl) as (ys & Hys & Hall2).
    exists (y :: ys). split; [|constructor; assumption].
    simpl. unfold bind at 1, lift_result at 1. rewrite Hf.
    unfold bind at 1. rewrite Hys. reflexivity.
Qed.

Lemma mapM_lift_result_throw {St A B} (f : A -> result B) (l : list A) err :
  forall (s : St),
  Exists (fun x => isOk (f x) = false) l ->
  Forall (fun x => isOk (f x) = false -> f x = Throw err) l ->
  mapM (fun x => lift_result (f x)) l s = (Throw err, s).
Proof.
  induction l as [|x l IH]; intros s Hex Hall; [inversion Hex|].
  inversion Hall as [|? ? Hx Hl]; subst.
  simpl. unfold bind at 1, lift_result at 1.
  destruct (f x) as [y|e] eqn:Hf.
  - unfold bind at 1. rewrite IH; [reflexivity| |exact Hl].
    inversion Hex as [? ? H|? ? H]; subst; [|exact H].
    cbv beta in H. rewrite ?Hf in H. discriminate.
  - cbv beta in Hx. rewrite ?Hf in Hx. specialize (Hx eq_refl).
    injection Hx as ->. reflexivity.
Qed.

Lemma saveTasks_valid pf tasks w :
  Forall valid_dates tasks ->
  exists w', saveTasks pf tasks w = (Ok true, w').
Proof.
  intros Hall. unfold saveTasks, bind at 1.
  destruct (mapM_lift_result_ok (St := world) (Task.toJSON pf) tasks w)
    as (ys & -> & _).
  { eapply Forall_impl; [exact Hall|]. intros task Hv.
    destruct (toJSON_valid_dates pf task Hv) as [json ->]. reflexivity. }
  destruct (save_cases pf keys_tasks (VArr ys) w) as (w' & Hsave & _).
  exists w'. exact Hsave.
Qed.

Lemma saveTasks_invalid pf tasks w :
  Exists (fun task => ~ valid_dates task) tasks ->
  saveTasks pf tasks w = (Throw (RangeError "Invalid time value"), w).
Proof.
  intros Hex. unfold saveTasks, bind at 1.
  rewrite (mapM_lift_result_throw (Task.toJSON pf) tasks
             (RangeError "Invalid time value")); [reflexivity| |].
  - apply List.Exists_exists in Hex as (task & Hin & Hn).
    apply List.Exists_exists. exists task. split; [exact Hin|].
    rewrite (toJSON_invalid_dates pf task Hn). reflexivity.
  - apply List.Forall_forall. intros task _ Hf.
    apply toJSON_invalid_dates. intros Hv.
    destruct (toJSON_valid_dates pf task Hv) as [json Hj].
    rewrite Hj in Hf. discriminate.
Qed.

(** X11. [saveTasks] returns [true] when every date of every task is valid.
    When some task has a due date, a creation date or an update date that
    is no date, it throws the [RangeError] of [toISOString] and writes
    nothing: the store, the fallback map, the flags and the notifications
    are as before. *)
Theorem saveTasks_needs_valid_dates pf tasks w :
  (Forall valid_dates tasks ->
   exists w', saveTasks pf tasks w = (Ok true, w'))
  /\ (Exists (fun task => ~ valid_dates task) tasks ->
      saveTasks pf tasks w = (Throw (RangeError "Invalid time value"), w)).
Proof.
  split; [apply saveTasks_valid | apply saveTasks_invalid].
Qed.

Lemma saveTasks_needs_valid_dates_witness :
  saveTasks Examples.roomy_store
    [Examples.task_with [] "default"; Examples.undated] Examples.fresh_world
  = (Throw (RangeError "Invalid time value"), Examples.fresh_world)
  /\ exists w',
       saveTasks Examples.roomy_store [Examples.task_with [] "default"]
         Examples.fresh_world = (Ok true, w').
Proof.
  split.
  - apply (proj2 (saveTasks_needs_valid_dates Examples.roomy_store
                    [Examples.task_with [] "default"; Examples.undated]
                    Examples.fresh_world)).
    apply Exists_cons_tl, Exists_cons_hd. intros (H & _). exact H.
  - apply (proj1 (saveTasks_needs_valid_dates Examples.roomy_store
                    [Examples.task_with [] "default"] Examples.fresh_world)).
    repeat constructor.
Defined.

Lemma load_each_round_trip pf :
  iso_round_trip pf ->
  forall tasks records,
  Forall well_formed tasks ->
  Forall2 (fun task record => Task.toJSON pf task = Ok record) tasks records ->
  forall index loaded w,
    load_each (Task.fromJSON pf) "task" records index loaded w
    = (Ok (loaded ++ tasks), w).
Proof.
  intros Hiso tasks records Hwf Hall.
  induction Hall as [|task record tasks records Hjson Hall IH];
    intros index loaded w.
  - simpl. rewrite app_nil_r. reflexivity.
  - inversion Hwf as [|? ? Htask Hrest]; subst.
    destruct (fromJSON_toJSON_well_formed pf task Hiso Htask)
      as (json & Hj & Hfrom).
    rewrite Hjson in Hj. injection Hj as <-.
    simpl. unfold bind at 1, try_catch at 1, bind at 1, in_oracles, zoom.
    rewrite Hfrom. unfold ret at 1.
    assert (Hw : with_oracles (oracles w) w = w) by (destruct w; reflexivity).
    rewrite Hw, (IH Hrest), <- app_assoc. reflexivity.
Qed.

(** X12. On a store in use that accepts the write, [saveTasks] followed by
    [loadTasks] returns the tasks that were saved, when they are well
    formed, [Date.parse] reads back what [toISOString] prints and
    [JSON.parse] reads back what [JSON.stringify] made of their records; the
    load prints nothing and changes nothing. *)
Theorem saveTasks_then_loadTasks pf tasks text w :
  iso_round_trip pf ->
  Forall well_formed tasks ->
  _isAvailable (this w) = true ->
  _usingFallback (this w) = false ->
  (forall records,
     Forall2 (fun task record => Task.toJSON pf task = Ok record) tasks records ->
     JSON_stringify pf (VArr records) = Some text
     /\ JSON_parse pf text = Some (VArr records)) ->
  setItem_throws pf (localStorage w) keys_tasks text = None ->
  exists w',
    saveTasks pf tasks w = (Ok true, w')
    /\ loadTasks pf w' = (Ok tasks, w').
Proof.
  intros Hiso Hwf Ha Hu Hjson Hset.
  destruct (mapM_lift_result_ok (St := world) (Task.toJSON pf) tasks w)
    as (records & Hmap & Hall).
  { eapply Forall_impl; [exact Hwf|]. intros task Htask.
    destruct (fromJSON_toJSON_well_formed pf task Hiso Htask) as (json & -> & _).
    reflexivity. }
  destruct (Hjson records Hall) as [Hs Hp].
  eexists. split.
  - unfold saveTasks, bind at 1. rewrite Hmap.
    exact (save_accepted pf keys_tasks (VArr records) text w Ha Hu Hs Hset).
  - unfold loadTasks, bind at 1.
    rewrite (load_stored pf keys_tasks text (VArr records));
      [|reflexivity|reflexivity|apply getItem_put_eq|exact Hp].
    cbn [truthy negb].
    apply (load_each_round_trip pf Hiso tasks records Hwf Hall O []).
Qed.

Lemma saveTasks_then_loadTasks_witness :
  exists w',
    loadTasks (Examples.stamping_store (VArr [Examples.task_record])) w'
    = (Ok [Examples.task_with [] "p1"], w').
Proof.
  destruct (saveTasks_then_loadTasks
              (Examples.stamping_store (VArr [Examples.task_record]))
              [Examples.task_with [] "p1"] "stored" Examples.fresh_world)
    as (w' & _ & Hload).
  - apply stamping_store_iso.
  - repeat constructor; discriminate.
  - reflexivity.
  - reflexivity.
  - intros records Hall. split; [reflexivity|].
    inversion Hall as [|? r ? rs Hr Hrs]; subst.
    inversion Hrs; subst. vm_compute in Hr. injection Hr as <-.
    reflexivity.
  - reflexivity.
  - exists w'. exact Hload.
Defined.

(** ** [Project]: the constructor and the JSON round trip *)

(** What the constructor does on an argument that is an object *)
Lemma Project_constructor_cases pf arg e :
  arg <> VUndefined -> arg <> VNull ->
  let id := default_to (get arg "id") VNull in
  let name := get arg "name" in
  let createdAt := default_to (get arg "createdAt") VNull in
  let taskCount := default_to (get arg "taskCount") (VNum 0) in
  let e1 := if truthy id then e else Env (S (uuid_calls e)) (clock_calls e) in
  Project.constructor pf arg e
  = if Project.bad_name name then (Throw Project.name_required, e)
    else if Project.bad_count taskCount then (Throw Project.count_invalid, e)
    else
      (Ok (Project.Make
             (if truthy id then id else VStr (uuidv4 pf (uuid_calls e)))
             (Str.trim (string_of name))
             (if truthy createdAt then new_Date pf createdAt
              else ValidDate (Date_now pf (clock_calls e1)))
             taskCount),
       if truthy createdAt then e1
       else Env (uuid_calls e1) (S (clock_calls e1))).
Proof.
  intros Hu Hn. cbv zeta.
  assert (Hbody : forall id name createdAt taskCount,
    (if Project.bad_name name then throw Project.name_required
     else if Project.bad_count taskCount then throw Project.count_invalid
     else
       id' <- (if truthy id then ret id else fresh_uuid pf) ;;
       createdAt' <- (if truthy createdAt then ret (new_Date pf createdAt)
                      else Date_current pf) ;;
       ret (Project.Make id' (Str.trim (string_of name)) createdAt'
              taskCount)) e
    = let e1 := if truthy id then e
                else Env (S (uuid_calls e)) (clock_calls e) in
      if Project.bad_name name then (Throw Project.name_required, e)
      else if Project.bad_count taskCount then (Throw Project.count_invalid, e)
      else
        (Ok (Project.Make
               (if truthy id then id else VStr (uuidv4 pf (uuid_calls e)))
               (Str.trim (string_of name))
               (if truthy createdAt then new_Date pf createdAt
                else ValidDate (Date_now pf (clock_calls e1)))
               taskCount),
         if truthy createdAt then e1
         else Env (uuid_calls e1) (S (clock_calls e1)))).
  { intros id name createdAt taskCount. cbv zeta.
    destruct (Project.bad_name name); [reflexivity|].
    destruct (Project.bad_count taskCount); [reflexivity|].
    destruct (truthy id), (truthy createdAt); reflexivity. }
  unfold Project.constructor.
  destruct arg; try congruence; cbv zeta; apply Hbody.
Qed.

(** X13. Whatever [new Project] accepts, the project it builds has a name
    that is trimmed and not empty and a task count that passes the guard of
    the constructor: a number that is not below zero, [NaN] and the
    fractions among them;
    its id is the one given when that is truthy and else the next
    identifier of [uuidv4], so that it is truthy when [uuidv4] never hands
    out the empty string. *)
Theorem Project_constructor_establishes pf arg e project e' :
  Project.constructor pf arg e = (Ok project, e') ->
  Str.trim (Project.name project) = Project.name project
  /\ Project.name project <> ""
  /\ Project.bad_count (Project.taskCount project) = false
  /\ Project.id project
     = (if truthy (get arg "id") then get arg "id"
        else VStr (uuidv4 pf (uuid_calls e)))
  /\ ((forall n, uuidv4 pf n <> "") -> truthy (Project.id project) = true).
Proof.
  intros H.
  assert (Hu : arg <> VUndefined) by (intros ->; discriminate H).
  assert (Hn : arg <> VNull) by (intros ->; discriminate H).
  rewrite (Project_constructor_cases pf arg e Hu Hn) in H. cbv zeta in H.
  destruct (Project.bad_name (get arg "name")) eqn:Hname; [discriminate|].
  destruct (Project.bad_count _) eqn:Hcount; [discriminate|].
  injection H as <- _. cbn [Project.name Project.taskCount Project.id].
  unfold Project.bad_name in Hname.
  apply orb_false_elim in Hname as [_ Hempty].
  assert (Hid : forall v, truthy (default_to v VNull) = truthy v)
    by (intros []; reflexivity).
  assert (Hid' : forall v, truthy v = true -> default_to v VNull = v)
    by (intros []; simpl; congruence).
  rewrite Hid.
  split; [apply trim_idempotent|].
  split; [intros Hnm; rewrite Hnm in Hempty; discriminate|].
  split; [exact Hcount|].
  destruct (truthy (get arg "id")) eqn:Hi.
  - rewrite (Hid' _ Hi). split; [reflexivity|]. intros _. exact Hi.
  - split; [reflexivity|]. intros Huuid. apply truthy_string, Huuid.
Qed.

Lemma Project_constructor_establishes_witness :
  exists project e',
    Project.constructor Examples.roomy_store
      (VObj [("name", VStr " Home "); ("taskCount", VNum 2)])
      Examples.fresh_env = (Ok project, e')
    /\ Project.name project <> ""
    /\ Project.bad_count (Project.taskCount project) = false.
Proof.
  destruct (Project.constructor Examples.roomy_store
              (VObj [("name", VStr " Home "); ("taskCount", VNum 2)])
              Examples.fresh_env) as [[project|err] e'] eqn:Hrun;
    [|vm_compute in Hrun; discriminate].
  exists project, e'. split; [reflexivity|].
  destruct (Project_constructor_establishes _ _ _ _ _ Hrun)
    as (_ & Hname & Hcount & _).
  split; [exact Hname | exact Hcount].
Defined.

(** X14. [Project.fromJSON(project.toJSON())] is the project, when its id
    is truthy, its name trimmed and not empty, its count one that the guard
    of the constructor accepts and that is truthy or the integer 0 (so
    neither [NaN] nor minus zero, which [data.taskCount || 0] turns into 0),
    and its creation date one that [Date.parse] reads back from what
    [toISOString] prints; it takes no identifier and reads no clock.  On a
    project whose creation date is no date, [toJSON] throws. *)
Theorem Project_fromJSON_toJSON pf project e :
  truthy (Project.id project) = true ->
  Str.trim (Project.name project) = Project.name project ->
  Project.name project <> "" ->
  Project.bad_count (Project.taskCount project) = false ->
  truthy (Project.taskCount project) = true
  \/ Project.taskCount project = VNum 0 ->
  match Project.createdAt project with
  | ValidDate t =>
      (Date_parse pf (toISOString pf t) = ValidDate t
       /\ toISOString pf t <> "") ->
      exists json,
        Project.toJSON pf project = Ok json
        /\ Project.fromJSON pf json e = (Ok project, e)
  | InvalidDate =>
      Project.toJSON pf project = Throw (RangeError "Invalid time value")
  end.
Proof.
  intros Hid Htrim Hname Hcount Htruthy.
  destruct project as [id name createdAt taskCount].
  cbn [Project.id Project.name Project.createdAt Project.taskCount] in *.
  destruct createdAt as [t|]; [|reflexivity].
  intros [Hparse Hiso].
  eexists. split; [reflexivity|].
  unfold Project.fromJSON.
  cbn [get lookup_field Str.eqb String.eqb Ascii.eqb Bool.eqb andb].
  rewrite Project_constructor_cases by discriminate. cbv zeta.
  cbn [get lookup_field Str.eqb String.eqb Ascii.eqb Bool.eqb andb
       Project.id Project.name Project.createdAt Project.taskCount
       date_toISOString].
  assert (Hbad : Project.bad_name (VStr name) = false).
  { unfold Project.bad_name. rewrite (truthy_string name Hname).
    cbn [typeof jstype_eqb negb orb string_of]. rewrite Htrim.
    destruct name; [congruence|reflexivity]. }
  rewrite Hbad.
  assert (Hcnt : default_to (or_else taskCount (VNum 0)) (VNum 0)
                 = taskCount).
  { destruct Htruthy as [Ht | ->]; [|reflexivity].
    unfold or_else. rewrite Ht.
    destruct taskCount; try reflexivity; discriminate. }
  rewrite Hcnt, Hcount.
  rewrite (default_truthy id VNull Hid), Hid.
  cbn [default_to]. rewrite (truthy_string _ Hiso).
  cbn [new_Date string_of]. rewrite Hparse, Htrim.
  reflexivity.
Qed.

Lemma Project_fromJSON_toJSON_witness :
  exists json,
    Project.toJSON (Examples.stamping_store VNull) Examples.work = Ok json
    /\ Project.fromJSON (Examples.stamping_store VNull) json Examples.fresh_env
       = (Ok Examples.work, Examples.fresh_env).
Proof.
  apply (Project_fromJSON_toJSON (Examples.stamping_store VNull) Examples.work
           Examples.fresh_env).
  - reflexivity.
  - reflexivity.
  - discriminate.
  - reflexivity.
  - left. reflexivity.
  - split; [reflexivity | discriminate].
Defined.

Lemma Project_fromJSON_isOk pf record e :
  isOk (fst (Project.fromJSON pf record e)) = project_constructs record.
Proof.
  unfold Project.fromJSON, project_constructs.
  assert (Hd : forall v, default_to (or_else v (VNum 0)) (VNum 0)
                         = or_else v (VNum 0))
    by (intros v; unfold or_else; destruct (truthy v) eqn:H;
        [destruct v; try reflexivity; discriminate | reflexivity]).
  destruct record; try reflexivity;
    rewrite Project_constructor_cases by discriminate; cbv zeta;
    cbn [get lookup_field Str.eqb String.eqb Ascii.eqb Bool.eqb andb];
    rewrite Hd;
    destruct (Project.bad_name _); [reflexivity|];
    destruct (Project.bad_count _); reflexivity.
Qed.

Lemma Project_constructed_fields pf arg e project e' :
  Project.constructor pf arg e = (Ok project, e') ->
  Project.name project <> ""
  /\ Project.bad_count (Project.taskCount project) = false.
Proof.
  intros H.
  assert (Hu : arg <> VUndefined) by (intros ->; discriminate H).
  assert (Hn : arg <> VNull) by (intros ->; discriminate H).
  rewrite (Project_constructor_cases pf arg e Hu Hn) in H. cbv zeta in H.
  destruct (Project.bad_name (get arg "name")) eqn:Hname; [discriminate|].
  destruct (Project.bad_count _) eqn:Hcount; [discriminate|].
  injection H as <- _. cbn [Project.name Project.taskCount].
  unfold Project.bad_name in Hname.
  apply orb_false_elim in Hname as [_ Hempty].
  split; [intros Hnm; rewrite Hnm in Hempty; discriminate | exact Hcount].
Qed.

(** X15. [loadProjects] never throws.  When the stored collection is an
    array, it returns, in order, the projects built from exactly the records
    that are objects with a name that is a string with something other than
    white space in it and with a task count that is absent, falsy or a
    number that is not below zero, and prints one warning for each record it
    drops; every project it returns has a name that is not empty and a task
    count that the guard of the constructor accepts. *)
Theorem loadProjects_keeps_the_valid_records pf w :
  (exists projects w', loadProjects pf w = (Ok projects, w'))
  /\ forall records w1,
      load pf keys_projects w = (Ok (VArr records), w1) ->
      exists projects w2,
        loadProjects pf w = (Ok projects, w2)
        /\ Forall2
             (fun record project =>
                exists e, fst (Project.fromJSON pf record e) = Ok project)
             (List.filter project_constructs records) projects
        /\ Forall (fun project =>
                     Project.name project <> ""
                     /\ Project.bad_count (Project.taskCount project) = false)
             projects
        /\ length (console w2)
           = (length (console w1)
              + length (List.filter (fun r => negb (project_constructs r))
                          records))%nat
        /\ this w2 = this w1
        /\ localStorage w2 = localStorage w1.
Proof.
  split; [apply loadProjects_ok|].
  intros records w1 Hload. unfold loadProjects, bind at 1. rewrite Hload.
  cbn beta iota. simpl negb. cbn iota.
  destruct (load_each_spec (Project.fromJSON pf) project_constructs "project"
              (Project_fromJSON_isOk pf) records O [] w1)
    as (xs & w2 & Heach & Hall & Hlen & Hthis & Hls).
  exists xs, w2. split; [exact Heach|]. split; [exact Hall|].
  split; [|repeat split; assumption].
  clear - Hall. induction Hall as [|record project rs ps [e He] _ IH];
    constructor; [|exact IH].
  unfold Project.fromJSON in He.
  destruct record; try discriminate;
    (destruct (Project.constructor pf _ e) as [[p|err] e'] eqn:Hc;
     [|discriminate];
     injection He as <-;
     exact (Project_constructed_fields pf _ _ _ _ Hc)).
Qed.

Lemma loadProjects_keeps_the_valid_records_witness :
  exists projects w2,
    loadProjects Examples.full_store
      (Examples.fallback_projects_world (VArr Examples.stored_projects))
    = (Ok projects, w2)
    /\ length (console w2) = 1%nat.
Proof.
  destruct (proj2 (loadProjects_keeps_the_valid_records Examples.full_store
                     (Examples.fallback_projects_world
                        (VArr Examples.stored_projects)))
              Examples.stored_projects
              (Examples.fallback_projects_world (VArr Examples.stored_projects))
              eq_refl)
    as (projects & w2 & Hload & _ & _ & Hconsole & _).
  exists projects, w2. split; [exact Hload|].
  rewrite Hconsole. reflexivity.
Defined.

(** ** [StorageService]: cleaning up and going back to the store *)

Lemma insert_ranked_In x y l :
  In y (insert_ranked x l) <-> y = x \/ In y l.
Proof.
  induction l as [|z l IH]; simpl.
  - split; [intros [H|[]]; auto | intros [H|[]]; auto].
  - destruct (before x z); simpl; [split; intros [H|H]; auto|].
    rewrite IH. split.
    + intros [H|[H|H]]; auto.
    + intros [H|[H|H]]; auto.
Qed.

Lemma sort_ranked_In y l : In y (sort_ranked l) <-> In y l.
Proof.
  induction l as [|x l IH]; simpl; [reflexivity|].
  rewrite insert_ranked_In, IH. split; intros [H|H]; auto.
Qed.

Lemma getItem_removeItem_Some k k0 v ls :
  LocalStorage.getItem k (LocalStorage.removeItem k0 ls) = Some v ->
  LocalStorage.getItem k ls = Some v.
Proof.
  destruct (Str.eqb k k0) eqn:He.
  - apply Str_eqb_eq in He. subst. rewrite getItem_removeItem_eq. discriminate.
  - apply Str_eqb_neq in He. rewrite getItem_removeItem_ne by exact He. auto.
Qed.

(** The removal loop of [_attemptCleanup] *)
Lemma remove_ranked_spec l maxToRemove : forall acc,
  (0 < maxToRemove)%nat ->
  (forall k, (forall item, In item l -> key item = k ->
                           isEssential item = true) ->
             LocalStorage.getItem k (fst (remove_ranked l maxToRemove acc))
             = LocalStorage.getItem k (fst acc))
  /\ (forall k v,
        LocalStorage.getItem k (fst (remove_ranked l maxToRemove acc)) = Some v ->
        LocalStorage.getItem k (fst acc) = Some v)
  /\ (0 <? snd (remove_ranked l maxToRemove acc))%nat
     = (0 <? snd acc)%nat || existsb (fun item => negb (isEssential item)) l.
Proof.
  induction l as [|item l IH]; intros acc Hmax; simpl.
  - repeat split; auto. rewrite orb_false_r. reflexivity.
  - match goal with
    | |- context [remove_ranked l maxToRemove ?a] =>
        destruct (IH a Hmax) as (Hkeep & Honly & Hcount)
    end.
    split; [|split].
    + intros k Hk. rewrite Hkeep by (intros i Hi; apply Hk; auto).
      destruct (isEssential item) eqn:He; [reflexivity|].
      destruct (snd acc <? maxToRemove)%nat; [|reflexivity].
      cbn [negb andb fst]. apply getItem_removeItem_ne.
      intros ->. specialize (Hk item (or_introl eq_refl) eq_refl). congruence.
    + intros k v Hg. apply Honly in Hg.
      destruct (negb (isEssential item) && (snd acc <? maxToRemove)%nat);
        [|exact Hg].
      cbn [fst] in Hg. eapply getItem_removeItem_Some. exact Hg.
    + rewrite Hcount. destruct (isEssential item); cbn [negb andb orb];
        [reflexivity|].
      destruct (snd acc <? maxToRemove)%nat eqn:Hlt; cbn [snd].
      * rewrite orb_true_r. reflexivity.
      * apply Nat.ltb_ge in Hlt.
        assert (H0 : (0 <? snd acc)%nat = true) by (apply Nat.ltb_lt; lia).
        rewrite H0. reflexivity.
Qed.

(** X16. [_attemptCleanup] never throws and touches nothing but the store,
    from which it only removes entries.  It keeps every entry whose key
    contains 'tasks' or 'projects' and every entry whose key does not start
    with the prefix, and it returns [true] exactly when the store is
    available and holds a key under the prefix that contains neither. *)
Theorem attemptCleanup_spares_essential_keys w :
  exists w',
    _attemptCleanup w
    = (Ok (_isAvailable (this w)
           && existsb (fun k => negb (Str.includes k "tasks"
                                      || Str.includes k "projects"))
                (prefixed_keys (localStorage w))), w')
    /\ this w' = this w
    /\ oracles w' = oracles w
    /\ console w' = console w
    /\ notified w' = notified w
    /\ (forall k,
          Str.includes k "tasks" || Str.includes k "projects" = true
          \/ Str.startsWith k prefix = false ->
          LocalStorage.getItem k (localStorage w')
          = LocalStorage.getItem k (localStorage w))
    /\ (forall k v,
          LocalStorage.getItem k (localStorage w') = Some v ->
          LocalStorage.getItem k (localStorage w) = Some v).
Proof.
  unfold _attemptCleanup, bind at 1, gets at 1. cbn beta iota.
  destruct (_isAvailable (this w)) eqn:Ha; cbn [negb andb].
  { match goal with
    | |- context [remove_ranked ?l ?m ?acc] =>
        pose proof (remove_ranked_spec l m acc) as Hspec;
        destruct (remove_ranked l m acc) as [ls' removed] eqn:Hrun
    end.
    destruct Hspec as (Hkeep & Honly & Hcount); [lia|].
    cbn [fst snd] in *.
    unfold bind, modify, ret. eexists. split.
    { f_equal. f_equal. rewrite Hcount. cbn [orb Nat.ltb Nat.leb].
      match goal with
      | |- existsb ?f (sort_ranked ?l) = existsb ?g ?ks =>
          destruct (existsb g ks) eqn:Hex
      end.
      - apply existsb_exists in Hex as (k & Hin & Hk).
        apply existsb_exists.
        eexists (Ranked k _ _). split.
        + apply (proj2 (sort_ranked_In _ _)). apply in_map_iff. exists k. split;
            [reflexivity | exact Hin].
        + exact Hk.
      - apply not_true_is_false. intros Hex'.
        apply existsb_exists in Hex' as (item & Hin & Hitem).
        apply (proj1 (sort_ranked_In _ _)) in Hin. apply in_map_iff in Hin as (k & <- & Hin).
        cbn [isEssential] in Hitem.
        assert (Hc : existsb (fun k => negb (Str.includes k "tasks"
                                            || Str.includes k "projects"))
                       (prefixed_keys (localStorage w)) = true).
        { apply existsb_exists. exists k. split; assumption. }
        congruence. }
    cbn [this oracles console notified localStorage with_localStorage].
    repeat split.
    - intros k Hk. apply Hkeep. intros item Hin Hkey.
      apply (proj1 (sort_ranked_In _ _)) in Hin. apply in_map_iff in Hin as (k0 & <- & Hin).
      cbn [key isEssential] in *. subst k0.
      destruct Hk as [Hk|Hk]; [exact Hk|].
      unfold prefixed_keys in Hin. apply filter_In in Hin as [_ Hp].
      apply andb_prop in Hp as [_ Hp]. congruence.
    - exact Honly. }
  unfold ret. exists w. repeat split; auto.
Qed.

Lemma attemptCleanup_spares_essential_keys_witness :
  exists w',
    _attemptCleanup
      (World [("todoapp_tasks", "[]"); ("todoapp_settings", "{}")]
         (Make true false ∅ false) Examples.fresh_env [] [])
    = (Ok true, w')
    /\ LocalStorage.getItem "todoapp_tasks" (localStorage w') = Some "[]".
Proof.
  destruct (attemptCleanup_spares_essential_keys
              (World [("todoapp_tasks", "[]"); ("todoapp_settings", "{}")]
                 (Make true false ∅ false) Examples.fresh_env [] []))
    as (w' & Hrun & _ & _ & _ & _ & Hkeep & _).
  exists w'. split; [exact Hrun|].
  rewrite Hkeep; [reflexivity | left; reflexivity].
Defined.


(** X17. Once the service is on its fallback map with the quota flag up, as
    a [save] that met a quota error leaves it, neither [save] nor
    [migrateBackToLocalStorage] takes it back to the store:
    [migrateBackToLocalStorage] returns [false] and changes nothing, and
    every [save] returns [true] from the fallback map, leaving the store and
    both flags as they were. *)
Theorem quota_fallback_is_not_left pf w :
  _usingFallback (this w) = true ->
  _quotaExceeded (this w) = true ->
  migrateBackToLocalStorage pf w = (Ok false, w)
  /\ canMigrateBack w = (Ok false, w)
  /\ forall key data,
       exists w',
         save pf key data w = (Ok true, w')
         /\ _fallbackStorage (this w') !! fullKey key = Some data
         /\ localStorage w' = localStorage w
         /\ _usingFallback (this w') = true
         /\ _quotaExceeded (this w') = true.
Proof.
  intros Hu Hq. split; [|split].
  - unfold migrateBackToLocalStorage, bind, gets. cbn beta iota.
    rewrite Hq, orb_true_r. reflexivity.
  - unfold canMigrateBack, gets. rewrite Hq, andb_false_r. reflexivity.
  - intros key data. unfold save, bind at 1, gets at 1. cbn beta iota.
    rewrite Hu, andb_false_r. unfold bind at 1, ret at 1. cbn iota.
    unfold bind, fallback_set, modify, ret. eexists. split; [reflexivity|].
    cbn [this with_this _fallbackStorage _usingFallback _quotaExceeded
         localStorage].
    split; [apply lookup_insert_eq|]. repeat split; assumption.
Qed.

Lemma quota_fallback_is_not_left_witness :
  migrateBackToLocalStorage Examples.roomy_store (Examples.fallback_world VNull)
  = (Ok false, Examples.fallback_world VNull).
Proof.
  exact (proj1 (quota_fallback_is_not_left Examples.roomy_store
                  (Examples.fallback_world VNull) eq_refl eq_refl)).
Defined.


Lemma getItem_put_entries pf entries : forall ls,
  (forall k, ~ In k (map fst entries) ->
     LocalStorage.getItem k (put_entries pf entries ls)
     = LocalStorage.getItem k ls)
  /\ (List.NoDup (map fst entries) ->
      forall k v, In (k, v) entries ->
        LocalStorage.getItem k (put_entries pf entries ls)
        = Some (default "" (JSON_stringify pf v))).
Proof.
  unfold put_entries.
  induction entries as [|[k0 v0] entries IH]; intros ls; simpl.
  - split; [reflexivity | intros _ k v []].
  - destruct (IH (LocalStorage.put k0 (default "" (JSON_stringify pf v0)) ls))
      as [Hout Hin].
    split.
    + intros k Hk. rewrite Hout by tauto.
      apply getItem_put_ne. intros ->. tauto.
    + intros Hnd k v [Heq|Hk].
      * injection Heq as -> ->. inversion Hnd; subst.
        rewrite Hout by assumption. apply getItem_put_eq.
      * inversion Hnd; subst. apply Hin; assumption.
Qed.

Lemma migrate_back_loop_accepted pf entries : forall migratedCount w,
  (forall ls k text, setItem_throws pf ls k text = None) ->
  Forall (fun kv => JSON_stringify pf (snd kv) <> None) entries ->
  migrate_back_loop pf entries migratedCount w
  = (Ok (Some (migratedCount + length entries)%nat),
     with_localStorage (put_entries pf entries (localStorage w)) w).
Proof.
  induction entries as [|[k v] entries IH]; intros migratedCount w Hset Hall.
  - simpl. rewrite Nat.add_0_r. destruct w; reflexivity.
  - inversion Hall as [|? ? Hv Hrest]; subst. cbn [snd] in Hv.
    destruct (JSON_stringify pf v) as [text|] eqn:Hs; [|congruence].
    cbn [migrate_back_loop]. unfold bind at 1, try_catch at 1, bind at 1.
    unfold write. rewrite Hs. unfold setItem. rewrite Hset.
    unfold ret at 1. cbn iota. rewrite (IH _ _ Hset Hrest).
    cbn [length put_entries fold_left fst snd localStorage with_localStorage].
    unfold put_entries. rewrite Hs. cbn [default].
    do 3 f_equal. lia.
Qed.

(** X18. When the service is on its fallback map with the quota flag down,
    the store accepts every write and [JSON.stringify] serialises every
    value of the map, [migrateBackToLocalStorage] returns [true], empties
    the map and leaves the fallback; afterwards the store holds, under each
    key of the map that starts with the prefix, the text of its value, and
    under every other key what it held. *)
Theorem migrateBack_restores_the_store pf w :
  _isAvailable (this w) = true ->
  _quotaExceeded (this w) = false ->
  _usingFallback (this w) = true ->
  (forall ls k text, setItem_throws pf ls k text = None) ->
  (forall k v, _fallbackStorage (this w) !! k = Some v ->
               JSON_stringify pf v <> None) ->
  exists w',
    migrateBackToLocalStorage pf w = (Ok true, w')
    /\ _usingFallback (this w') = false
    /\ _fallbackStorage (this w') = ∅
    /\ (forall k v,
          _fallbackStorage (this w) !! k = Some v ->
          Str.startsWith k prefix = true ->
          LocalStorage.getItem k (localStorage w') = JSON_stringify pf v)
    /\ (forall k, _fallbackStorage (this w) !! k = None ->
          LocalStorage.getItem k (localStorage w')
          = LocalStorage.getItem k (localStorage w)).
Proof.
  intros Ha Hq Hu Hset Hjson.
  unfold migrateBackToLocalStorage, bind at 1, gets at 1. cbn beta iota.
  rewrite Ha, Hq, Hu. cbn [negb orb].
  set (entries := fallback_entries (_fallbackStorage (this w))).
  assert (Hall : Forall (fun kv => JSON_stringify pf (snd kv) <> None) entries).
  { apply List.Forall_forall. intros [k v] Hin. subst entries.
    unfold fallback_entries in Hin. apply filter_In in Hin as [Hin _].
    apply list_elem_of_In, elem_of_map_to_list in Hin.
    exact (Hjson k v Hin). }
  assert (Hnd : List.NoDup (map fst entries)).
  { subst entries. unfold fallback_entries.
    pose proof (NoDup_fst_map_to_list (_fallbackStorage (this w))) as H.
    apply NoDup_ListNoDup in H.
    revert H. generalize (map_to_list (_fallbackStorage (this w))).
    induction l as [|[k v] l IH]; intros H; simpl; [constructor|].
    inversion H as [|? ? Hk Hl]; subst.
    destruct (Str.startsWith k prefix); simpl; [|apply IH; exact Hl].
    constructor; [|apply IH; exact Hl].
    intros Hin. apply Hk. apply in_map_iff in Hin as ([k' v'] & Heq & Hin).
    apply filter_In in Hin as [Hin _]. apply in_map_iff.
    exists (k', v'). split; assumption. }
  unfold bind at 1. rewrite (migrate_back_loop_accepted pf entries O w Hset Hall).
  cbn iota. rewrite Nat.add_0_l, Nat.eqb_refl.
  unfold bind, set_usingFallback, set_fallbackStorage, console_print, modify,
    ret. eexists. split; [reflexivity|].
  cbn [this localStorage with_this with_localStorage _usingFallback
       _fallbackStorage].
  destruct (getItem_put_entries pf entries (localStorage w)) as [Hout Hin].
  split; [reflexivity|]. split; [reflexivity|]. split.
  - intros k v Hk Hp.
    rewrite (Hin Hnd k v).
    + cbn [default]. specialize (Hjson k v Hk).
      destruct (JSON_stringify pf v); [reflexivity|congruence].
    + subst entries. unfold fallback_entries. apply filter_In.
      split; [|exact Hp]. apply list_elem_of_In, elem_of_map_to_list. exact Hk.
  - intros k Hk. apply Hout. intros Hin'.
    apply in_map_iff in Hin' as ([k' v'] & Heq & Hin'). cbn in Heq. subst k'.
    subst entries. unfold fallback_entries in Hin'.
    apply filter_In in Hin' as [Hin' _].
    apply list_elem_of_In, elem_of_map_to_list in Hin'. congruence.
Qed.

Lemma migrateBack_restores_the_store_witness :
  exists w',
    migrateBackToLocalStorage Examples.roomy_store
      (World [] (Make true false {[ keys_tasks := VArr [] ]} true)
         Examples.fresh_env [] []) = (Ok true, w')
    /\ _usingFallback (this w') = false.
Proof.
  destruct (migrateBack_restores_the_store Examples.roomy_store
              (World [] (Make true false {[ keys_tasks := VArr [] ]} true)
                 Examples.fresh_env [] []))
    as (w' & Hrun & Hu & _); try reflexivity.
  - intros k v _. discriminate.
  - exists w'. split; [exact Hrun | exact Hu].
Defined.

(** ** [StorageService]: the settings *)

Lemma lookup_set_field k k' v fs :
  lookup_field k (set_field k' v fs)
  = if Str.eqb k' k then v else lookup_field k fs.
Proof.
  induction fs as [|[k0 v0] fs IH]; simpl.
  - reflexivity.
  - destruct (Str.eqb k0 k') eqn:He; simpl.
    + apply Str_eqb_eq in He. subst k0.
      destruct (Str.eqb k' k); reflexivity.
    + rewrite IH. destruct (Str.eqb k' k) eqn:Hk; [|reflexivity].
      apply Str_eqb_eq in Hk. subst k'. rewrite He. reflexivity.
Qed.

(** An object spread over the fields written so far: a key of the object
    spread takes its value there, another key keeps its field *)
Lemma lookup_spread_object k props : forall fields,
  List.NoDup (map fst props) ->
  lookup_field k (spread (VObj props) fields)
  = if existsb (Str.eqb k) (map fst props) then lookup_field k props
    else lookup_field k fields.
Proof.
  unfold spread. cbn [own_properties].
  induction props as [|[k0 v0] props IH]; intros fields Hnd; simpl.
  - reflexivity.
  - inversion Hnd as [|? ? Hk0 Hrest]; subst.
    rewrite (IH _ Hrest). cbn [fst snd].
    destruct (existsb (Str.eqb k) (map fst props)) eqn:Hex.
    + rewrite orb_true_r.
      destruct (Str.eqb k0 k) eqn:He; [|reflexivity].
      apply Str_eqb_eq in He. subst k0.
      apply existsb_eqb_In in Hex. contradiction.
    + rewrite orb_false_r, lookup_set_field.
      destruct (Str.eqb k0 k) eqn:He.
      * apply Str_eqb_eq in He. subst k0.
        assert (H : Str.eqb k k = true) by (apply Str_eqb_eq; reflexivity).
        rewrite H. reflexivity.
      * assert (H : Str.eqb k k0 = false).
        { apply Str_eqb_neq. apply Str_eqb_neq in He. congruence. }
        rewrite H. reflexivity.
Qed.

(** X19. When the stored settings are an object, [loadSettings] returns an
    object in which every key of the stored object has its stored value,
    falsy or not: the defaults 'default' and 'light' and the time of the
    call stand only under the keys [currentProjectId], [theme] and
    [lastAccessed] that the stored object does not have.  It never throws,
    and it reads the clock exactly when the stored [lastAccessed] is falsy. *)
Theorem loadSettings_keeps_stored_fields pf w fs w1 :
  load pf keys_settings w = (Ok (VObj fs), w1) ->
  List.NoDup (map fst fs) ->
  exists result w2,
    loadSettings pf w = (Ok (VObj result), w2)
    /\ (forall k, In k (map fst fs) ->
          lookup_field k result = lookup_field k fs)
    /\ (~ In "currentProjectId" (map fst fs) ->
        lookup_field "currentProjectId" result = VStr "default")
    /\ (~ In "theme" (map fst fs) ->
        lookup_field "theme" result = VStr "light")
    /\ (~ In "lastAccessed" (map fst fs) ->
        lookup_field "lastAccessed" result
        = VStr (toISOString pf (Date_now pf (clock_calls (oracles w1)))))
    /\ w2 = (if truthy (lookup_field "lastAccessed" fs) then w1
             else with_oracles
                    (Env (uuid_calls (oracles w1))
                       (S (clock_calls (oracles w1)))) w1).
Proof.
  intros Hload Hnd. unfold loadSettings, bind at 1. rewrite Hload.
  cbn [truthy typeof jstype_eqb negb orb].
  unfold settings_with_defaults, bind at 1. cbn [get].
  assert (Hin : forall k, In k (map fst fs) ->
            existsb (Str.eqb k) (map fst fs) = true).
  { intros k Hk. apply existsb_eqb_In. exact Hk. }
  assert (Hout : forall k, ~ In k (map fst fs) ->
            existsb (Str.eqb k) (map fst fs) = false).
  { intros k Hk. apply not_true_is_false. intros H.
    apply existsb_eqb_In in H. contradiction. }
  assert (Habsent : forall k, ~ In k (map fst fs) ->
            lookup_field k fs = VUndefined).
  { intros k Hk. clear - Hk. induction fs as [|[k0 v0] fs IH]; simpl;
      [reflexivity|].
    destruct (Str.eqb k0 k) eqn:He.
    - apply Str_eqb_eq in He. subst. simpl in Hk. tauto.
    - apply IH. simpl in Hk. tauto. }
  destruct (truthy (lookup_field "lastAccessed" fs)) eqn:Hla.
  - unfold ret. eexists _, w1. split; [reflexivity|].
    split; [|split; [|split; [|split]]].
    + intros k Hk. rewrite (lookup_spread_object k fs _ Hnd), (Hin k Hk).
      reflexivity.
    + intros Hk. rewrite (lookup_spread_object _ fs _ Hnd), (Hout _ Hk).
      cbn [lookup_field]. rewrite (Habsent _ Hk). reflexivity.
    + intros Hk. rewrite (lookup_spread_object _ fs _ Hnd), (Hout _ Hk).
      cbn [lookup_field]. rewrite (Habsent _ Hk). reflexivity.
    + intros Hk. rewrite (Habsent _ Hk) in Hla. discriminate.
    + reflexivity.
  - unfold now_iso, bind at 1, in_oracles, zoom, Date_current.
    cbn [date_toISOString lift_result]. unfold bind, lift_result, ret.
    cbn [date_toISOString].
    eexists _, _. split; [reflexivity|].
    split; [|split; [|split; [|split]]].
    + intros k Hk. rewrite (lookup_spread_object k fs _ Hnd), (Hin k Hk).
      reflexivity.
    + intros Hk. rewrite (lookup_spread_object _ fs _ Hnd), (Hout _ Hk).
      cbn [lookup_field]. rewrite (Habsent _ Hk). reflexivity.
    + intros Hk. rewrite (lookup_spread_object _ fs _ Hnd), (Hout _ Hk).
      cbn [lookup_field]. rewrite (Habsent _ Hk). reflexivity.
    + intros Hk. rewrite (lookup_spread_object _ fs _ Hnd), (Hout _ Hk).
      reflexivity.
    + reflexivity.
Qed.

Lemma loadSettings_keeps_stored_fields_witness :
  exists result w2,
    loadSettings Examples.roomy_store
      (World [] (Make true true
                   {[ keys_settings := VObj [("theme", VStr "")] ]} true)
         Examples.fresh_env [] []) = (Ok (VObj result), w2)
    /\ lookup_field "theme" result = VStr ""
    /\ lookup_field "currentProjectId" result = VStr "default".
Proof.
  assert (Hload :
    load Examples.roomy_store keys_settings
      (World [] (Make true true
                   {[ keys_settings := VObj [("theme", VStr "")] ]} true)
         Examples.fresh_env [] [])
    = (Ok (VObj [("theme", VStr "")]),
       World [] (Make true true
                   {[ keys_settings := VObj [("theme", VStr "")] ]} true)
         Examples.fresh_env [] [])).
  { apply load_from_fallback. reflexivity. }
  destruct (loadSettings_keeps_stored_fields Examples.roomy_store _ _ _ Hload)
    as (result & w2 & Hrun & Hkeep & Hproject & _).
  - repeat constructor. intros [].
  - exists result, w2. split; [exact Hrun|]. split.
    + rewrite Hkeep; [reflexivity | left; reflexivity].
    + apply Hproject. intros [H|[]]. discriminate H.
Defined.

(** ** [Validation] *)

Lemma includes_cons (c : ascii) s ch :
  Str.includes (String c s) (String ch "")
  = Ascii.eqb ch c || Str.includes s (String ch "").
Proof.
  cbn [Str.includes String.prefix].
  destruct (ascii_dec ch c) as [->|Hne].
  - rewrite Ascii.eqb_refl. destruct s; reflexivity.
  - apply Ascii.eqb_neq in Hne. rewrite Hne. reflexivity.
Qed.

Lemma removeAngles_no_angle s ch :
  ch = "<"%char \/ ch = ">"%char ->
  Str.includes (Str.removeAngles s) (String ch "") = false.
Proof.
  intros Hch. induction s as [|c s IH]; [reflexivity|].
  cbn [Str.removeAngles].
  destruct (Ascii.eqb c "<" || Ascii.eqb c ">") eqn:Hc; [exact IH|].
  rewrite includes_cons, IH, orb_false_r.
  apply orb_false_elim in Hc as [H1 H2].
  destruct Hch as [-> | ->]; rewrite Ascii.eqb_sym; assumption.
Qed.

Lemma substring_no_char s ch : forall n,
  Str.includes s (String ch "") = false ->
  Str.includes (String.substring 0 n s) (String ch "") = false.
Proof.
  induction s as [|c s IH]; intros n H.
  - destruct n; reflexivity.
  - destruct n as [|n]; [reflexivity|].
    rewrite includes_cons in H. apply orb_false_elim in H as [Hc Hs].
    cbn [String.substring]. rewrite includes_cons, Hc, (IH n Hs). reflexivity.
Qed.

Lemma substring_length_le s : forall n,
  (String.length (String.substring 0 n s) <= n)%nat.
Proof.
  induction s as [|c s IH]; intros [|n]; simpl; try lia.
  specialize (IH n). lia.
Qed.

(** X20. [sanitizeText] returns '' for what is not a string; its result
    never contains '<' or '>'; and with a positive [maxLength] it is no
    longer than that. *)
Theorem sanitizeText_spec text maxLength :
  (typeof text <> TString -> Validation.sanitizeText text maxLength = "")
  /\ Str.includes (Validation.sanitizeText text maxLength) "<" = false
  /\ Str.includes (Validation.sanitizeText text maxLength) ">" = false
  /\ (forall m, maxLength = Some (S m) ->
        (Str.length (Validation.sanitizeText text maxLength) <= S m)%nat).
Proof.
  assert (Hno : forall ch, ch = "<"%char \/ ch = ">"%char ->
            Str.includes (Validation.sanitizeText text maxLength)
              (String ch "") = false).
  { intros ch Hch. unfold Validation.sanitizeText.
    destruct text; try reflexivity.
    destruct maxLength as [[|m]|]; try apply removeAngles_no_angle; auto.
    destruct (_ <? _)%nat; [|apply removeAngles_no_angle; auto].
    unfold Str.substring. apply substring_no_char.
    apply removeAngles_no_angle. exact Hch. }
  split; [|split; [|split]].
  - intros H. destruct text; try reflexivity. exfalso. apply H. reflexivity.
  - apply Hno. left. reflexivity.
  - apply Hno. right. reflexivity.
  - intros m ->. unfold Validation.sanitizeText.
    destruct text; cbn [Str.length String.length]; try lia.
    destruct (_ <? _)%nat eqn:Hlt.
    + unfold Str.substring. rewrite Nat.sub_0_r. apply substring_length_le.
    + apply Nat.ltb_ge in Hlt. exact Hlt.
Qed.

Lemma sanitizeText_spec_witness :
  Validation.sanitizeText (VNum 3) None = ""
  /\ (Str.length (Validation.sanitizeText (VStr "<b>bold</b>") (Some 4%nat))
      <= 4)%nat.
Proof.
  split.
  - apply (proj1 (sanitizeText_spec (VNum 3) None)). discriminate.
  - destruct (sanitizeText_spec (VStr "<b>bold</b>") (Some 4%nat))
      as (_ & _ & _ & Hlen).
    apply (Hlen 3%nat). reflexivity.
Defined.


(** ** [Validation.validateTaskData] and the constructor of [Task] *)

Lemma removeAngles_length s :
  (String.length (Str.removeAngles s) <= String.length s)%nat.
Proof.
  induction s as [|c s IH]; simpl; [lia|].
  destruct (_ || _); simpl; lia.
Qed.

Lemma removeAngles_fixed_cons c s :
  Str.removeAngles (String c s) = String c s ->
  Ascii.eqb c "<" || Ascii.eqb c ">" = false /\ Str.removeAngles s = s.
Proof.
  cbn [Str.removeAngles]. destruct (_ || _).
  - intros H. pose proof (removeAngles_length s) as Hl. rewrite H in Hl.
    simpl in Hl. lia.
  - intros H. injection H as H. auto.
Qed.

Lemma removeAngles_idempotent s :
  Str.removeAngles (Str.removeAngles s) = Str.removeAngles s.
Proof.
  induction s as [|c s IH]; [reflexivity|]. cbn [Str.removeAngles].
  destruct (_ || _) eqn:Hc; [exact IH|].
  cbn [Str.removeAngles]. rewrite Hc, IH. reflexivity.
Qed.

Lemma removeAngles_trimStart s :
  Str.removeAngles s = s -> Str.removeAngles (Str.trimStart s) = Str.trimStart s.
Proof.
  induction s as [|c s IH]; intros H; [reflexivity|].
  cbn [Str.trimStart]. destruct (Str.isWhiteSpace c); [|exact H].
  apply IH. apply (removeAngles_fixed_cons c s H).
Qed.

Lemma removeAngles_trimEnd s :
  Str.removeAngles s = s -> Str.removeAngles (Str.trimEnd s) = Str.trimEnd s.
Proof.
  induction s as [|c s IH]; intros H; [reflexivity|].
  destruct (removeAngles_fixed_cons c s H) as [Hc Hs].
  cbn [Str.trimEnd]. destruct (_ && _); [reflexivity|].
  cbn [Str.removeAngles]. rewrite Hc, (IH Hs). reflexivity.
Qed.

Lemma removeAngles_trim s :
  Str.removeAngles s = s -> Str.removeAngles (Str.trim s) = Str.trim s.
Proof.
  intros H. unfold Str.trim. apply removeAngles_trimEnd, removeAngles_trimStart.
  exact H.
Qed.

(** Sanitising twice: the second pass only trims *)
Lemma sanitizeText_twice v :
  Validation.sanitizeText (VStr (Validation.sanitizeText v None)) None
  = Str.trim (Validation.sanitizeText v None).
Proof.
  unfold Validation.sanitizeText at 1. apply removeAngles_trim.
  destruct v; try reflexivity. apply removeAngles_idempotent.
Qed.

Lemma isEmpty_length s : Str.isEmpty s = (Str.length s =? 0)%nat.
Proof. destruct s; reflexivity. Qed.

Lemma validateRequired_valid v fieldName :
  Validation.Res.valid (Validation.validateRequired v fieldName) = true ->
  Validation.Res.value (Validation.validateRequired v fieldName)
  = VStr (Validation.sanitizeText v None)
  /\ Str.isEmpty (Validation.sanitizeText v None) = false.
Proof.
  unfold Validation.validateRequired. cbv zeta.
  rewrite <- isEmpty_length, orb_diag.
  destruct (Str.isEmpty _); [discriminate|]. intros _. split; reflexivity.
Qed.

Lemma validateLength_value v lo hi fieldName :
  Validation.Res.value (Validation.validateLength v lo hi fieldName)
  = VStr (Validation.sanitizeText v None).
Proof.
  unfold Validation.validateLength. cbv zeta.
  destruct (_ <? _)%nat; [reflexivity|].
  destruct hi as [[|m]|]; try reflexivity.
  destruct (_ <? _)%nat; reflexivity.
Qed.

Lemma validateLength_valid_min v lo hi fieldName :
  Validation.Res.valid (Validation.validateLength v (S lo) hi fieldName) = true ->
  Str.isEmpty (Validation.sanitizeText v None) = false.
Proof.
  unfold Validation.validateLength. cbv zeta.
  destruct (_ <? _)%nat eqn:Hlt; [discriminate|]. intros _.
  apply Nat.ltb_ge in Hlt. destruct (Validation.sanitizeText v None);
    [simpl in Hlt; lia | reflexivity].
Qed.

Lemma validateDate_valid pf v fieldName :
  Validation.Res.valid (Validation.validateDate pf v fieldName) = true ->
  due_accepted (Validation.Res.value (Validation.validateDate pf v fieldName)).
Proof.
  unfold Validation.validateDate.
  destruct (negb (truthy v)); [intros _; exact I|].
  destruct v as [| |b|n|s|[t|]|xs|fs|x]; try discriminate; try (intros _; exact I).
  destruct (new_Date pf (VStr s)); [intros _; exact I | discriminate].
Qed.

Lemma validatePriority_value priority :
  exists p, Validation.Res.value (Validation.validatePriority priority) = VStr p
            /\ In p Task.validPriorities.
Proof.
  unfold Validation.validatePriority.
  destruct (_ || _); [exists "medium"; simpl; auto|]. cbv zeta.
  destruct (negb (existsb _ _)) eqn:Hex; [exists "medium"; simpl; auto|].
  eexists. split; [reflexivity|].
  apply negb_false_iff in Hex. apply existsb_exists in Hex as (p & Hin & He).
  apply Str_eqb_eq in He. rewrite He. exact Hin.
Qed.

Lemma checklist_step_accepted item index acc :
  Forall item_accepted (fst acc) ->
  Forall item_accepted (fst (Validation.checklist_step item index acc)).
Proof.
  intros Hacc. unfold Validation.checklist_step. destruct acc as [items errors].
  destruct (_ || _); [exact Hacc|]. cbv zeta.
  destruct (negb _) eqn:Hv; [exact Hacc|].
  apply negb_false_iff in Hv.
  destruct (validateRequired_valid _ _ Hv) as [-> Hne].
  cbn [fst] in *. apply Forall_app. split; [exact Hacc|].
  constructor; [|constructor].
  intros i. unfold Task.check_item.
  cbn [get lookup_field Str.eqb String.eqb Ascii.eqb Bool.eqb andb truthy typeof
       jstype_eqb negb orb].
  rewrite Hne. reflexivity.
Qed.

Lemma checklist_loop_accepted items : forall index acc,
  Forall item_accepted (fst acc) ->
  Forall item_accepted (fst (Validation.checklist_loop items index acc)).
Proof.
  induction items as [|item items IH]; intros index acc Hacc; simpl;
    [exact Hacc|].
  apply IH, checklist_step_accepted, Hacc.
Qed.

Lemma validateChecklist_valid v :
  Validation.Res.valid (Validation.validateChecklist v) = true ->
  exists items, Validation.Res.value (Validation.validateChecklist v) = VArr items
                /\ Forall item_accepted items.
Proof.
  unfold Validation.validateChecklist.
  destruct (negb (truthy v));
    [intros _; exists []; split; [reflexivity|constructor]|].
  destruct v as [| |b|n|s|d|xs|fs|x]; try discriminate.
  pose proof (checklist_loop_accepted xs O ([], []) ltac:(constructor)) as H.
  destruct (Validation.checklist_loop xs 0 ([], [])) as [items errors].
  destruct (_ <? _)%nat; [discriminate|]. intros _.
  exists items. split; [reflexivity | exact H].
Qed.

Lemma record_field_lookup k k' r a :
  lookup_field k' (snd (Validation.record_field k r a))
  = if Validation.Res.valid r && Str.eqb k k' then Validation.Res.value r
    else lookup_field k' (snd a).
Proof.
  unfold Validation.record_field.
  destruct (Validation.Res.valid r); cbn [negb andb snd]; [|reflexivity].
  apply lookup_set_field.
Qed.

Lemma record_field_no_error k r a :
  fst (Validation.record_field k r a) = [] ->
  fst a = [] /\ Validation.Res.valid r = true.
Proof.
  unfold Validation.record_field.
  destruct (Validation.Res.valid r); cbn [negb fst]; [auto|].
  intros H. apply app_eq_nil in H as [_ H]. discriminate.
Qed.

Lemma optional_field_lookup v k k' r a :
  lookup_field k'
    (snd (Validation.optional v (Validation.record_field k r) a))
  = if negb (isUndefined v) && Validation.Res.valid r && Str.eqb k k'
    then Validation.Res.value r
    else lookup_field k' (snd a).
Proof.
  unfold Validation.optional. destruct (negb (isUndefined v)); [|reflexivity].
  apply record_field_lookup.
Qed.

Lemma optional_field_no_error v k r a :
  fst (Validation.optional v (Validation.record_field k r) a) = [] ->
  fst a = [] /\ (isUndefined v = false -> Validation.Res.valid r = true).
Proof.
  unfold Validation.optional. destruct (isUndefined v); cbn [negb].
  - intros H. split; [exact H | discriminate].
  - intros H. apply record_field_no_error in H as [H1 H2]. auto.
Qed.

Lemma title_step_no_error taskData a :
  fst (Validation.title_step taskData a) = [] ->
  fst a = []
  /\ exists title,
       (forall k, lookup_field k (snd (Validation.title_step taskData a))
                  = if Str.eqb "title" k then VStr title
                    else lookup_field k (snd a))
       /\ Str.isEmpty (Str.trim title) = false.
Proof.
  unfold Validation.title_step. cbv zeta.
  destruct (negb _) eqn:Hv.
  { cbn [fst]. intros H. apply app_eq_nil in H as [_ H]. discriminate. }
  apply negb_false_iff in Hv.
  destruct (validateRequired_valid _ _ Hv) as [Hval Hne]. rewrite Hval.
  intros H. apply record_field_no_error in H as [Ha Hlen].
  split; [exact Ha|].
  exists (Validation.sanitizeText
            (VStr (Validation.sanitizeText (get taskData "title") None)) None).
  split.
  - intros k. rewrite record_field_lookup, Hlen, validateLength_value.
    reflexivity.
  - apply validateLength_valid_min in Hlen.
    rewrite sanitizeText_twice in *. rewrite trim_idempotent. exact Hlen.
Qed.

Lemma priority_step_lookup taskData a k :
  lookup_field k (snd (Validation.priority_step taskData a))
  = if Str.eqb "priority" k
    then Validation.Res.value
           (Validation.validatePriority (get taskData "priority"))
    else lookup_field k (snd a).
Proof. unfold Validation.priority_step. cbn [snd]. apply lookup_set_field. Qed.

Lemma priority_step_no_error taskData a :
  fst (Validation.priority_step taskData a) = [] -> fst a = [].
Proof.
  unfold Validation.priority_step. cbn [fst].
  destruct (negb _); [|auto].
  intros H. apply app_eq_nil in H as [_ H]. discriminate.
Qed.

(** What a report without errors carries *)
Lemma validateTaskData_validated_fields pf taskData report :
  Validation.validateTaskData pf taskData = Ok report ->
  Validation.Report.valid report = true ->
  validated_fields (Validation.Report.data report).
Proof.
  intros H Hvalid.
  assert (Hchain : forall a7 a6 a5 a4 a3 a2 a1 : Validation.acc,
    a1 = Validation.title_step taskData ([], []) ->
    a2 = Validation.optional (get taskData "description")
           (Validation.record_field "description"
              (Validation.validateLength (get taskData "description") 0
                 (Some 1000%nat) "Description")) a1 ->
    a3 = Validation.optional (get taskData "dueDate")
           (Validation.record_field "dueDate"
              (Validation.validateDate pf (get taskData "dueDate") "Due date"))
           a2 ->
    a4 = Validation.priority_step taskData a3 ->
    a5 = Validation.optional (get taskData "notes")
           (Validation.record_field "notes"
              (Validation.validateLength (get taskData "notes") 0
                 (Some 2000%nat) "Notes")) a4 ->
    a6 = Validation.optional (get taskData "checklist")
           (Validation.record_field "checklist"
              (Validation.validateChecklist (get taskData "checklist"))) a5 ->
    a7 = Validation.optional (get taskData "projectId")
           (Validation.record_field "projectId"
              (Validation.validateRequired (get taskData "projectId")
                 "Project ID")) a6 ->
    fst a7 = [] ->
    validated_fields (snd a7)).
  { intros a7 a6 a5 a4 a3 a2 a1 H1 H2 H3 H4 H5 H6 H7 Hnil.
    rewrite H7 in Hnil. apply optional_field_no_error in Hnil as [Hnil6 _].
    pose proof Hnil6 as Hnil5. rewrite H6 in Hnil5.
    apply optional_field_no_error in Hnil5 as [Hnil5 Hchecklist].
    pose proof Hnil5 as Hnil4. rewrite H5 in Hnil4.
    apply optional_field_no_error in Hnil4 as [Hnil4 _].
    pose proof Hnil4 as Hnil3. rewrite H4 in Hnil3.
    apply priority_step_no_error in Hnil3.
    pose proof Hnil3 as Hnil2. rewrite H3 in Hnil2.
    apply optional_field_no_error in Hnil2 as [Hnil2 Hdue].
    pose proof Hnil2 as Hnil1. rewrite H2 in Hnil1.
    apply optional_field_no_error in Hnil1 as [Hnil1 _].
    rewrite H1 in Hnil1.
    apply title_step_no_error in Hnil1 as (_ & title & Htitle & Hne).
    assert (Hlookup : forall k,
      lookup_field k (snd a7)
      = if negb (isUndefined (get taskData "projectId"))
           && Validation.Res.valid
                (Validation.validateRequired (get taskData "projectId")
                   "Project ID")
           && Str.eqb "projectId" k
        then Validation.Res.value
               (Validation.validateRequired (get taskData "projectId")
                  "Project ID")
        else if negb (isUndefined (get taskData "checklist"))
                && Validation.Res.valid
                     (Validation.validateChecklist (get taskData "checklist"))
                && Str.eqb "checklist" k
        then Validation.Res.value
               (Validation.validateChecklist (get taskData "checklist"))
        else if negb (isUndefined (get taskData "notes"))
                && Validation.Res.valid
                     (Validation.validateLength (get taskData "notes") 0
                        (Some 2000%nat) "Notes")
                && Str.eqb "notes" k
        then Validation.Res.value
               (Validation.validateLength (get taskData "notes") 0
                  (Some 2000%nat) "Notes")
        else if Str.eqb "priority" k
        then Validation.Res.value
               (Validation.validatePriority (get taskData "priority"))
        else if negb (isUndefined (get taskData "dueDate"))
                && Validation.Res.valid
                     (Validation.validateDate pf (get taskData "dueDate")
                        "Due date")
                && Str.eqb "dueDate" k
        then Validation.Res.value
               (Validation.validateDate pf (get taskData "dueDate") "Due date")
        else if negb (isUndefined (get taskData "description"))
                && Validation.Res.valid
                     (Validation.validateLength (get taskData "description") 0
                        (Some 1000%nat) "Description")
                && Str.eqb "description" k
        then Validation.Res.value
               (Validation.validateLength (get taskData "description") 0
                  (Some 1000%nat) "Description")
        else if Str.eqb "title" k then VStr title
        else VUndefined).
    { intros k. rewrite H7, optional_field_lookup, H6, optional_field_lookup,
        H5, optional_field_lookup, H4, priority_step_lookup, H3,
        optional_field_lookup, H2, optional_field_lookup, H1, Htitle.
      reflexivity. }
    unfold validated_fields. rewrite !Hlookup.
    cbn [Str.eqb String.eqb Ascii.eqb Bool.eqb andb].
    rewrite !andb_false_r.
    split; [exists title; split; [reflexivity | exact Hne]|].
    split.
    { destruct (isUndefined (get taskData "dueDate")) eqn:Hu; cbn [negb andb];
        [exact I|].
      rewrite (Hdue eq_refl). cbn [andb].
      apply validateDate_valid. exact (Hdue eq_refl). }
    split; [apply validatePriority_value|].
    split; [|repeat split].
    destruct (isUndefined (get taskData "checklist")) eqn:Hu; cbn [negb andb];
      [left; reflexivity|].
    rewrite (Hchecklist eq_refl). cbn [andb]. right.
    apply validateChecklist_valid. exact (Hchecklist eq_refl). }
  unfold Validation.validateTaskData in H.
  destruct taskData; try discriminate;
    injection H as <-; cbn [Validation.Report.valid Validation.Report.data] in *;
    cbv zeta in *; try discriminate;
    (eapply Hchain; try reflexivity; apply Nat.eqb_eq in Hvalid;
     apply length_zero_iff_nil; exact Hvalid).
Qed.

Lemma forEach_check_accepted items : forall index (e : env),
  Forall item_accepted items ->
  forEach (fun item i => lift_result (Task.check_item item i)) items index e
  = (Ok tt, e).
Proof.
  induction items as [|item items IH]; intros index e Hall; [reflexivity|].
  inversion Hall as [|? ? Hitem Hrest]; subst.
  simpl. unfold bind at 1, lift_result at 1. rewrite (Hitem index).
  apply IH. exact Hrest.
Qed.

(** The constructor accepts what [validateTaskData] has validated *)
Lemma validated_fields_construct pf fs e :
  validated_fields fs ->
  exists task e',
    Task.constructor pf (VObj fs) e = (Ok task, e')
    /\ valid_dates task
    /\ Task.completed task = false
    /\ Task.id task = VStr (uuidv4 pf (uuid_calls e))
    /\ exists title, lookup_field "title" fs = VStr title
                     /\ Task.title task = Str.trim title.
Proof.
  intros ((title & Htitle & Hne) & Hdue & (p & Hp & Hin) & Hchecklist
          & Hid & Hcompleted & Hcreated & Hupdated).
  unfold Task.constructor. cbv zeta. cbn [get].
  rewrite Htitle, Hp, Hid, Hcompleted, Hcreated, Hupdated.
  cbn [default_to truthy typeof jstype_eqb string_of negb orb].
  assert (Ht : Str.isEmpty title = false).
  { destruct title; [discriminate Hne | reflexivity]. }
  rewrite Ht, Hne. cbn [negb orb].
  rewrite (includes_priority_In p Hin). cbn [negb].
  assert (Hitems : exists items,
            default_to (lookup_field "checklist" fs) (VArr []) = VArr items
            /\ Forall item_accepted items).
  { destruct Hchecklist as [-> | (items & -> & Hall)].
    - exists []. split; [reflexivity | constructor].
    - exists items. split; [reflexivity | exact Hall]. }
  destruct Hitems as (items & -> & Hall).
  assert (Hd : exists due,
            negb (isNull (default_to (lookup_field "dueDate" fs) VNull))
            && negb (isDate (default_to (lookup_field "dueDate" fs) VNull))
            && negb (jstype_eqb
                       (typeof (default_to (lookup_field "dueDate" fs) VNull))
                       TString) = false
            /\ (if truthy (default_to (lookup_field "dueDate" fs) VNull)
                then Some match default_to (lookup_field "dueDate" fs) VNull with
                          | VDate d => d
                          | _ => new_Date pf
                                   (default_to (lookup_field "dueDate" fs) VNull)
                          end
                else None) = due
            /\ match due with Some d => valid_date d | None => True end).
  { destruct (lookup_field "dueDate" fs) as [| |b|n|s|[t|]|xs|ys|x];
      try contradiction; eexists; repeat split. }
  destruct Hd as (due & -> & -> & Hvalid).
  unfold bind at 1. rewrite (forEach_check_accepted items O e Hall).
  unfold bind at 1, fresh_uuid at 1.
  unfold bind at 1.
  match goal with
  | |- context [mapM (Task.make_item pf) items ?e1] =>
      destruct (mapM_make_item_ok pf items e1) as (l & e2 & ->)
  end.
  unfold bind, Date_current, ret.
  eexists _, _. split; [reflexivity|].
  cbn [Task.completed Task.id Task.title uuid_calls].
  split; [|split; [reflexivity|split; [reflexivity|]]].
  - unfold valid_dates. cbn [Task.dueDate Task.createdAt Task.updatedAt].
    split; [exact Hvalid | split; exact I].
  - exists title. split; reflexivity.
Qed.

(** ** [TaskService] *)

Lemma TaskService_initialized pf s :
  TaskService._initialized (fst s) = true ->
  TaskService._ensureInitialized pf s = (Ok tt, s).
Proof.
  intros H. unfold TaskService._ensureInitialized, bind, gets.
  rewrite H. reflexivity.
Qed.

(** [_saveTasks] on a list of tasks with valid dates, and on one with a date
    that is no date *)
Lemma TaskService_saveTasks_valid pf s :
  Forall valid_dates (TaskService._tasks (fst s)) ->
  exists w', TaskService._saveTasks pf s = (Ok tt, (fst s, w')).
Proof.
  intros Hall. unfold TaskService._saveTasks, bind at 1, gets at 1.
  unfold try_catch, bind, TaskService.in_storage, zoom.
  destruct (saveTasks_valid pf _ (snd s) Hall) as (w' & ->).
  exists w'. reflexivity.
Qed.

Lemma TaskService_saveTasks_invalid pf s :
  Exists (fun task => ~ valid_dates task) (TaskService._tasks (fst s)) ->
  TaskService._saveTasks pf s
  = (Throw (Error "Failed to save tasks to storage: Invalid time value"), s).
Proof.
  intros Hex. unfold TaskService._saveTasks, bind at 1, gets at 1.
  unfold try_catch, bind, TaskService.in_storage, zoom.
  rewrite (saveTasks_invalid pf _ (snd s) Hex). destruct s; reflexivity.
Qed.

(** X21. On an initialised service, [createTask] throws the validation
    error and changes nothing when [validateTaskData] reports an error.
    Otherwise the constructor of [Task] accepts the validated data: the new
    task, not completed and with valid dates, is appended to the list; the
    call returns it when every task already in the list has valid dates,
    and when one has not it throws 'Failed to create task: ...' with the
    new task left in the list. *)
Theorem createTask_appends_or_rejects pf taskData s :
  TaskService._initialized (fst s) = true ->
  match Validation.validateTaskData pf taskData with
  | Throw err => TaskService.createTask pf taskData s = (Throw err, s)
  | Ok report =>
      if Validation.Report.valid report then
        exists task e' r s',
          Task.constructor pf (VObj (Validation.Report.data report))
            (oracles (snd s)) = (Ok task, e')
          /\ valid_dates task
          /\ Task.completed task = false
          /\ TaskService.createTask pf taskData s = (r, s')
          /\ TaskService._tasks (fst s') = TaskService._tasks (fst s) ++ [task]
          /\ (Forall valid_dates (TaskService._tasks (fst s)) -> r = Ok task)
          /\ (Exists (fun t => ~ valid_dates t) (TaskService._tasks (fst s)) ->
              r = Throw (Error ("Failed to create task: "
                                +:+ "Failed to save tasks to storage: "
                                +:+ "Invalid time value")))
      else
        TaskService.createTask pf taskData s
        = (Throw (TaskService.validation_failed
                    (Validation.Report.errors report)), s)
  end.
Proof.
  intros Hinit.
  assert (Hrun : TaskService.createTask pf taskData s
    = match Validation.validateTaskData pf taskData with
      | Throw err => (Throw err, s)
      | Ok validation =>
          (if negb (Validation.Report.valid validation) then
             throw (TaskService.validation_failed
                      (Validation.Report.errors validation))
           else
             try_catch
               (task <- TaskService.in_storage
                          (in_oracles
                             (Task.constructor pf
                                (VObj (Validation.Report.data validation)))) ;;
                this <- gets fst ;;
                TaskService.set_tasks (TaskService._tasks this ++ [task]) ;;
                TaskService._saveTasks pf ;;
                ret task)
               (fun error =>
                  throw (Error ("Failed to create task: "
                                +:+ exn_message error)))) s
      end).
  { unfold TaskService.createTask, bind at 1.
    rewrite (TaskService_initialized pf s Hinit).
    unfold bind at 1, lift_result at 1.
    destruct (Validation.validateTaskData pf taskData); reflexivity. }
  destruct (Validation.validateTaskData pf taskData) as [report|err] eqn:Hv;
    [|exact Hrun].
  destruct (Validation.Report.valid report) eqn:Hvalid; [|exact Hrun].
  cbn [negb] in Hrun. rewrite Hrun. clear Hrun.
  destruct (validated_fields_construct pf (Validation.Report.data report)
              (oracles (snd s))
              (validateTaskData_validated_fields pf taskData report Hv Hvalid))
    as (task & e' & Hctor & Hdates & Hcompleted & _).
  exists task, e'.
  unfold try_catch, bind at 1, TaskService.in_storage at 1, zoom at 1,
    in_oracles at 1, zoom at 1.
  rewrite Hctor. unfold bind at 1, gets at 1. unfold bind at 1.
  unfold TaskService.set_tasks at 1, modify at 1. cbn [fst snd].
  unfold bind at 1.
  match goal with
  | |- context [TaskService._saveTasks pf ?s1] => set (s1' := s1)
  end.
  assert (Hdec : Forall valid_dates (TaskService._tasks (fst s))
                 \/ Exists (fun t => ~ valid_dates t)
                      (TaskService._tasks (fst s))).
  { clear. induction (TaskService._tasks (fst s)) as [|t l IH];
      [left; constructor|].
    assert (Ht : valid_dates t \/ ~ valid_dates t).
    { unfold valid_dates.
      destruct (Task.dueDate t) as [[|]|], (Task.createdAt t),
        (Task.updatedAt t); simpl; tauto. }
    destruct Ht as [Ht|Ht]; [|right; constructor; exact Ht].
    destruct IH as [IH|IH]; [left; constructor; assumption|].
    right. apply Exists_cons_tl. exact IH. }
  destruct Hdec as [Hall|Hex].
  - destruct (TaskService_saveTasks_valid pf s1') as (w' & ->).
    { subst s1'. cbn [fst TaskService._tasks]. apply Forall_app.
      split; [exact Hall | constructor; [exact Hdates | constructor]]. }
    unfold ret. eexists _, _. split; [reflexivity|].
    split; [exact Hdates|]. split; [exact Hcompleted|].
    split; [reflexivity|]. split; [reflexivity|].
    split; [reflexivity|].
    intros Hex. exfalso. clear - Hall Hex.
    apply List.Exists_exists in Hex as (t & Hin & Hn).
    rewrite List.Forall_forall in Hall. exact (Hn (Hall t Hin)).
  - rewrite (TaskService_saveTasks_invalid pf s1').
    2:{ subst s1'. cbn [fst TaskService._tasks].
        apply Exists_app. left. exact Hex. }
    unfold throw. eexists _, _. split; [reflexivity|].
    split; [exact Hdates|]. split; [exact Hcompleted|].
    split; [reflexivity|]. split; [reflexivity|].
    split; [|reflexivity].
    intros Hall. exfalso. clear - Hall Hex.
    apply List.Exists_exists in Hex as (t & Hin & Hn).
    rewrite List.Forall_forall in Hall. exact (Hn (Hall t Hin)).
Qed.

Lemma createTask_appends_or_rejects_witness :
  exists task s',
    TaskService.createTask Examples.roomy_store Examples.angle_item_input
      Examples.two_tasks = (Ok task, s')
    /\ length (TaskService._tasks (fst s')) = 3%nat.
Proof.
  pose proof (createTask_appends_or_rejects Examples.roomy_store
                Examples.angle_item_input Examples.two_tasks eq_refl) as H.
  destruct (Validation.validateTaskData Examples.roomy_store
              Examples.angle_item_input) as [report|err] eqn:Hv;
    [|vm_compute in Hv; discriminate].
  destruct (Validation.Report.valid report) eqn:Hvalid.
  2:{ vm_compute in Hv. injection Hv as <-. discriminate Hvalid. }
  destruct H as (task & e' & r & s' & _ & _ & _ & Hrun & Htasks & Hok & _).
  exists task, s'. split.
  - rewrite Hrun, Hok; [reflexivity|].
    repeat constructor.
  - rewrite Htasks, length_app. reflexivity.
Defined.

Lemma TaskService_findIndex_Some taskId l i :
  TaskService.findIndex taskId l = Some i ->
  exists task, l !! i = Some task
               /\ strict_eq (Task.id task) taskId = true
               /\ forall j task', (j < i)%nat -> l !! j = Some task' ->
                                  strict_eq (Task.id task') taskId = false.
Proof.
  revert i. induction l as [|x l IH]; intros i H; simpl in H; [discriminate|].
  destruct (strict_eq (Task.id x) taskId) eqn:Hx.
  - injection H as <-. exists x. repeat split; [exact Hx|]. intros j t' Hj. lia.
  - destruct (TaskService.findIndex taskId l) as [k|]; [|discriminate].
    injection H as <-. destruct (IH k eq_refl) as (t & Ht & Hid & Hfirst).
    exists t. repeat split; [exact Ht | exact Hid |].
    intros [|j] t' Hj Hl; simpl in Hl.
    + injection Hl as <-. exact Hx.
    + apply (Hfirst j t'); [lia | exact Hl].
Qed.

Lemma TaskService_findIndex_None taskId l :
  TaskService.findIndex taskId l = None <->
  Forall (fun task => strict_eq (Task.id task) taskId = false) l.
Proof.
  induction l as [|x l IH]; simpl.
  - split; [constructor | reflexivity].
  - destruct (strict_eq (Task.id x) taskId) eqn:Hx.
    + split; [discriminate|]. intros H. inversion H; congruence.
    + destruct (TaskService.findIndex taskId l) as [k|]; simpl; split.
      * discriminate.
      * intros H. inversion H as [|? ? _ Hl]; subst. apply IH in Hl. discriminate.
      * intros _. constructor; [exact Hx | apply IH; reflexivity].
      * reflexivity.
Qed.

Lemma valid_dates_all_or_some (l : list Task.t) :
  Forall valid_dates l \/ Exists (fun task => ~ valid_dates task) l.
Proof.
  induction l as [|t l IH]; [left; constructor|].
  assert (Ht : valid_dates t \/ ~ valid_dates t).
  { unfold valid_dates.
    destruct (Task.dueDate t) as [[|]|], (Task.createdAt t),
      (Task.updatedAt t); simpl; tauto. }
  destruct Ht as [Ht|Ht]; [|right; constructor; exact Ht].
  destruct IH as [IH|IH]; [left; constructor; assumption|].
  right. apply Exists_cons_tl. exact IH.
Qed.

Lemma valid_dates_not_both (l : list Task.t) :
  Forall valid_dates l -> Exists (fun task => ~ valid_dates task) l -> False.
Proof.
  intros Hall Hex. apply List.Exists_exists in Hex as (t & Hin & Hn).
  rewrite List.Forall_forall in Hall. exact (Hn (Hall t Hin)).
Qed.

(** X22. On an initialised service and for a truthy id, [deleteTask] throws
    'Task not found' and changes nothing when no task has that id.
    Otherwise it removes the first task with that id and no other; it
    returns that task when the tasks that remain have valid dates, and when
    one of them has not it throws 'Failed to delete task: ...' with the
    task removed all the same. *)
Theorem deleteTask_removes_first_match pf taskId s :
  TaskService._initialized (fst s) = true ->
  truthy taskId = true ->
  match TaskService.findIndex taskId (TaskService._tasks (fst s)) with
  | None =>
      Forall (fun task => strict_eq (Task.id task) taskId = false)
        (TaskService._tasks (fst s))
      /\ TaskService.deleteTask pf taskId s
         = (Throw TaskService.task_not_found, s)
  | Some index =>
      exists task r s',
        TaskService._tasks (fst s) !! index = Some task
        /\ strict_eq (Task.id task) taskId = true
        /\ (forall j task', (j < index)%nat ->
              TaskService._tasks (fst s) !! j = Some task' ->
              strict_eq (Task.id task') taskId = false)
        /\ TaskService.deleteTask pf taskId s = (r, s')
        /\ TaskService._tasks (fst s')
           = take index (TaskService._tasks (fst s))
             ++ drop (S index) (TaskService._tasks (fst s))
        /\ (Forall valid_dates (TaskService._tasks (fst s')) ->
            r = Ok (Some task))
        /\ (Exists (fun t => ~ valid_dates t) (TaskService._tasks (fst s')) ->
            r = Throw (Error ("Failed to delete task: "
                              +:+ "Failed to save tasks to storage: "
                              +:+ "Invalid time value")))
  end.
Proof.
  intros Hinit Hid.
  assert (Hrun : TaskService.deleteTask pf taskId s
    = match TaskService.findIndex taskId (TaskService._tasks (fst s)) with
      | None => (Throw TaskService.task_not_found, s)
      | Some taskIndex =>
          try_catch
            (TaskService.set_tasks
               (delete taskIndex (TaskService._tasks (fst s))) ;;
             TaskService._saveTasks pf ;;
             ret (TaskService._tasks (fst s) !! taskIndex))
            (fun error =>
               throw (Error ("Failed to delete task: "
                             +:+ exn_message error))) s
      end).
  { unfold TaskService.deleteTask, bind at 1.
    rewrite (TaskService_initialized pf s Hinit). rewrite Hid. cbn [negb].
    unfold bind at 1, gets at 1.
    destruct (TaskService.findIndex _ _); reflexivity. }
  destruct (TaskService.findIndex taskId (TaskService._tasks (fst s)))
    as [index|] eqn:Hfind.
  2:{ split; [apply TaskService_findIndex_None; exact Hfind | exact Hrun]. }
  destruct (TaskService_findIndex_Some _ _ _ Hfind) as (task & Ht & Hm & Hfirst).
  exists task. rewrite Hrun. clear Hrun.
  unfold try_catch, bind at 1, TaskService.set_tasks at 1, modify at 1.
  unfold bind at 1.
  match goal with
  | |- context [TaskService._saveTasks pf ?s1] => set (s1' := s1)
  end.
  assert (Hdel : delete index (TaskService._tasks (fst s))
                 = take index (TaskService._tasks (fst s))
                   ++ drop (S index) (TaskService._tasks (fst s))).
  { apply delete_take_drop. }
  destruct (valid_dates_all_or_some (TaskService._tasks (fst s1')))
    as [Hall|Hex].
  - destruct (TaskService_saveTasks_valid pf s1' Hall) as (w' & ->).
    unfold ret. eexists _, _. split; [exact Ht|]. split; [exact Hm|].
    split; [exact Hfirst|]. split; [reflexivity|].
    subst s1'. cbn [fst TaskService._tasks] in *.
    split; [exact Hdel|]. split; [intros _; rewrite Ht; reflexivity|].
    intros Hex. exfalso. exact (valid_dates_not_both _ Hall Hex).
  - rewrite (TaskService_saveTasks_invalid pf s1' Hex).
    unfold throw. eexists _, _. split; [exact Ht|]. split; [exact Hm|].
    split; [exact Hfirst|]. split; [reflexivity|].
    subst s1'. cbn [fst TaskService._tasks] in *.
    split; [exact Hdel|]. split; [|reflexivity].
    intros Hall. exfalso. exact (valid_dates_not_both _ Hall Hex).
Qed.

Lemma deleteTask_removes_first_match_witness :
  exists task s',
    TaskService.deleteTask Examples.roomy_store (VStr "t1") Examples.two_tasks
    = (Ok (Some task), s')
    /\ length (TaskService._tasks (fst s')) = 1%nat.
Proof.
  pose proof (deleteTask_removes_first_match Examples.roomy_store (VStr "t1")
                Examples.two_tasks eq_refl eq_refl) as H.
  cbn [TaskService.findIndex Examples.two_tasks fst TaskService._tasks
       Examples.task_with Task.id strict_eq] in H.
  change (Str.eqb "t1" "t1") with true in H. cbv iota in H.
  destruct H as (task & r & s' & _ & _ & _ & Hrun & Htasks & Hok & _).
  exists task, s'. rewrite Htasks in Hok. split.
  - rewrite Hrun, Hok; [reflexivity|]. repeat constructor.
  - rewrite Htasks. reflexivity.
Defined.

(** X23. On an initialised service, [clearCompletedTasks] splits the list
    in two: the completed tasks of the project (of every project when none
    is given), which it reports with their number, and the other tasks,
    which it keeps in their order.  The two filters of the code are
    complementary, so that no task is lost and none is kept twice.  With
    nothing to clear it changes nothing; otherwise it returns the report
    when the tasks kept have valid dates, and when one has not it throws
    with the list already cut down. *)
Theorem clearCompletedTasks_partitions pf projectId s :
  TaskService._initialized (fst s) = true ->
  let selected task :=
    Task.completed task
    && (strict_eq (default_to projectId VNull) VNull
        || strict_eq (Task.projectId task) (default_to projectId VNull)) in
  let tasks := TaskService._tasks (fst s) in
  exists r s',
    TaskService.clearCompletedTasks pf projectId s = (r, s')
    /\ (List.filter selected tasks = [] -> r = Ok ([], O) /\ s' = s)
    /\ (List.filter selected tasks <> [] ->
        TaskService._tasks (fst s')
        = List.filter (fun task => negb (selected task)) tasks
        /\ (Forall valid_dates (TaskService._tasks (fst s')) ->
            r = Ok (List.filter selected tasks,
                    length (List.filter selected tasks)))
        /\ (Exists (fun t => ~ valid_dates t) (TaskService._tasks (fst s')) ->
            r = Throw (Error ("Failed to clear completed tasks: "
                              +:+ "Failed to save tasks to storage: "
                              +:+ "Invalid time value")))).
Proof.
  intros Hinit selected tasks.
  unfold TaskService.clearCompletedTasks. cbv zeta. unfold bind at 1.
  rewrite (TaskService_initialized pf s Hinit).
  unfold bind at 1, gets at 1.
  fold tasks.
  change (List.filter _ tasks) with (List.filter selected tasks) at 1.
  assert (Hcompl : List.filter
            (fun task =>
               negb (Task.completed task)
               || (negb (strict_eq (default_to projectId VNull) VNull)
                   && negb (strict_eq (Task.projectId task)
                              (default_to projectId VNull)))) tasks
          = List.filter (fun task => negb (selected task)) tasks).
  { apply filter_ext. intros task. unfold selected.
    destruct (Task.completed task), (strict_eq (default_to projectId VNull) VNull),
      (strict_eq (Task.projectId task) (default_to projectId VNull));
      reflexivity. }
  destruct (List.filter selected tasks) as [|t l] eqn:Hsel.
  - cbn [length Nat.eqb]. unfold ret. exists (Ok ([], O)), s.
    split; [reflexivity|]. split; [auto|]. intros H. congruence.
  - cbn [length Nat.eqb]. rewrite <- Hsel.
    unfold try_catch, bind at 1, TaskService.set_tasks at 1, modify at 1.
    unfold bind at 1.
    match goal with
    | |- context [TaskService._saveTasks pf ?s1] => set (s1' := s1)
    end.
    assert (Hkept : TaskService._tasks (fst s1')
                    = List.filter (fun task => negb (selected task)) tasks).
    { subst s1'. cbn [fst TaskService._tasks]. rewrite <- Hcompl.
      reflexivity. }
    destruct (valid_dates_all_or_some (TaskService._tasks (fst s1')))
      as [Hall|Hex].
    + destruct (TaskService_saveTasks_valid pf s1' Hall) as (w' & ->).
      unfold ret. eexists _, _. split; [reflexivity|].
      split; [intros H; rewrite Hsel in H; discriminate|]. intros _.
      cbn [fst]. split; [exact Hkept|]. split.
      * intros _. unfold selected in Hsel |- *. rewrite Hsel. reflexivity.
      * intros Hex. exfalso. exact (valid_dates_not_both _ Hall Hex).
    + rewrite (TaskService_saveTasks_invalid pf s1' Hex).
      unfold throw. eexists _, _. split; [reflexivity|].
      split; [intros H; rewrite Hsel in H; discriminate|]. intros _.
      split; [exact Hkept|]. split; [|reflexivity].
      intros Hall. exfalso. exact (valid_dates_not_both _ Hall Hex).
Qed.

Lemma clearCompletedTasks_partitions_witness :
  exists s',
    TaskService.clearCompletedTasks Examples.roomy_store VUndefined
      (TaskService.Make
         [Task.Make (VStr "t0") "Done" (VStr "") None "low" (VStr "") [] true
            (VStr "default") (ValidDate 0) (ValidDate 0);
          Examples.task_with [] "default"] true, Examples.fresh_world)
    = (Ok ([Task.Make (VStr "t0") "Done" (VStr "") None "low" (VStr "") []
              true (VStr "default") (ValidDate 0) (ValidDate 0)], 1%nat), s')
    /\ TaskService._tasks (fst s') = [Examples.task_with [] "default"].
Proof.
  destruct (clearCompletedTasks_partitions Examples.roomy_store VUndefined
              (TaskService.Make
                 [Task.Make (VStr "t0") "Done" (VStr "") None "low" (VStr "")
                    [] true (VStr "default") (ValidDate 0) (ValidDate 0);
                  Examples.task_with [] "default"] true, Examples.fresh_world)
              eq_refl)
    as (r & s' & Hrun & _ & Hsome).
  destruct Hsome as (Hkept & Hok & _); [discriminate|].
  exists s'. split; [|exact Hkept].
  rewrite Hrun, Hok; [reflexivity|].
  rewrite Hkept. repeat constructor.
Defined.

Lemma record_field_errors_grow k r a :
  exists rest, fst (Validation.record_field k r a) = fst a ++ rest.
Proof.
  unfold Validation.record_field. destruct (negb _); cbn [fst].
  - eexists. reflexivity.
  - exists []. rewrite app_nil_r. reflexivity.
Qed.

Lemma optional_field_errors_grow v k r a :
  exists rest,
    fst (Validation.optional v (Validation.record_field k r) a) = fst a ++ rest.
Proof.
  unfold Validation.optional. destruct (negb _).
  - apply record_field_errors_grow.
  - exists []. rewrite app_nil_r. reflexivity.
Qed.

Lemma priority_step_errors_grow taskData a :
  exists rest, fst (Validation.priority_step taskData a) = fst a ++ rest.
Proof.
  unfold Validation.priority_step. cbn [fst]. destruct (negb _).
  - eexists. reflexivity.
  - exists []. rewrite app_nil_r. reflexivity.
Qed.

(** Without a title that survives sanitising, the report of
    [validateTaskData] starts with 'Title is required' *)
Lemma validateTaskData_title_required pf taskData :
  taskData <> VUndefined -> taskData <> VNull ->
  Validation.sanitizeText (get taskData "title") None = "" ->
  exists rest data,
    Validation.validateTaskData pf taskData
    = Ok (Validation.Report.Make false ("Title is required" :: rest) data).
Proof.
  intros Hu Hn Htitle.
  assert (Hchain : forall a1 : Validation.acc,
    fst a1 = ["Title is required"] ->
    exists rest,
      fst (Validation.optional (get taskData "projectId")
             (Validation.record_field "projectId"
                (Validation.validateRequired (get taskData "projectId")
                   "Project ID"))
          (Validation.optional (get taskData "checklist")
             (Validation.record_field "checklist"
                (Validation.validateChecklist (get taskData "checklist")))
          (Validation.optional (get taskData "notes")
             (Validation.record_field "notes"
                (Validation.validateLength (get taskData "notes") 0
                   (Some 2000%nat) "Notes"))
          (Validation.priority_step taskData
          (Validation.optional (get taskData "dueDate")
             (Validation.record_field "dueDate"
                (Validation.validateDate pf (get taskData "dueDate")
                   "Due date"))
          (Validation.optional (get taskData "description")
             (Validation.record_field "description"
                (Validation.validateLength (get taskData "description") 0
                   (Some 1000%nat) "Description")) a1))))))
      = "Title is required" :: rest).
  { intros a1 H1.
    repeat match goal with
    | |- context [Validation.optional ?v (Validation.record_field ?k ?r) ?a] =>
        let rest := fresh "rest" in
        let H := fresh "H" in
        destruct (optional_field_errors_grow v k r a) as [rest H];
        rewrite H; clear H
    | |- context [Validation.priority_step ?t ?a] =>
        let rest := fresh "rest" in
        let H := fresh "H" in
        destruct (priority_step_errors_grow t a) as [rest H];
        rewrite H; clear H
    end.
    rewrite H1. cbn [app]. eexists. reflexivity. }
  assert (Ht : fst (Validation.title_step taskData ([], []))
               = ["Title is required"]).
  { unfold Validation.title_step, Validation.validateRequired. cbv zeta.
    rewrite Htitle. reflexivity. }
  unfold Validation.validateTaskData.
  destruct taskData; try congruence; cbv zeta;
    destruct (Hchain _ Ht) as [rest Hrest];
    exists rest; eexists; rewrite Hrest; reflexivity.
Qed.

(** X24. [updateTask] validates the updates as it would a whole task: on an
    initialised service and for the id of a task it holds, updates without a
    title, or whose title is empty once sanitised, make it throw 'Task
    validation failed: Title is required...' and change nothing, whatever
    else they carry. *)
Theorem updateTask_requires_title pf taskId updates s :
  TaskService._initialized (fst s) = true ->
  truthy taskId = true ->
  TaskService.findIndex taskId (TaskService._tasks (fst s)) <> None ->
  updates <> VUndefined -> updates <> VNull ->
  Validation.sanitizeText (get updates "title") None = "" ->
  exists rest,
    TaskService.updateTask pf taskId updates s
    = (Throw (TaskService.validation_failed ("Title is required" :: rest)), s).
Proof.
  intros Hinit Hid Hfind Hu Hn Htitle.
  destruct (validateTaskData_title_required pf updates Hu Hn Htitle)
    as (rest & data & Hv).
  exists rest.
  unfold TaskService.updateTask, bind at 1.
  rewrite (TaskService_initialized pf s Hinit). rewrite Hid. cbn [negb].
  unfold bind at 1, gets at 1.
  destruct (TaskService.findIndex taskId (TaskService._tasks (fst s)));
    [|congruence].
  unfold bind at 1, lift_result at 1. rewrite Hv. reflexivity.
Qed.

Lemma updateTask_requires_title_witness :
  exists rest,
    TaskService.updateTask Examples.roomy_store (VStr "t1")
      (VObj [("description", VStr "tomorrow")]) Examples.two_tasks
    = (Throw (TaskService.validation_failed ("Title is required" :: rest)),
       Examples.two_tasks).
Proof.
  apply (updateTask_requires_title Examples.roomy_store (VStr "t1")
           (VObj [("description", VStr "tomorrow")]) Examples.two_tasks);
    try reflexivity; discriminate.
Defined.

(** X25. On an initialised service whose tasks have valid dates,
    [moveTaskToProject] with a truthy project id, on the id of a shaped
    task, returns the first task with that id with its project id replaced
    and its [updatedAt] set to the clock reading; the task is rewritten in
    place, its other fields and every other task are as before. *)
Theorem moveTaskToProject_moves pf taskId projectId s index task :
  TaskService._initialized (fst s) = true ->
  truthy taskId = true ->
  truthy projectId = true ->
  TaskService.findIndex taskId (TaskService._tasks (fst s)) = Some index ->
  TaskService._tasks (fst s) !! index = Some task ->
  shaped task ->
  Forall valid_dates (TaskService._tasks (fst s)) ->
  let moved :=
    Task.Make (Task.id task) (Task.title task) (Task.description task)
      (Task.dueDate task) (Task.priority task) (Task.notes task)
      (Task.checklist task) (Task.completed task) projectId
      (Task.createdAt task)
      (ValidDate (Date_now pf (clock_calls (oracles (snd s))))) in
  exists s',
    TaskService.moveTaskToProject pf taskId projectId s = (Ok (Some moved), s')
    /\ TaskService._tasks (fst s')
       = <[index := moved]> (TaskService._tasks (fst s))
    /\ TaskService._tasks (fst s') !! index = Some moved.
Proof.
  intros Hinit Hid Hproj Hfind Htask Hshape Hall moved.
  unfold TaskService.moveTaskToProject, bind at 1.
  rewrite (TaskService_initialized pf s Hinit). rewrite Hid, Hproj.
  cbn [negb]. unfold bind at 1, gets at 1. rewrite Hfind.
  unfold try_catch, bind at 1, TaskService.on_task at 1. rewrite Htask.
  rewrite (Task_update_projectId pf task projectId _ Hshape Hproj).
  fold moved. unfold bind at 1.
  match goal with
  | |- context [TaskService._saveTasks pf ?s1] => set (s1' := s1)
  end.
  assert (Hlt : (index < length (TaskService._tasks (fst s)))%nat).
  { apply lookup_lt_is_Some. eauto. }
  assert (Hvalid : valid_dates task).
  { rewrite Forall_lookup in Hall. exact (Hall index task Htask). }
  destruct (TaskService_saveTasks_valid pf s1') as (w' & ->).
  { subst s1'. cbn [fst TaskService._tasks]. apply Forall_insert;
      [exact Hall|].
    destruct Hvalid as (Hd & Hc & _). repeat split; assumption. }
  unfold TaskService.task_at, gets. subst s1'. cbn [fst TaskService._tasks].
  rewrite list_lookup_insert_eq by exact Hlt.
  eexists. split; [reflexivity|]. cbn [fst TaskService._tasks].
  split; [reflexivity|]. apply list_lookup_insert_eq. exact Hlt.
Qed.

Lemma moveTaskToProject_moves_witness :
  exists s',
    TaskService.moveTaskToProject Examples.roomy_store (VStr "t1") (VStr "p2")
      Examples.two_tasks
    = (Ok (Some (Task.Make (VStr "t1") "Ship release" (VStr "") None "high"
                   (VStr "") [] false (VStr "p2") (ValidDate 0) (ValidDate 0))),
       s').
Proof.
  destruct (moveTaskToProject_moves Examples.roomy_store (VStr "t1")
              (VStr "p2") Examples.two_tasks O
              (Examples.task_with [] "default"))
    as (s' & Hrun & _); try reflexivity.
  - repeat split; try reflexivity; [discriminate | simpl; auto | constructor].
  - repeat constructor.
  - exists s'. exact Hrun.
Defined.

(** ** [ProjectService] *)

Lemma createDefault_run pf e :
  Project.createDefault pf e
  = (Ok (Project.Make (VStr "default") "All Tasks"
           (ValidDate (Date_now pf (clock_calls e))) (VNum 0)),
     Env (uuid_calls e) (S (clock_calls e))).
Proof. reflexivity. Qed.

Lemma Project_toJSON_valid pf project :
  valid_date (Project.createdAt project) ->
  exists json, Project.toJSON pf project = Ok json.
Proof.
  unfold Project.toJSON. destruct (Project.createdAt project); [|contradiction].
  intros _. eexists. reflexivity.
Qed.

Lemma saveProjects_valid pf projects w :
  Forall (fun project => valid_date (Project.createdAt project)) projects ->
  exists w', saveProjects pf projects w = (Ok true, w').
Proof.
  intros Hall. unfold saveProjects, bind at 1.
  destruct (mapM_lift_result_ok (St := world) (Project.toJSON pf) projects w)
    as (ys & -> & _).
  { eapply Forall_impl; [exact Hall|]. intros project Hv.
    destruct (Project_toJSON_valid pf project Hv) as [json ->]. reflexivity. }
  destruct (save_cases pf keys_projects (VArr ys) w) as (w' & Hsave & _).
  exists w'. exact Hsave.
Qed.

(** [_saveProjects] writes to the storage only *)
Lemma ProjectService_saveProjects_frame pf s :
  exists r w', ProjectService._saveProjects pf s = (r, (fst s, w'))
               /\ (Forall (fun project => valid_date (Project.createdAt project))
                     (ProjectService._projects (fst s)) -> r = Ok tt).
Proof.
  unfold ProjectService._saveProjects, bind at 1, gets at 1.
  unfold try_catch, bind, ProjectService.in_storage, zoom.
  destruct (saveProjects pf (ProjectService._projects (fst s)) (snd s))
    as [[b|err] w'] eqn:Hrun.
  - eexists _, _. split; [reflexivity|]. reflexivity.
  - eexists _, _. split; [reflexivity|]. intros Hall.
    destruct (saveProjects_valid pf _ (snd s) Hall) as (w2 & Hok).
    rewrite Hok in Hrun. discriminate.
Qed.

Lemma ensureDefaultProject_spec pf s :
  exists r s',
    ProjectService._ensureDefaultProject pf s = (r, s')
    /\ ProjectService._initialized (fst s')
       = ProjectService._initialized (fst s)
    /\ (r = Ok tt ->
        ProjectService.findIndex (VStr "default")
          (ProjectService._projects (fst s')) <> None)
    /\ (Forall (fun project => valid_date (Project.createdAt project))
          (ProjectService._projects (fst s)) -> r = Ok tt).
Proof.
  unfold ProjectService._ensureDefaultProject, bind at 1, gets at 1.
  destruct (ProjectService.findIndex (VStr "default")
              (ProjectService._projects (fst s))) as [i|] eqn:Hfind.
  - exists (Ok tt), s. unfold ret. repeat split. intros _. congruence.
  - unfold bind at 1, ProjectService._createDefaultProject, try_catch.
    unfold bind at 1, ProjectService.in_storage at 1, zoom at 1,
      in_oracles at 1, zoom at 1.
    rewrite createDefault_run. unfold bind at 1, gets at 1.
    unfold bind at 1, ProjectService.set_projects at 1, modify at 1.
    cbn [fst snd]. unfold bind at 1.
    match goal with
    | |- context [ProjectService._saveProjects pf ?s1] =>
        destruct (ProjectService_saveProjects_frame pf s1)
          as (r1 & w1 & Hsave & Hvalid); rewrite Hsave
    end.
    cbn [fst ProjectService._projects] in *.
    destruct r1 as [[]|err].
    + unfold ret. eexists _, _. split; [reflexivity|].
      cbn [fst ProjectService._projects ProjectService._initialized].
      repeat split. intros _. cbn. discriminate.
    + unfold throw. eexists _, _. split; [reflexivity|].
      cbn [fst ProjectService._initialized].
      split; [reflexivity|]. split; [discriminate|].
      intros Hall. exfalso.
      assert (H : @Throw unit err = Ok tt); [|discriminate H].
      apply Hvalid. constructor; [exact I | exact Hall].
Qed.

(** X26. Whatever the store holds, initialising the project service never
    throws and leaves it initialised and holding a project with the id
    'default': the one that was stored, or a new one, 'All Tasks', put in
    front of the stored projects or, when those cannot be saved with it,
    in their place. *)
Theorem initialize_ensures_default_project pf s :
  ProjectService._initialized (fst s) = false ->
  exists s',
    ProjectService._ensureInitialized pf s = (Ok tt, s')
    /\ ProjectService.initialize pf s = (Ok tt, s')
    /\ ProjectService._initialized (fst s') = true
    /\ ProjectService.findIndex (VStr "default")
         (ProjectService._projects (fst s')) <> None.
Proof.
  intros Hinit.
  assert (Hsame : ProjectService._ensureInitialized pf s
                  = ProjectService.initialize pf s).
  { unfold ProjectService._ensureInitialized, bind, gets. rewrite Hinit.
    reflexivity. }
  rewrite Hsame.
  cut (exists s',
         ProjectService.initialize pf s = (Ok tt, s')
         /\ ProjectService._initialized (fst s') = true
         /\ ProjectService.findIndex (VStr "default")
              (ProjectService._projects (fst s')) <> None).
  { intros (s' & Hrun & Hi & Hd). exists s'. auto. }
  unfold ProjectService.initialize, bind at 1, gets at 1. rewrite Hinit.
  unfold try_catch at 1.
  unfold bind at 1, ProjectService.in_storage at 1, zoom at 1.
  destruct (loadProjects_ok pf (snd s)) as (projects & w1 & ->).
  unfold bind at 1, ProjectService.set_projects at 1, modify at 1.
  cbn [fst snd]. unfold bind at 1.
  match goal with
  | |- context [ProjectService._ensureDefaultProject pf ?s1] =>
      destruct (ensureDefaultProject_spec pf s1)
        as (r1 & s2 & -> & _ & Hdefault & _)
  end.
  destruct r1 as [[]|err].
  - unfold ProjectService.set_initialized, modify.
    eexists. split; [reflexivity|].
    cbn [fst ProjectService._initialized ProjectService._projects].
    split; [reflexivity|]. apply Hdefault. reflexivity.
  - unfold bind at 1, ProjectService.in_storage at 1, zoom at 1,
      console_print at 1, modify at 1.
    unfold bind at 1, ProjectService.set_projects at 1, modify at 1.
    cbn [fst snd]. unfold bind at 1, try_catch at 1.
    match goal with
    | |- context [ProjectService._ensureDefaultProject pf ?s3] =>
        destruct (ensureDefaultProject_spec pf s3)
          as (r3 & s4 & -> & _ & Hdefault3 & Hok)
    end.
    cbn [fst ProjectService._projects] in Hok.
    rewrite (Hok ltac:(constructor)) in *.
    unfold ProjectService.set_initialized, modify.
    eexists. split; [reflexivity|].
    cbn [fst ProjectService._initialized ProjectService._projects].
    split; [reflexivity|]. apply Hdefault3. reflexivity.
Qed.

Lemma initialize_ensures_default_project_witness :
  exists s',
    ProjectService.initialize Examples.roomy_store
      (ProjectService.Make [] false, Examples.fresh_world) = (Ok tt, s')
    /\ ProjectService._initialized (fst s') = true.
Proof.
  destruct (initialize_ensures_default_project Examples.roomy_store
              (ProjectService.Make [] false, Examples.fresh_world) eq_refl)
    as (s' & _ & Hrun & Hinit & _).
  exists s'. split; [exact Hrun | exact Hinit].
Defined.

Lemma ProjectService_initialized pf s :
  ProjectService._initialized (fst s) = true ->
  ProjectService._ensureInitialized pf s = (Ok tt, s).
Proof.
  intros H. unfold ProjectService._ensureInitialized, bind, gets.
  rewrite H. reflexivity.
Qed.

(** The report of [validateProjectData({ name })] *)
Lemma validateProjectData_name name :
  exists report,
    Validation.validateProjectData (VObj [("name", name)]) = Ok report
    /\ (Validation.Report.valid report = true ->
        Validation.Report.data report
        = [("name", VStr (Str.trim (Validation.sanitizeText name None)))]
        /\ Str.isEmpty (Str.trim (Validation.sanitizeText name None)) = false).
Proof.
  unfold Validation.validateProjectData. cbv zeta.
  cbn [get lookup_field Str.eqb String.eqb Ascii.eqb Bool.eqb andb].
  unfold Validation.optional. cbn [isUndefined negb].
  eexists. split; [reflexivity|].
  cbn [Validation.Report.valid Validation.Report.data].
  unfold Validation.name_step. cbv zeta.
  change (get (VObj [("name", name)]) "name") with name.
  destruct (Validation.Res.valid
              (Validation.validateRequired name "Project name")) eqn:Hreq;
    rewrite ?Hreq; cbn [negb]; [|cbn; discriminate].
  destruct (validateRequired_valid _ _ Hreq) as [Hval _]. rewrite Hval.
  unfold Validation.record_field.
  destruct (Validation.Res.valid (Validation.validateLength _ _ _ _)) eqn:Hlen;
    rewrite ?Hlen; cbn [negb fst snd]; [|cbn; discriminate].
  intros _. rewrite validateLength_value, sanitizeText_twice.
  split; [reflexivity|].
  apply validateLength_valid_min in Hlen. rewrite sanitizeText_twice in Hlen.
  exact Hlen.
Qed.

(** X27. On an initialised service, [createProject] either throws before
    writing anything, leaving the service as it was, or appends one project
    to the list: its name is the sanitised and trimmed name, which no
    project of the list has, whatever the case of the letters, and its task
    count is 0.  So the names of the projects stay different from one
    another up to case. *)
Theorem createProject_keeps_names_distinct pf name s :
  ProjectService._initialized (fst s) = true ->
  let lower project := Str.toLowerCase (Project.name project) in
  let projects := ProjectService._projects (fst s) in
  exists r s',
    ProjectService.createProject pf name s = (r, s')
    /\ (((exists err, r = Throw err) /\ s' = s)
        \/ exists project,
             ProjectService._projects (fst s') = projects ++ [project]
             /\ Project.name project
                = Str.trim (Validation.sanitizeText name None)
             /\ Project.name project <> ""
             /\ Project.taskCount project = VNum 0
             /\ ~ In (lower project) (map lower projects)
             /\ (r = Ok project \/ exists err, r = Throw err))
    /\ (List.NoDup (map lower projects) ->
        List.NoDup (map lower (ProjectService._projects (fst s')))).
Proof.
  intros Hinit lower projects.
  cut (exists r s',
    ProjectService.createProject pf name s = (r, s')
    /\ (((exists err, r = Throw err) /\ s' = s)
        \/ exists project,
             ProjectService._projects (fst s') = projects ++ [project]
             /\ Project.name project
                = Str.trim (Validation.sanitizeText name None)
             /\ Project.name project <> ""
             /\ Project.taskCount project = VNum 0
             /\ ~ In (lower project) (map lower projects)
             /\ (r = Ok project \/ exists err, r = Throw err))).
  { intros (r & s' & Hrun & Hcases). exists r, s'.
    split; [exact Hrun|]. split; [exact Hcases|].
    intros Hnd. destruct Hcases as [[_ ->]|(project & -> & _ & _ & _ & Hnew & _)];
      [exact Hnd|].
    rewrite map_app. cbn [map].
    apply NoDup_ListNoDup, NoDup_app. split; [apply NoDup_ListNoDup; exact Hnd|].
    split; [|apply NoDup_singleton].
    intros x Hx Hin. apply list_elem_of_singleton in Hin. subst x.
    apply Hnew. apply list_elem_of_In. exact Hx. }
  unfold ProjectService.createProject, bind at 1.
  rewrite (ProjectService_initialized pf s Hinit).
  destruct (Project.bad_name name) eqn:Hbad.
  { eexists _, _. split; [reflexivity|]. left. split; [eauto|reflexivity]. }
  destruct (validateProjectData_name name) as (report & Hv & Hdata).
  unfold bind at 1, lift_result at 1. rewrite Hv.
  destruct (Validation.Report.valid report) eqn:Hvalid; cbn [negb].
  2:{ eexists _, _. split; [reflexivity|]. left. split; [eauto|reflexivity]. }
  destruct (Hdata eq_refl) as [Hd Hne]. rewrite Hd.
  unfold bind at 1, gets at 1.
  cbn [lookup_field Str.eqb String.eqb Ascii.eqb Bool.eqb andb string_of].
  fold projects.
  set (validated := Str.trim (Validation.sanitizeText name None)) in *.
  destruct (existsb (ProjectService.same_name validated) projects) eqn:Hdup.
  { eexists _, _. split; [reflexivity|]. left. split; [eauto|reflexivity]. }
  unfold try_catch, bind at 1, ProjectService.in_storage at 1, zoom at 1,
    in_oracles at 1, zoom at 1.
  rewrite Project_constructor_cases by discriminate. cbv zeta.
  cbn [get lookup_field Str.eqb String.eqb Ascii.eqb Bool.eqb andb
       default_to truthy].
  assert (Hb : Project.bad_name (VStr validated) = false).
  { unfold Project.bad_name. cbn [truthy typeof jstype_eqb string_of negb orb].
    subst validated. rewrite trim_idempotent, Hne. reflexivity. }
  rewrite Hb. change (Project.bad_count (VNum 0)) with false.
  cbn [string_of].
  unfold bind at 1, gets at 1. unfold bind at 1.
  unfold ProjectService.set_projects at 1, modify at 1. cbn [fst snd].
  unfold bind at 1.
  match goal with
  | |- context [ProjectService._saveProjects pf ?s1] =>
      destruct (ProjectService_saveProjects_frame pf s1)
        as (r1 & w1 & Hsave & _); rewrite Hsave
  end.
  cbn [fst ProjectService._projects].
  assert (Htrim : Str.trim validated = validated).
  { subst validated. apply trim_idempotent. }
  assert (Hnew : ~ In (Str.toLowerCase validated) (map lower projects)).
  { intros Hin. apply in_map_iff in Hin as (p & Hp & Hin).
    assert (Hex : existsb (ProjectService.same_name validated) projects = true).
    { apply existsb_exists. exists p. split; [exact Hin|].
      unfold ProjectService.same_name. apply Str_eqb_eq. exact Hp. }
    congruence. }
  destruct r1 as [[]|err]; unfold ret, throw; eexists _, _;
    (split; [reflexivity|]); right; eexists;
    cbn [fst ProjectService._projects Project.name Project.taskCount];
    (split; [reflexivity|]); rewrite Htrim;
    (split; [reflexivity|]);
    (split; [intros Hn; cbn [Project.name] in Hn; unfold validated in *;
             rewrite Hn in Hne; discriminate|]);
    (split; [reflexivity|]);
    (split; [unfold lower; cbn [Project.name]; rewrite ?Htrim; exact Hnew|]);
    [left; reflexivity | right; eauto].
Qed.

Lemma createProject_keeps_names_distinct_witness :
  exists err,
    ProjectService.createProject Examples.roomy_store (VStr " WORK ")
      Examples.two_projects = (Throw err, Examples.two_projects).
Proof.
  destruct (createProject_keeps_names_distinct Examples.roomy_store
              (VStr " WORK ") Examples.two_projects eq_refl)
    as (r & s' & Hrun & _ & _).
  vm_compute in Hrun. injection Hrun as <- <-.
  eexists. vm_compute. reflexivity.
Defined.

(** The loop of [syncTaskCounts], with the projects already visited in
    front *)
Lemma sync_loop_spec g rest : forall pre acc init w,
  exists acc',
    ProjectService.sync_loop g (length pre) (length rest) acc
      (ProjectService.Make (pre ++ rest) init, w)
    = (Ok acc',
       (ProjectService.Make (pre ++ map (sync_project g) rest) init, w))
    /\ (Forall (fun u => snd (fst u) = snd u) (ProjectService.updated acc) ->
        Forall (fun u => snd (fst u) = snd u) (ProjectService.updated acc'))
    /\ (ProjectService.totalSynced acc
        = length (ProjectService.updated acc) ->
        ProjectService.totalSynced acc'
        = length (ProjectService.updated acc')).
Proof.
  induction rest as [|p rest IH]; intros pre acc init w.
  - exists acc. cbn. auto.
  - cbn [length ProjectService.sync_loop map].
    unfold bind at 1, gets at 1. cbn [fst ProjectService._projects].
    rewrite list_lookup_middle by reflexivity.
    assert (Hnext : forall acc1,
      exists acc',
        ProjectService.sync_loop g (S (length pre)) (length rest) acc1
          (ProjectService.Make (pre ++ sync_project g p :: rest) init, w)
        = (Ok acc',
           (ProjectService.Make
              (pre ++ sync_project g p :: map (sync_project g) rest) init, w))
        /\ (Forall (fun u => snd (fst u) = snd u)
              (ProjectService.updated acc1) ->
            Forall (fun u => snd (fst u) = snd u)
              (ProjectService.updated acc'))
        /\ (ProjectService.totalSynced acc1
            = length (ProjectService.updated acc1) ->
            ProjectService.totalSynced acc'
            = length (ProjectService.updated acc'))).
    { intros acc1.
      destruct (IH (pre ++ [sync_project g p]) acc1 init w) as (acc' & H & Hr).
      rewrite length_app, Nat.add_1_r in H. rewrite <- !app_assoc in H.
      exists acc'. split; [exact H | exact Hr]. }
    assert (Hsame : sync_project g p = p ->
      forall acc1, exists acc',
        ProjectService.sync_loop g (S (length pre)) (length rest) acc1
          (ProjectService.Make (pre ++ p :: rest) init, w)
        = (Ok acc',
           (ProjectService.Make
              (pre ++ sync_project g p :: map (sync_project g) rest) init, w))
        /\ (Forall (fun u => snd (fst u) = snd u)
              (ProjectService.updated acc1) ->
            Forall (fun u => snd (fst u) = snd u)
              (ProjectService.updated acc'))
        /\ (ProjectService.totalSynced acc1
            = length (ProjectService.updated acc1) ->
            ProjectService.totalSynced acc'
            = length (ProjectService.updated acc'))).
    { intros Hp acc1. destruct (Hnext acc1) as (acc' & H & Hr).
      rewrite Hp in H at 1. exists acc'. split; [exact H | exact Hr]. }
    assert (Hkeep : synced_count g p = Project.taskCount p ->
                    sync_project g p = p).
    { intros H. unfold sync_project. rewrite H. destruct p; reflexivity. }
    unfold bind at 1, ProjectService.sync_step, try_catch.
    unfold bind at 1, lift_result at 1.
    destruct (if strict_eq (Project.id p) (VStr "default")
              then g (VStr "all") else g (Project.id p))
      as [actual|err] eqn:Hcall.
    2:{ unfold ret at 1.
        destruct (Hsame (Hkeep ltac:(unfold synced_count; rewrite Hcall, ?Hpos; reflexivity))
                    (ProjectService.SyncResults (ProjectService.updated acc)
                       (ProjectService.errors acc
                        ++ [(Project.id p, exn_message err)])
                       (ProjectService.totalSynced acc)))
          as (acc' & H & Hr).
        exists acc'. split; [exact H | exact Hr]. }
    destruct (jstype_eqb (typeof actual) TNumber
              && number_leb (VNum 0) actual) eqn:Hguard.
    2:{ unfold ret at 1.
        destruct (Hsame (Hkeep ltac:(unfold synced_count;
                                     rewrite Hcall, Hguard; reflexivity)) acc)
          as (acc' & H & Hr).
        exists acc'. split; [exact H | exact Hr]. }
    destruct (strict_eq (Project.taskCount p) actual) eqn:Heq; cbn [negb].
    { unfold ret at 1.
      destruct (Hsame (Hkeep ltac:(unfold synced_count;
                                   rewrite Hcall, Hguard, Heq; reflexivity))
                  acc) as (acc' & H & Hr).
      exists acc'. split; [exact H | exact Hr]. }
    pose proof (sync_guard_accepts actual Hguard) as Hbad.
    unfold bind at 1, ProjectService.on_project at 1.
    cbn [fst ProjectService._projects].
    rewrite (list_lookup_middle pre rest p (length pre) eq_refl).
    unfold Project.setTaskCount. rewrite Hbad.
    unfold Project.set_count, modify.
    cbn [Project.id Project.name Project.createdAt snd fst].
    rewrite insert_app_r_alt by lia. rewrite Nat.sub_diag.
    cbn [insert list_insert ProjectService._initialized].
    unfold bind at 1, gets at 1. cbn [fst ProjectService._projects].
    rewrite (list_lookup_middle pre rest _ (length pre) eq_refl).
    cbn [Project.taskCount].
    unfold ret at 1.
    assert (Hp : sync_project g p
                 = Project.Make (Project.id p) (Project.name p)
                     (Project.createdAt p) actual).
    { unfold sync_project, synced_count. rewrite Hcall, Hguard, Heq.
      reflexivity. }
    rewrite <- Hp.
    destruct (Hnext (ProjectService.SyncResults
                       (ProjectService.updated acc
                        ++ [(Project.id p, actual, actual)])
                       (ProjectService.errors acc)
                       (S (ProjectService.totalSynced acc))))
      as (acc' & H & Hold & Hcount).
    exists acc'. split; [exact H|]. split.
    + intros Hacc. apply Hold. cbn [ProjectService.updated].
      apply Forall_app. split; [exact Hacc|]. repeat constructor.
    + intros Hacc. apply Hcount.
      cbn [ProjectService.updated ProjectService.totalSynced].
      rewrite length_app, Hacc. cbn. lia.
Qed.

(** X28. On an initialised service, [syncTaskCounts] leaves every project
    with its id, name and creation date and with the task count the
    callback returns for it ('all' being asked for the default project),
    wherever that is a number that is at least 0, which [NaN] is not; a
    project whose
    callback throws or returns something else keeps its count.  In the
    report, [totalSynced] is the number of entries of [updated], and each
    entry has an [oldCount] equal to its [newCount]: the old count is read
    after the new one was written.  The call returns its report when the
    projects can be saved. *)
Theorem syncTaskCounts_reconciles pf g s :
  ProjectService._initialized (fst s) = true ->
  exists r s',
    ProjectService.syncTaskCounts pf g s = (r, s')
    /\ ProjectService._projects (fst s')
       = map (sync_project g) (ProjectService._projects (fst s))
    /\ (forall results, r = Ok results ->
          Forall (fun u => snd (fst u) = snd u)
            (ProjectService.updated results)
          /\ ProjectService.totalSynced results
             = length (ProjectService.updated results))
    /\ (Forall (fun project => valid_date (Project.createdAt project))
          (ProjectService._projects (fst s)) ->
        exists results, r = Ok results).
Proof.
  intros Hinit. unfold ProjectService.syncTaskCounts, bind at 1.
  rewrite (ProjectService_initialized pf s Hinit).
  unfold bind at 1, gets at 1. unfold bind at 1.
  destruct s as [[projects init] w]. cbn [fst ProjectService._projects] in *.
  destruct (sync_loop_spec g projects [] (ProjectService.SyncResults [] [] O)
              init w) as (results & Hloop & Hold & Hcount).
  cbn [app length] in Hloop. rewrite Hloop.
  specialize (Hold ltac:(constructor)). specialize (Hcount eq_refl).
  destruct (0 <? ProjectService.totalSynced results)%nat.
  - unfold try_catch, bind at 1.
    match goal with
    | |- context [ProjectService._saveProjects pf ?s1] =>
        destruct (ProjectService_saveProjects_frame pf s1)
          as (r1 & w1 & Hsave & Hvalid); rewrite Hsave
    end.
    cbn [fst ProjectService._projects] in *.
    destruct r1 as [[]|err]; unfold ret, throw; eexists _, _;
      (split; [reflexivity|]); (split; [reflexivity|]); split.
    + intros results' H. injection H as <-. split; assumption.
    + intros _. eauto.
    + intros results' H. discriminate H.
    + intros Hall. exfalso.
      assert (H : @Throw unit err = Ok tt); [|discriminate H].
      apply Hvalid. apply List.Forall_forall. intros p Hin.
      apply in_map_iff in Hin as (p0 & <- & Hin).
      rewrite List.Forall_forall in Hall. exact (Hall p0 Hin).
  - unfold ret. eexists _, _. split; [reflexivity|].
    split; [reflexivity|]. split.
    + intros results' H. injection H as <-. split; assumption.
    + intros _. eauto.
Qed.

Lemma syncTaskCounts_reconciles_witness :
  exists results s',
    ProjectService.syncTaskCounts Examples.roomy_store
      (fun _ => Ok (VNum 5)) Examples.two_projects = (Ok results, s')
    /\ map Project.taskCount (ProjectService._projects (fst s'))
       = [VNum 5; VNum 5].
Proof.
  destruct (syncTaskCounts_reconciles Examples.roomy_store
              (fun _ => Ok (VNum 5)) Examples.two_projects eq_refl)
    as (r & s' & Hrun & Hprojects & _ & Hok).
  destruct Hok as [results ->]; [repeat constructor|].
  exists results, s'. split; [exact Hrun|]. rewrite Hprojects. reflexivity.
Defined.

(** ** [StorageService]: switching to the fallback map *)

Lemma migrate_key_spec pf k w :
  migrate_key pf k w
  = (Ok tt,
     match migrated pf (localStorage w) k with
     | Some data =>
         with_this (Make (_isAvailable (this w)) (_quotaExceeded (this w))
                      (<[k := data]> (_fallbackStorage (this w)))
                      (_usingFallback (this w))) w
     | None =>
         match LocalStorage.getItem k (localStorage w) with
         | Some v =>
             if negb (Str.isEmpty v) then
               World (localStorage w) (this w) (oracles w)
                 (console w ++ ["Failed to migrate key " +:+ k
                                +:+ " to fallback storage"]) (notified w)
             else w
         | None => w
         end
     end).
Proof.
  unfold migrate_key, migrated, bind, gets.
  destruct (LocalStorage.getItem k (localStorage w)) as [v|]; [|reflexivity].
  destruct (negb (Str.isEmpty v)); [|reflexivity].
  destruct (JSON_parse pf v); reflexivity.
Qed.

Lemma forEach_migrate_content pf keys : forall index w,
  exists w',
    forEach (fun key _ => migrate_key pf key) keys index w = (Ok tt, w')
    /\ same_flags w w'
    /\ localStorage w' = localStorage w
    /\ forall K,
         _fallbackStorage (this w') !! K
         = match (if existsb (Str.eqb K) keys
                  then migrated pf (localStorage w) K else None) with
           | Some data => Some data
           | None => _fallbackStorage (this w) !! K
           end.
Proof.
  induction keys as [|k keys IH]; intros index w.
  - exists w. repeat split.
  - cbn [forEach]. unfold bind at 1. rewrite migrate_key_spec.
    match goal with
    | |- context [forEach _ keys (S index) ?w1] =>
        destruct (IH (S index) w1) as (w2 & -> & Hf & Hl & Hc);
        assert (Hflags : same_flags w w1 /\ localStorage w1 = localStorage w
                         /\ forall K,
                              _fallbackStorage (this w1) !! K
                              = match (if Str.eqb K k
                                       then migrated pf (localStorage w) K
                                       else None) with
                                | Some data => Some data
                                | None => _fallbackStorage (this w) !! K
                                end)
    end.
    { destruct (migrated pf (localStorage w) k) as [data|] eqn:Hm.
      - repeat split. intros K. cbn [this with_this _fallbackStorage].
        destruct (Str.eqb K k) eqn:HK.
        + apply Str_eqb_eq in HK. subst K. rewrite Hm. apply lookup_insert_eq.
        + apply Str_eqb_neq in HK. apply lookup_insert_ne. congruence.
      - assert (Hnone : forall K,
                  match (if Str.eqb K k
                         then migrated pf (localStorage w) K else None) with
                  | Some data => Some data
                  | None => _fallbackStorage (this w) !! K
                  end = _fallbackStorage (this w) !! K).
        { intros K. destruct (Str.eqb K k) eqn:HK; [|reflexivity].
          apply Str_eqb_eq in HK. subst K. rewrite Hm. reflexivity. }
        destruct (LocalStorage.getItem k (localStorage w)) as [v|];
          [destruct (negb (Str.isEmpty v))|];
          repeat split; intros K; rewrite Hnone; reflexivity. }
    destruct Hflags as (Hf1 & Hl1 & Hc1).
    exists w2. split; [reflexivity|]. split; [|split].
    + destruct Hf1 as (? & ? & ?), Hf as (? & ? & ?).
      repeat split; congruence.
    + congruence.
    + intros K. rewrite Hc, Hc1, Hl1. cbn [existsb].
      destruct (Str.eqb K k); cbn [orb].
      * destruct (existsb (Str.eqb K) keys);
          destruct (migrated pf (localStorage w) K); reflexivity.
      * reflexivity.
Qed.

Lemma or_else_null_idempotent v :
  or_else (or_else v VNull) VNull = or_else v VNull.
Proof. unfold or_else. destruct (truthy v) eqn:H; [rewrite H|]; reflexivity. Qed.

(** X29. Switching a store in use to the fallback map loses no value that
    [load] returned, except that a falsy one now loads as [null]: after
    [_switchToFallback] the service is on the fallback map, the store is
    untouched, and every [load] returns what it returned before, passed
    through [|| null], without changing anything.  ([JSON.parse] is taken
    to reject the empty text.) *)
Theorem switchToFallback_keeps_what_loads pf reason w :
  _isAvailable (this w) = true ->
  _usingFallback (this w) = false ->
  JSON_parse pf "" = None ->
  exists w1,
    _switchToFallback pf reason w = (Ok tt, w1)
    /\ _usingFallback (this w1) = true
    /\ localStorage w1 = localStorage w
    /\ forall key v wb,
         load pf key w = (Ok v, wb) ->
         load pf key w1 = (Ok (or_else v VNull), w1).
Proof.
  intros Ha Hu Hempty.
  unfold _switchToFallback, bind at 1, gets at 1. rewrite Hu. cbn [negb].
  unfold bind at 1, set_usingFallback at 1, modify at 1.
  unfold bind at 1, console_print at 1, modify at 1.
  unfold bind at 1, _notifyError at 1, modify at 1.
  cbn [this localStorage oracles console notified with_this _isAvailable
       _quotaExceeded _fallbackStorage _usingFallback].
  unfold _migrateToFallback, bind at 1, gets at 1.
  cbn [this localStorage _isAvailable]. rewrite Ha. cbn [negb].
  unfold bind at 1.
  match goal with
  | |- context [forEach _ ?keys O ?w0] =>
      destruct (forEach_migrate_content pf keys O w0)
        as (w2 & -> & (Hf1 & Hf2 & Hf3) & Hl & Hc)
  end.
  cbn [this localStorage _isAvailable _quotaExceeded _usingFallback
       _fallbackStorage] in *.
  unfold console_print, modify. eexists. split; [reflexivity|].
  cbn [this localStorage _usingFallback].
  split; [exact Hf3|]. split; [exact Hl|].
  intros key v wb Hload.
  rewrite load_from_fallback
    by (cbn [this _isAvailable _usingFallback]; rewrite Hf3;
        apply andb_false_r).
  cbn [this _fallbackStorage]. f_equal. f_equal.
  specialize (Hc (fullKey key)).
  unfold load, bind, gets in Hload. cbn beta iota in Hload.
  rewrite Ha, Hu in Hload. cbn [andb negb] in Hload.
  unfold migrated in Hc.
  destruct (LocalStorage.getItem (fullKey key) (localStorage w)) as [text|]
    eqn:Hget.
  - assert (Hin : existsb (Str.eqb (fullKey key))
                    (prefixed_keys (localStorage w)) = true).
    { apply existsb_eqb_In. unfold prefixed_keys. apply filter_In. split.
      - apply getItem_In_keys. congruence.
      - destruct (fullKey_prefixed key) as [-> ->]. reflexivity. }
    rewrite Hin in Hc.
    destruct (JSON_parse pf text) as [data|] eqn:Hparse.
    + injection Hload as <- _.
      destruct text as [|c text]; [congruence|].
      cbn [Str.isEmpty negb] in Hc. rewrite ?Hparse in Hc. rewrite Hc.
      reflexivity.
    + assert (Hc' : _fallbackStorage (this w2) !! fullKey key
                    = _fallbackStorage (this w) !! fullKey key).
      { rewrite Hc. destruct (negb (Str.isEmpty text)); rewrite ?Hparse;
          reflexivity. }
      rewrite Hc'. unfold bind, console_print, _notifyError, modify,
        fallback_get_or_null, gets in Hload.
      cbn [this _fallbackStorage] in Hload. injection Hload as <- _.
      symmetry. apply or_else_null_idempotent.
  - assert (Hc' : _fallbackStorage (this w2) !! fullKey key
                  = _fallbackStorage (this w) !! fullKey key).
    { rewrite Hc. destruct (existsb _ _); reflexivity. }
    rewrite Hc'. unfold fallback_get_or_null, gets in Hload.
    injection Hload as <- _. symmetry. apply or_else_null_idempotent.
Qed.

Lemma switchToFallback_keeps_what_loads_witness :
  exists w1,
    _switchToFallback Examples.roomy_store "test" Examples.fresh_world
    = (Ok tt, w1)
    /\ _usingFallback (this w1) = true.
Proof.
  destruct (switchToFallback_keeps_what_loads Examples.roomy_store "test"
              Examples.fresh_world eq_refl eq_refl eq_refl)
    as (w1 & Hrun & Hu & _).
  exists w1. split; [exact Hrun | exact Hu].
Defined.
